(** * Transcript retrieval and report writing (transcript.py)

    A shallow embedding of [get_transcript] and of [main] with its report
    loop.

    The services the script talks to are not part of the repository.  The
    transcript library (youtube_transcript_api) is a record of method
    results, any of which may be an exception; channel and video
    enumeration are parameters of [main]; opening and writing the output
    file and printing always succeed.  Every call into the library and
    every print, write and sleep is logged in a trace, in order, so that
    statements about which strategies were attempted, and about what the
    report holds, are statements about that trace.

    The try/except nests of the source are kept as they are written, with
    the class each clause catches; [return] inside a nest is a way for a
    block to end, next to running to its end and raising. *)

From stdpp Require Import gmap strings list pretty.

Set Default Proof Using "Type".
Set Warnings "-register-all".
Open Scope string_scope.
Open Scope list_scope.

(** ** Python values and exceptions *)

(** The classes of exception the script can meet.  [KeyboardInterrupt] and
    [SystemExit] derive from BaseException only; the others derive from
    Exception.  [CouldNotRetrieveTranscript] is the base class of the
    transcript library's own errors (no transcript found, transcripts
    disabled, not translatable, ...), [RequestException] that of transport
    errors. *)
Inductive exn_class :=
  | AttributeError
  | KeyError
  | TypeError
  | CouldNotRetrieveTranscript
  | RequestException
  | KeyboardInterrupt
  | SystemExit.

Record exn := mk_exn { exn_cls : exn_class; exn_msg : string }.

(** [isinstance(e, Exception)] *)
Definition is_Exception (e : exn) : bool :=
  match exn_cls e with
  | KeyboardInterrupt | SystemExit => false
  | _ => true
  end.

(** [isinstance(e, AttributeError)] *)
Definition is_AttributeError (e : exn) : bool :=
  match exn_cls e with
  | AttributeError => true
  | _ => false
  end.

(** A bare [except:] clause. *)
Definition is_BaseException (_ : exn) : bool := true.

(** [str(e)] *)
Definition str (e : exn) : string := exn_msg e.

(** What a call into foreign code gives back. *)
Inductive result (A : Type) :=
  | Ok (a : A)
  | Err (e : exn).
Arguments Ok {A} a.
Arguments Err {A} e.

(** The values found in a transcript segment: the text is a [str], start
    and duration are floats, of which only the kind matters here. *)
Inductive pyval :=
  | PyStr (s : string)
  | PyFloat (millis : Z)
  | PyNone.

(** A transcript segment is a dict. *)
Abbreviation entry := (gmap string pyval).

(** ** The transcript library *)

Module Upstream.

(** A [Transcript] object: [fetch()] downloads the segments,
    [translate(lang)] gives another [Transcript]. *)
Inductive Transcript := mkTranscript {
  language_code : string;
  is_generated : bool;
  fetch : result (list entry);
  translate : string -> result Transcript
}.

(** A [TranscriptList]: the two finders and iteration ([list(...)]). *)
Record TranscriptList := mkTranscriptList {
  find_manually_created_transcript : list string -> result Transcript;
  find_generated_transcript : list string -> result Transcript;
  iter : result (list Transcript)
}.

(** The class [YouTubeTranscriptApi].  A method that the installed
    version lacks answers [Err] with an [AttributeError].
    [get_transcript video_id None] is the call without [languages]. *)
Record YouTubeTranscriptApi := mkApi {
  list_transcripts : string -> result TranscriptList;
  get_transcript : string -> option (list string) -> result (list entry)
}.

End Upstream.

(** ** Effects *)

(** What the script does to the outside, in order. *)
Inductive event :=
  | Call_list_transcripts (video_id : string)
  | Call_find_manually_created_transcript (langs : list string)
  | Call_find_generated_transcript (langs : list string)
  | Call_iter
  | Call_translate (t : Upstream.Transcript) (lang : string)
  | Call_fetch (t : Upstream.Transcript)
  | Call_get_transcript (video_id : string) (langs : option (list string))
  | Print_line (line : string)
  | File_open (path : string)
  | File_write (s : string)
  | File_close
  | Sleep (seconds : nat).

Abbreviation trace := (list event).

(** How a block of statements ends: it runs to its end with a value, it
    executes [return r], or it raises. *)
Inductive completion (R A : Type) :=
  | Normal (a : A)
  | Return (r : R)
  | Raise (e : exn).
Arguments Normal {R A} a.
Arguments Return {R A} r.
Arguments Raise {R A} e.

(** A block inside a function returning [R]: the events it emits and how
    it ends. *)
Definition M (R A : Type) : Type := trace * completion R A.

Definition ret {R A} (a : A) : M R A := ([], Normal a).

Definition return_ {R A} (r : R) : M R A := ([], Return r).

Definition raise {R A} (e : exn) : M R A := ([], Raise e).

Definition bind {R A B} (m : M R A) (k : A -> M R B) : M R B :=
  match m with
  | (tr, Normal a) => let '(tr', c) := k a in (tr ++ tr', c)
  | (tr, Return r) => (tr, Return r)
  | (tr, Raise e) => (tr, Raise e)
  end.

Declare Scope py_scope.
Delimit Scope py_scope with py.
Notation "x <- m ;; k" := (bind m (fun x => k))
  (at level 100, m at next level, right associativity) : py_scope.
Notation "m ;;; k" := (bind m (fun _ => k))
  (at level 100, right associativity) : py_scope.

(** A call into foreign code, logged. *)
Definition call {R A} (ev : event) (r : result A) : M R A :=
  match r with
  | Ok a => ([ev], Normal a)
  | Err e => ([ev], Raise e)
  end.

(** An effect that cannot fail here. *)
Definition emit {R} (ev : event) : M R unit := ([ev], Normal tt).

(** [try: body  except <classes>: handler].  An exception raised by the
    handler itself, and a [return] on either side, leave the statement. *)
Definition try_except {R A} (body : M R A) (catches : exn -> bool)
    (handler : exn -> M R A) : M R A :=
  match body with
  | (tr, Raise e) =>
      if catches e then let '(tr', c) := handler e in (tr ++ tr', c)
      else (tr, Raise e)
  | other => other
  end.

(** [with open(path, 'w', ...) as f: body]: the file is closed however the
    body ends. *)
Definition with_open {R A} (path : string) (body : M R A) : M R A :=
  let '(tr, c) := body in (File_open path :: tr ++ [File_close], c).

(** A function call seen from the caller: [return r] and falling off the
    end both hand a value back, an exception is raised in the caller. *)
Definition run_function {R} (body : M R R) : trace * result R :=
  match body with
  | (tr, Normal r) => (tr, Ok r)
  | (tr, Return r) => (tr, Ok r)
  | (tr, Raise e) => (tr, Err e)
  end.

(** ** Strings *)

Definition nl : string := String (Ascii.ascii_of_nat 10) EmptyString.

(** [sep.join(parts)] on a list of [str]. *)
Fixpoint join (sep : string) (parts : list string) : string :=
  match parts with
  | [] => ""
  | [s] => s
  | s :: rest => s +:+ sep +:+ join sep rest
  end.

(** [s * n] *)
Fixpoint str_mul (s : string) (n : nat) : string :=
  match n with
  | O => ""
  | S n' => s +:+ str_mul s n'
  end.

(** Truth value of a [str]. *)
Definition str_truthy (s : string) : bool :=
  match s with
  | EmptyString => false
  | _ => true
  end.

(** Truth value of [transcript_data], which is [None] or a list. *)
Definition data_truthy (d : option (list entry)) : bool :=
  match d with
  | Some (_ :: _) => true
  | _ => false
  end.

(** ** get_transcript *)

Section GetTranscript.

Variable YouTubeTranscriptApi : Upstream.YouTubeTranscriptApi.

Local Open Scope py_scope.

Local Abbreviation R := (option string).

(** [[entry['text'] for entry in transcript_data]]: a missing key raises
    [KeyError] at the first entry that lacks it. *)
Fixpoint texts_of (transcript_data : list entry) : result (list pyval) :=
  match transcript_data with
  | [] => Ok []
  | e :: rest =>
      match e !! "text" with
      | None => Err (mk_exn KeyError "'text'")
      | Some v =>
          match texts_of rest with
          | Ok vs => Ok (v :: vs)
          | Err x => Err x
          end
      end
  end.

(** [type(v).__name__] *)
Definition type_name (v : pyval) : string :=
  match v with
  | PyStr _ => "str"
  | PyFloat _ => "float"
  | PyNone => "NoneType"
  end.

(** The items of a list from position [i] on when all of them are [str],
    or else the first item that is not, with its position. *)
Fixpoint all_str (i : nat) (vs : list pyval) : (nat * pyval) + list string :=
  match vs with
  | [] => inr []
  | PyStr s :: rest =>
      match all_str (S i) rest with
      | inr ss => inr (s :: ss)
      | inl bad => inl bad
      end
  | v :: _ => inl (i, v)
  end.

(** [sep.join(vs)]: an item that is not a [str] raises [TypeError]. *)
Definition py_join (sep : string) (vs : list pyval) : result string :=
  match all_str 0 vs with
  | inr ss => Ok (join sep ss)
  | inl (i, v) =>
      Err (mk_exn TypeError
             ("sequence item " +:+ pretty i +:+ ": expected str instance, "
              +:+ type_name v +:+ " found"))
  end.

Definition lift {A} (r : result A) : M R A :=
  match r with
  | Ok a => ret a
  | Err e => raise e
  end.

(** The [for lang_code in language_codes] loop of the older-version
    branch: the first call that does not raise sets [transcript_data]
    and breaks. *)
Fixpoint legacy_loop (video_id : string) (language_codes : list string)
    (transcript_data : option (list entry)) : M R (option (list entry)) :=
  match language_codes with
  | [] => ret transcript_data
  | lang_code :: rest =>
      try_except
        (d <- call (Call_get_transcript video_id (Some [lang_code]))
                (Upstream.get_transcript YouTubeTranscriptApi video_id
                   (Some [lang_code])) ;;
         ret (Some d))
        is_BaseException
        (fun _ => legacy_loop video_id rest transcript_data)
  end.

(** Lines 78-118: the retrieval phase, which leaves [transcript_data] set
    or returns [None] from the function. *)
Definition retrieve_transcript_data (video_id : string)
    : M R (option (list entry)) :=
  try_except
    (transcript_list <-
       call (Call_list_transcripts video_id)
         (Upstream.list_transcripts YouTubeTranscriptApi video_id) ;;
     try_except
       (transcript <-
          call (Call_find_manually_created_transcript ["en"])
            (Upstream.find_manually_created_transcript
               transcript_list ["en"]) ;;
        d <- call (Call_fetch transcript) (Upstream.fetch transcript) ;;
        ret (Some d))
       is_BaseException
       (fun _ =>
          try_except
            (transcript <-
               call (Call_find_generated_transcript ["en"])
                 (Upstream.find_generated_transcript
                    transcript_list ["en"]) ;;
             d <- call (Call_fetch transcript) (Upstream.fetch transcript) ;;
             ret (Some d))
            is_BaseException
            (fun _ =>
               available_transcripts <-
                 call Call_iter (Upstream.iter transcript_list) ;;
               match available_transcripts with
               | first :: _ =>
                   transcript <-
                     call (Call_translate first "en")
                       (Upstream.translate first "en") ;;
                   d <- call (Call_fetch transcript)
                          (Upstream.fetch transcript) ;;
                   ret (Some d)
               | [] => return_ None
               end)))
    is_AttributeError
    (fun _ =>
       transcript_data <-
         legacy_loop video_id ["en"; "en-US"; "en-GB"] None ;;
       if negb (data_truthy transcript_data) then
         try_except
           (d <- call (Call_get_transcript video_id None)
                   (Upstream.get_transcript YouTubeTranscriptApi
                      video_id None) ;;
            ret (Some d))
           is_BaseException
           (fun _ => return_ None)
       else ret transcript_data).

(** Lines 120-125: combine all text. *)
Definition combine_text (transcript_data : option (list entry)) : M R R :=
  if data_truthy transcript_data then
    vs <- lift (texts_of (default [] transcript_data)) ;;
    full_text <- lift (py_join " " vs) ;;
    return_ (Some full_text)
  else return_ None.

Definition get_transcript_body (video_id : string) : M R R :=
  try_except
    (transcript_data <- retrieve_transcript_data video_id ;;
     combine_text transcript_data)
    is_Exception
    (fun e =>
       emit (Print_line ("Could not retrieve transcript for video "
                         +:+ video_id +:+ ": " +:+ str e)) ;;;
       return_ None).

Definition get_transcript (video_id : string)
    : trace * result (option string) :=
  run_function (get_transcript_body video_id).

End GetTranscript.

(** ** main *)

(** A call of a function of this module from inside a block. *)
Definition call_fn {R A} (f : trace * result A) : M R A :=
  match f with
  | (tr, Ok a) => (tr, Normal a)
  | (tr, Err e) => (tr, Raise e)
  end.

(** Truth value of what [get_transcript] returned: [None] and the empty
    [str] are both false. *)
Definition transcript_truthy (t : option string) : bool :=
  match t with
  | Some s => str_truthy s
  | None => false
  end.

(** Truth value of a channel id. *)
Definition channel_id_truthy (c : option string) : bool :=
  match c with
  | Some s => str_truthy s
  | None => false
  end.

Section Main.

Variable YouTubeTranscriptApi : Upstream.YouTubeTranscriptApi.

(** The configuration constants at the head of the module. *)
Variables CHANNEL_NAME API_KEY OUTPUT_FILE : string.
Variable MAX_RESULTS : nat.

(** Channel and video enumeration go through the YouTube Data API and are
    taken as given: what the two helpers print and hand back. *)
Variable get_channel_id : string -> string -> trace * result (option string).
Variable get_channel_videos :
  string -> string -> nat -> trace * result (list (string * string)).

Local Open Scope py_scope.

(** The body of [for i, (video_id, video_title) in enumerate(video_data, 1)],
    with the two counters it updates. *)
Fixpoint main_loop (total i : nat) (video_data : list (string * string))
    (successful failed : nat) : M unit (nat * nat) :=
  match video_data with
  | [] => ret (successful, failed)
  | (video_id, video_title) :: rest =>
      emit (Print_line ("Processing video " +:+ pretty i +:+ "/"
                        +:+ pretty total +:+ ": " +:+ video_title)) ;;;
      transcript <- call_fn (get_transcript YouTubeTranscriptApi video_id) ;;
      counters <-
        (if transcript_truthy transcript then
           emit (File_write ("VIDEO: " +:+ video_title +:+ nl)) ;;;
           emit (File_write ("URL: https://youtube.com/watch?v="
                             +:+ video_id +:+ nl)) ;;;
           emit (File_write (str_mul "-" 30 +:+ nl)) ;;;
           emit (File_write (default "" transcript)) ;;;
           emit (File_write (nl +:+ nl +:+ str_mul "=" 50
                             +:+ nl +:+ nl)) ;;;
           ret (successful + 1, failed)
         else
           emit (File_write ("FAILED TO GET TRANSCRIPT: "
                             +:+ video_title +:+ nl)) ;;;
           emit (File_write ("URL: https://youtube.com/watch?v="
                             +:+ video_id +:+ nl)) ;;;
           emit (File_write (str_mul "-" 30 +:+ nl +:+ nl)) ;;;
           ret (successful, failed + 1)) ;;
      emit (Sleep 1) ;;;
      main_loop total (S i) rest (fst counters) (snd counters)
  end.

(** The [with open(OUTPUT_FILE, 'w', encoding='utf-8') as f] block. *)
Definition main_report (video_data : list (string * string))
    : M unit (nat * nat) :=
  with_open OUTPUT_FILE
    (emit (File_write ("Transcripts from " +:+ CHANNEL_NAME +:+ nl)) ;;;
     emit (File_write (str_mul "=" 50 +:+ nl +:+ nl)) ;;;
     main_loop (length video_data) 1 video_data 0 0).

Definition main_body : M unit unit :=
  if String.eqb API_KEY "YOUR_YOUTUBE_API_KEY_HERE" then
    emit (Print_line
            "Please set your YouTube API key in the API_KEY variable") ;;;
    emit (Print_line
            "Get your API key from: https://console.cloud.google.com/") ;;;
    return_ tt
  else
    emit (Print_line ("Starting transcript scraping for channel: "
                 +:+ CHANNEL_NAME)) ;;;
    emit (Print_line "Getting channel ID...") ;;;
    channel_id <- call_fn (get_channel_id API_KEY CHANNEL_NAME) ;;
    if negb (channel_id_truthy channel_id) then return_ tt
    else
      emit (Print_line ("Channel ID: " +:+ default "" channel_id)) ;;;
      emit (Print_line "Getting video list...") ;;;
      video_data <-
        call_fn (get_channel_videos API_KEY (default "" channel_id)
                   MAX_RESULTS) ;;
      emit (Print_line ("Found " +:+ pretty (length video_data)
                        +:+ " videos")) ;;;
      counters <- main_report video_data ;;
      emit (Print_line (nl +:+ "Completed! Successfully processed "
                   +:+ pretty (fst counters) +:+ " videos, "
                   +:+ pretty (snd counters) +:+ " failed.")) ;;;
      emit (Print_line ("Results saved to: " +:+ OUTPUT_FILE)) ;;;
      ret tt.

Definition main : trace * result unit := run_function main_body.

End Main.

(** What has been written to the output file by the end of a trace. *)
Fixpoint file_contents (tr : trace) : string :=
  match tr with
  | [] => ""
  | File_write s :: rest => s +:+ file_contents rest
  | _ :: rest => file_contents rest
  end.

(** ** Vocabulary of the statements *)

(** The text of a segment as the transcript library documents it: a dict
    with a [str] under the key 'text'. *)
Definition segment_text (e : entry) : option string :=
  match e !! "text" with
  | Some (PyStr s) => Some s
  | _ => None
  end.

(** The texts of all segments, in order, when every segment has one. *)
Fixpoint segment_texts (d : list entry) : option (list string) :=
  match d with
  | [] => Some []
  | e :: rest =>
      match segment_text e, segment_texts rest with
      | Some s, Some ss => Some (s :: ss)
      | _, _ => None
      end
  end.

(** One of the two English strategies fails: the finder raises, or the
    transcript it finds cannot be fetched. *)
Definition step_fails (found : result Upstream.Transcript) : bool :=
  match found with
  | Err _ => true
  | Ok t => match Upstream.fetch t with Err _ => true | Ok _ => false end
  end.

(** The calls an English strategy makes. *)
Definition step_calls (finder : event) (found : result Upstream.Transcript)
    : trace :=
  match found with
  | Err _ => [finder]
  | Ok t => [finder; Call_fetch t]
  end.

(** The events of the translate fallback. *)
Definition is_fallback_event (ev : event) : bool :=
  match ev with
  | Call_iter | Call_translate _ _ => true
  | _ => false
  end.

(** The events of the older-version branch. *)
Definition is_older_event (ev : event) : bool :=
  match ev with
  | Call_get_transcript _ _ => true
  | _ => false
  end.

(** The events of the auto-generated strategy. *)
Definition is_generated_event (ev : event) : bool :=
  match ev with
  | Call_find_generated_transcript _ => true
  | _ => false
  end.

(** The trace of a run that went through the two English strategies
    without success. *)
Definition english_calls (video_id : string) (tl : Upstream.TranscriptList)
    : trace :=
  Call_list_transcripts video_id
  :: step_calls (Call_find_manually_created_transcript ["en"])
       (Upstream.find_manually_created_transcript tl ["en"])
  ++ step_calls (Call_find_generated_transcript ["en"])
       (Upstream.find_generated_transcript tl ["en"]).

(** The [languages] arguments of the older-version branch: the three
    language codes one at a time, then none. *)
Definition older_languages : list (option (list string)) :=
  [Some ["en"]; Some ["en-US"]; Some ["en-GB"]; None].

(** A video for which the library has no transcript at all: the listing
    is empty and both English finders raise; or the library refuses the
    listing with one of its errors; or, on an older library without
    [list_transcripts], every [get_transcript] call raises. *)
Inductive no_transcripts (api : Upstream.YouTubeTranscriptApi)
    (video_id : string) : Prop :=
  | listing_empty (tl : Upstream.TranscriptList) (e1 e2 : exn) :
      Upstream.list_transcripts api video_id = Ok tl ->
      Upstream.find_manually_created_transcript tl ["en"] = Err e1 ->
      Upstream.find_generated_transcript tl ["en"] = Err e2 ->
      Upstream.iter tl = Ok [] ->
      no_transcripts api video_id
  | listing_refused (e : exn) :
      Upstream.list_transcripts api video_id = Err e ->
      is_Exception e = true ->
      is_AttributeError e = false ->
      no_transcripts api video_id
  | older_library_nothing (e : exn) :
      Upstream.list_transcripts api video_id = Err e ->
      is_AttributeError e = true ->
      (forall langs, In langs older_languages ->
         exists e', Upstream.get_transcript api video_id langs = Err e') ->
      no_transcripts api video_id.

(** What the translate fallback obtains from the first listed transcript,
    and the calls it makes for it. *)
Definition fallback_result (first : Upstream.Transcript)
    : result (list entry) :=
  match Upstream.translate first "en" with
  | Ok t => Upstream.fetch t
  | Err e => Err e
  end.

Definition fallback_calls (first : Upstream.Transcript) : trace :=
  Call_translate first "en"
  :: match Upstream.translate first "en" with
     | Ok t => [Call_fetch t]
     | Err _ => []
     end.

(** The segments [d] were handed out by the library for this video, by
    one of the calls [get_transcript] can make. *)
Inductive retrieved (api : Upstream.YouTubeTranscriptApi)
    (video_id : string) (d : list entry) : Prop :=
  | retrieved_manual tl t :
      Upstream.list_transcripts api video_id = Ok tl ->
      Upstream.find_manually_created_transcript tl ["en"] = Ok t ->
      Upstream.fetch t = Ok d ->
      retrieved api video_id d
  | retrieved_generated tl t :
      Upstream.list_transcripts api video_id = Ok tl ->
      Upstream.find_generated_transcript tl ["en"] = Ok t ->
      Upstream.fetch t = Ok d ->
      retrieved api video_id d
  | retrieved_translated tl first others t :
      Upstream.list_transcripts api video_id = Ok tl ->
      Upstream.iter tl = Ok (first :: others) ->
      Upstream.translate first "en" = Ok t ->
      Upstream.fetch t = Ok d ->
      retrieved api video_id d
  | retrieved_older langs :
      In langs older_languages ->
      Upstream.get_transcript api video_id langs = Ok d ->
      retrieved api video_id d.

(** The exception [e] is raised by one of the calls into the library that
    [get_transcript] can make for this video. *)
Inductive upstream_raises (api : Upstream.YouTubeTranscriptApi)
    (video_id : string) (e : exn) : Prop :=
  | raises_list_transcripts :
      Upstream.list_transcripts api video_id = Err e ->
      upstream_raises api video_id e
  | raises_find_manually_created tl :
      Upstream.list_transcripts api video_id = Ok tl ->
      Upstream.find_manually_created_transcript tl ["en"] = Err e ->
      upstream_raises api video_id e
  | raises_fetch_manually_created tl t :
      Upstream.list_transcripts api video_id = Ok tl ->
      Upstream.find_manually_created_transcript tl ["en"] = Ok t ->
      Upstream.fetch t = Err e ->
      upstream_raises api video_id e
  | raises_find_generated tl :
      Upstream.list_transcripts api video_id = Ok tl ->
      Upstream.find_generated_transcript tl ["en"] = Err e ->
      upstream_raises api video_id e
  | raises_fetch_generated tl t :
      Upstream.list_transcripts api video_id = Ok tl ->
      Upstream.find_generated_transcript tl ["en"] = Ok t ->
      Upstream.fetch t = Err e ->
      upstream_raises api video_id e
  | raises_iter tl :
      Upstream.list_transcripts api video_id = Ok tl ->
      Upstream.iter tl = Err e ->
      upstream_raises api video_id e
  | raises_fallback tl first others :
      Upstream.list_transcripts api video_id = Ok tl ->
      Upstream.iter tl = Ok (first :: others) ->
      fallback_result first = Err e ->
      upstream_raises api video_id e
  | raises_older langs :
      In langs older_languages ->
      Upstream.get_transcript api video_id langs = Err e ->
      upstream_raises api video_id e.

(** The same as a check that can be run: every call [get_transcript] can
    make for the video either answers or raises an [Exception]. *)
Definition soft {A} (r : result A) : bool :=
  match r with
  | Ok _ => true
  | Err e => is_Exception e
  end.

Definition step_soft (found : result Upstream.Transcript) : bool :=
  match found with
  | Ok t => soft (Upstream.fetch t)
  | Err e => is_Exception e
  end.

Definition fails_softly (api : Upstream.YouTubeTranscriptApi)
    (video_id : string) : bool :=
  match Upstream.list_transcripts api video_id with
  | Err e => is_Exception e
  | Ok tl =>
      step_soft (Upstream.find_manually_created_transcript tl ["en"])
      && step_soft (Upstream.find_generated_transcript tl ["en"])
      && match Upstream.iter tl with
         | Err e => is_Exception e
         | Ok [] => true
         | Ok (first :: _) => soft (fallback_result first)
         end
  end
  && forallb (fun langs => soft (Upstream.get_transcript api video_id langs))
       older_languages.

(** How the retrieval phase can end: with segments the library handed
    out, with [return None], or with an exception of the library's. *)
Definition retrieval_outcome (api : Upstream.YouTubeTranscriptApi)
    (video_id : string) (c : completion (option string) (option (list entry)))
    : Prop :=
  match c with
  | Normal (Some d) => retrieved api video_id d
  | Normal None => False
  | Return r => r = None
  | Raise e => upstream_raises api video_id e
  end.

Arguments str_mul : simpl never.

(** The pieces of the report. *)
Definition report_header (channel_name : string) : string :=
  "Transcripts from " +:+ channel_name +:+ nl
  +:+ str_mul "=" 50 +:+ nl +:+ nl.

Definition canonical_url (video_id : string) : string :=
  "https://youtube.com/watch?v=" +:+ video_id.

Definition url_line (video_id : string) : string :=
  "URL: " +:+ canonical_url video_id +:+ nl.

Definition separator_line : string := str_mul "-" 30 +:+ nl.

Definition closing_line : string := str_mul "=" 50 +:+ nl.

Definition success_record (video_id video_title text : string) : string :=
  "VIDEO: " +:+ video_title +:+ nl
  +:+ url_line video_id
  +:+ separator_line
  +:+ text +:+ nl +:+ nl +:+ closing_line +:+ nl.

Definition failure_record (video_id video_title : string) : string :=
  "FAILED TO GET TRANSCRIPT: " +:+ video_title +:+ nl
  +:+ url_line video_id
  +:+ separator_line +:+ nl.

(** Whether the loop counts a video as successful: [get_transcript]
    returned a non-empty text. *)
Definition is_success (api : Upstream.YouTubeTranscriptApi)
    (video : string * string) : bool :=
  match snd (get_transcript api (fst video)) with
  | Ok r => transcript_truthy r
  | Err _ => false
  end.

(** The record of one video, by the outcome of [get_transcript]. *)
Definition video_record (api : Upstream.YouTubeTranscriptApi)
    (video : string * string) : string :=
  match snd (get_transcript api (fst video)) with
  | Ok (Some text) =>
      if str_truthy text then success_record (fst video) (snd video) text
      else failure_record (fst video) (snd video)
  | _ => failure_record (fst video) (snd video)
  end.

Fixpoint str_concat (l : list string) : string :=
  match l with
  | [] => ""
  | s :: rest => s +:+ str_concat rest
  end.

(** The layout of one record: a header line that carries the title after
    either the success or the failure marker, the URL line, the separator
    line, and then either the transcript with the closing rule or an empty
    line. *)
Definition record_layout (api : Upstream.YouTubeTranscriptApi)
    (video : string * string) (record : string) : Prop :=
  exists marker body,
    record = marker +:+ snd video +:+ nl
             +:+ url_line (fst video)
             +:+ separator_line
             +:+ body
    /\ ((marker = "VIDEO: "
         /\ exists text,
              snd (get_transcript api (fst video)) = Ok (Some text)
              /\ text <> ""
              /\ body = text +:+ nl +:+ nl +:+ closing_line +:+ nl)
        \/ (marker = "FAILED TO GET TRANSCRIPT: " /\ body = nl)).

(** The layout with the URL somewhere after a separating line. *)
Definition url_follows (line record video_id : string) : Prop :=
  exists pre mid post,
    record = pre +:+ line +:+ mid +:+ canonical_url video_id +:+ post.

(** What one round of the loop writes for a video. *)
Definition written_record (api : Upstream.YouTubeTranscriptApi)
    (video : string * string) : string :=
  file_contents (fst (main_loop api 1 1 [video] 0 0)).

(** Deciding where a piece of text occurs. *)
Fixpoint strip_prefix (p s : string) : option string :=
  match p with
  | EmptyString => Some s
  | String c p' =>
      match s with
      | String c' s' => if Ascii.eqb c c' then strip_prefix p' s' else None
      | EmptyString => None
      end
  end.

Fixpoint occursb (b s : string) : bool :=
  match strip_prefix b s with
  | Some _ => true
  | None =>
      match s with
      | EmptyString => false
      | String _ s' => occursb b s'
      end
  end.

Fixpoint followsb (a b s : string) : bool :=
  match strip_prefix a s with
  | Some r => occursb b r
  | None => false
  end
  || match s with
     | EmptyString => false
     | String _ s' => followsb a b s'
     end.

(** ** A library with a handful of videos *)

Definition segment (text : string) (start duration : Z) : entry :=
  {[ "text" := PyStr text;
     "start" := PyFloat start;
     "duration" := PyFloat duration ]}.

Definition NoTranscriptFound : exn :=
  mk_exn CouldNotRetrieveTranscript "NoTranscriptFound".
Definition TranscriptsDisabled : exn :=
  mk_exn CouldNotRetrieveTranscript "TranscriptsDisabled".
Definition NotTranslatable : exn :=
  mk_exn CouldNotRetrieveTranscript "NotTranslatable".
Definition no_such_method : exn :=
  mk_exn AttributeError
    "type object 'YouTubeTranscriptApi' has no attribute 'get_transcript'".

(** A transcript that cannot be translated. *)
Definition plain_transcript (lang : string) (generated : bool)
    (d : list entry) : Upstream.Transcript :=
  Upstream.mkTranscript lang generated (Ok d) (fun _ => Err NotTranslatable).

Definition abc_segments : list entry :=
  [segment "a" 0 1000; segment "b" 1000 1000; segment "c" 2000 1500].

Definition english_manual : Upstream.Transcript :=
  plain_transcript "en" false abc_segments.

Definition english_generated : Upstream.Transcript :=
  plain_transcript "en" true [segment "hello" 0 900; segment "world" 900 900].

Definition spanish_in_english : Upstream.Transcript :=
  plain_transcript "en" false
    [segment "good" 0 700; segment "morning" 700 800].

Definition spanish : Upstream.Transcript :=
  Upstream.mkTranscript "es" false
    (Ok [segment "buenos" 0 700; segment "dias" 700 800])
    (fun lang =>
       if String.eqb lang "en" then Ok spanish_in_english
       else Err NotTranslatable).

Definition french_untranslatable : Upstream.Transcript :=
  plain_transcript "fr" false [segment "bonjour" 0 800].

Definition english_silent : Upstream.Transcript :=
  plain_transcript "en" false [].

Definition english_generated_silent : Upstream.Transcript :=
  plain_transcript "en" true [].

(** A Portuguese transcript whose English translation has no segments. *)
Definition portuguese : Upstream.Transcript :=
  Upstream.mkTranscript "pt" false
    (Ok [segment "bom dia" 0 900])
    (fun _ => Ok english_silent).

(** A Spanish transcript of a library whose [translate] is broken. *)
Definition spanish_glitch : Upstream.Transcript :=
  Upstream.mkTranscript "es" false
    (Ok [segment "buenos" 0 700; segment "dias" 700 800])
    (fun _ =>
       Err (mk_exn AttributeError
              "'NoneType' object has no attribute 'get'")).

Definition no_finder : list string -> result Upstream.Transcript :=
  fun _ => Err NoTranscriptFound.

Definition manual_list : Upstream.TranscriptList :=
  Upstream.mkTranscriptList (fun _ => Ok english_manual) no_finder
    (Ok [english_manual]).

Definition generated_list : Upstream.TranscriptList :=
  Upstream.mkTranscriptList no_finder (fun _ => Ok english_generated)
    (Ok [english_generated]).

Definition spanish_list : Upstream.TranscriptList :=
  Upstream.mkTranscriptList no_finder no_finder (Ok [spanish]).

Definition french_first_list : Upstream.TranscriptList :=
  Upstream.mkTranscriptList no_finder no_finder
    (Ok [french_untranslatable; spanish]).

Definition empty_list : Upstream.TranscriptList :=
  Upstream.mkTranscriptList no_finder no_finder (Ok []).

Definition silent_list : Upstream.TranscriptList :=
  Upstream.mkTranscriptList (fun _ => Ok english_silent) no_finder
    (Ok [english_silent]).

Definition mute_list : Upstream.TranscriptList :=
  Upstream.mkTranscriptList no_finder (fun _ => Ok english_generated_silent)
    (Ok [english_generated_silent]).

Definition portuguese_list : Upstream.TranscriptList :=
  Upstream.mkTranscriptList no_finder no_finder (Ok [portuguese]).

Definition glitch_list : Upstream.TranscriptList :=
  Upstream.mkTranscriptList no_finder no_finder (Ok [spanish_glitch]).

Definition demo_api : Upstream.YouTubeTranscriptApi :=
  Upstream.mkApi
    (fun video_id =>
       if String.eqb video_id "manual" then Ok manual_list
       else if String.eqb video_id "auto" then Ok generated_list
       else if String.eqb video_id "spanish" then Ok spanish_list
       else if String.eqb video_id "french" then Ok french_first_list
       else if String.eqb video_id "none" then Ok empty_list
       else if String.eqb video_id "silent" then Ok silent_list
       else if String.eqb video_id "mute" then Ok mute_list
       else if String.eqb video_id "portuguese" then Ok portuguese_list
       else Err TranscriptsDisabled)
    (fun _ _ => Err no_such_method).

(** A library in which [translate] raises an [AttributeError] and
    [get_transcript] without [languages] hands out the one transcript the
    video has. *)
Definition glitch_api : Upstream.YouTubeTranscriptApi :=
  Upstream.mkApi
    (fun _ => Ok glitch_list)
    (fun _ langs =>
       match langs with
       | None => Upstream.fetch spanish_glitch
       | Some _ => Err NoTranscriptFound
       end).

Definition three_videos : list (string * string) :=
  [("manual", "First"); ("none", "Second"); ("auto", "Third")].

(** An installation of the library from before [list_transcripts]: only
    [get_transcript] exists, and this video has a British English track. *)
Definition older_api : Upstream.YouTubeTranscriptApi :=
  Upstream.mkApi
    (fun _ =>
       Err (mk_exn AttributeError
              "type object 'YouTubeTranscriptApi' has no attribute 'list_transcripts'"))
    (fun _ langs =>
       match langs with
       | Some ["en-GB"] => Ok abc_segments
       | _ => Err NoTranscriptFound
       end).

(** Libraries that hand out ill-formed segments, and one interrupted by
    the user while listing. *)
Definition untexted_api : Upstream.YouTubeTranscriptApi :=
  Upstream.mkApi
    (fun _ =>
       Ok (Upstream.mkTranscriptList
             (fun _ =>
                Ok (plain_transcript "en" false
                      [segment "a" 0 1000; {[ "start" := PyFloat 1000 ]}]))
             no_finder (Ok [])))
    (fun _ _ => Err no_such_method).

Definition untyped_api : Upstream.YouTubeTranscriptApi :=
  Upstream.mkApi
    (fun _ =>
       Ok (Upstream.mkTranscriptList
             (fun _ =>
                Ok (plain_transcript "en" false
                      [segment "a" 0 1000; {[ "text" := PyFloat 7 ]}]))
             no_finder (Ok [])))
    (fun _ _ => Err no_such_method).

Definition interrupted_api : Upstream.YouTubeTranscriptApi :=
  Upstream.mkApi
    (fun _ => Err (mk_exn KeyboardInterrupt ""))
    (fun _ _ => Err no_such_method).

(** ** The YouTube Data API client and the two enumeration helpers *)

Module DataApi.

(** The parsed JSON of a response, as the Python objects it becomes. *)
Inductive json :=
  | JNull
  | JBool (b : bool)
  | JNum (z : Z)
  | JStr (s : string)
  | JList (l : list json)
  | JDict (d : gmap string json).

(** The exceptions of this part of the script: [HttpError] of
    googleapiclient.errors, [IndexError], and the classes known so far. *)
Inductive error :=
  | HttpError (msg : string)
  | IndexError (msg : string)
  | Other (e : exn).

(** [isinstance(e, HttpError)] *)
Definition is_HttpError (e : error) : bool :=
  match e with
  | HttpError _ => true
  | _ => false
  end.

(** [str(e)], as [print] and f-strings format it. *)
Definition str_error (e : error) : string :=
  match e with
  | HttpError msg => msg
  | IndexError msg => msg
  | Other e => str e
  end.

(** What an expression or a request gives back. *)
Inductive answer (A : Type) :=
  | Ans (a : A)
  | Fail (e : error).
Arguments Ans {A} a.
Arguments Fail {A} e.

Definition type_error {A} (msg : string) : answer A :=
  Fail (Other (mk_exn TypeError msg)).

(** Truth value of a Python object. *)
Definition truthy (j : json) : bool :=
  match j with
  | JNull => false
  | JBool b => b
  | JNum z => negb (Z.eqb z 0)
  | JStr s => str_truthy s
  | JList l => match l with [] => false | _ :: _ => true end
  | JDict d => match map_to_list d with [] => false | _ :: _ => true end
  end.

(** [j[key]] for a [str] key. *)
Definition subscript (j : json) (key : string) : answer json :=
  match j with
  | JDict d =>
      match d !! key with
      | Some v => Ans v
      | None => Fail (Other (mk_exn KeyError ("'" +:+ key +:+ "'")))
      end
  | JList _ => type_error "list indices must be integers or slices, not str"
  | JStr _ => type_error "string indices must be integers, not 'str'"
  | JNull => type_error "'NoneType' object is not subscriptable"
  | JBool _ => type_error "'bool' object is not subscriptable"
  | JNum _ => type_error "'int' object is not subscriptable"
  end.

(** [j[0]] *)
Definition index0 (j : json) : answer json :=
  match j with
  | JList (x :: _) => Ans x
  | JList [] => Fail (IndexError "list index out of range")
  | JStr (String c _) => Ans (JStr (String c EmptyString))
  | JStr EmptyString => Fail (IndexError "string index out of range")
  | JDict _ => Fail (Other (mk_exn KeyError "0"))
  | JNull => type_error "'NoneType' object is not subscriptable"
  | JBool _ => type_error "'bool' object is not subscriptable"
  | JNum _ => type_error "'int' object is not subscriptable"
  end.

Definition no_attribute {A} (type attr : string) : answer A :=
  Fail (Other (mk_exn AttributeError
                 ("'" +:+ type +:+ "' object has no attribute '"
                  +:+ attr +:+ "'"))).

(** [j.get(key)] *)
Definition dict_get (j : json) (key : string) : answer json :=
  match j with
  | JDict d => Ans (default JNull (d !! key))
  | JList _ => no_attribute "list" "get"
  | JStr _ => no_attribute "str" "get"
  | JNull => no_attribute "NoneType" "get"
  | JBool _ => no_attribute "bool" "get"
  | JNum _ => no_attribute "int" "get"
  end.

Fixpoint characters (s : string) : list json :=
  match s with
  | EmptyString => []
  | String c rest => JStr (String c EmptyString) :: characters rest
  end.

(** The items [for item in j] goes through.  A dict gives its keys; their
    order does not matter to the callers here, which fail on the first
    one. *)
Definition iterate (j : json) : answer (list json) :=
  match j with
  | JList l => Ans l
  | JStr s => Ans (characters s)
  | JDict d => Ans (map (fun kv => JStr (fst kv)) (map_to_list d))
  | JNull => type_error "'NoneType' object is not iterable"
  | JBool _ => type_error "'bool' object is not iterable"
  | JNum _ => type_error "'int' object is not iterable"
  end.

(** The service object [build('youtube', 'v3', ...)] returns: each field
    is one request built and executed,
    [youtube.search().list(...).execute()] and so on, as a function of the
    arguments of the request. *)
Record Service := mkService {
  search_list : string -> string -> string -> nat -> answer json;
  channels_list : string -> json -> answer json;
  playlistItems_list : string -> json -> nat -> json -> answer json
}.

(** What these functions do to the outside, in order. *)
Inductive action :=
  | Build (serviceName version developerKey : string)
  | Search_list (q type_ part : string) (maxResults : nat)
  | Channels_list (part : string) (id : json)
  | PlaylistItems_list (part : string) (playlistId : json)
      (maxResults : nat) (pageToken : json)
  | Printed (line : string).

(** How a block ends: as before, or still looping when the fuel of a
    [while True] is used up. *)
Inductive ending (R A : Type) :=
  | Done (a : A)
  | Returned (r : R)
  | Raised (e : error)
  | Exhausted.
Arguments Done {R A} a.
Arguments Returned {R A} r.
Arguments Raised {R A} e.
Arguments Exhausted {R A}.

(** A block over the local variables [S] of its function: what was
    assigned before an exception is still there in the handler and after
    it. *)
Definition Block (S R A : Type) : Type := S -> list action * S * ending R A.

Definition ret {S R A} (a : A) : Block S R A := fun s => ([], s, Done a).

Definition return_ {S R A} (r : R) : Block S R A :=
  fun s => ([], s, Returned r).

Definition bind {S R A B} (m : Block S R A) (k : A -> Block S R B)
    : Block S R B :=
  fun s =>
    match m s with
    | (tr, s', Done a) => let '(tr', s'', c) := k a s' in (tr ++ tr', s'', c)
    | (tr, s', Returned r) => (tr, s', Returned r)
    | (tr, s', Raised e) => (tr, s', Raised e)
    | (tr, s', Exhausted) => (tr, s', Exhausted)
    end.

Definition read {S R} : Block S R S := fun s => ([], s, Done s).

Definition assign {S R} (f : S -> S) : Block S R unit :=
  fun s => ([], f s, Done tt).

(** A request, logged. *)
Definition request {S R A} (ev : action) (r : answer A) : Block S R A :=
  fun s =>
    match r with
    | Ans a => ([ev], s, Done a)
    | Fail e => ([ev], s, Raised e)
    end.

(** An expression that may raise. *)
Definition eval {S R A} (r : answer A) : Block S R A :=
  fun s =>
    match r with
    | Ans a => ([], s, Done a)
    | Fail e => ([], s, Raised e)
    end.

Definition print {S R} (line : string) : Block S R unit :=
  fun s => ([Printed line], s, Done tt).

Definition try_except {S R A} (body : Block S R A) (catches : error -> bool)
    (handler : error -> Block S R A) : Block S R A :=
  fun s =>
    match body s with
    | (tr, s', Raised e) =>
        if catches e then
          let '(tr', s'', c) := handler e s' in (tr ++ tr', s'', c)
        else (tr, s', Raised e)
    | other => other
    end.

(** [while True: body], where [body] says whether it executed [break];
    [fuel] bounds the number of rounds looked at. *)
Fixpoint while_True {S R} (fuel : nat) (body : Block S R bool)
    : Block S R unit :=
  match fuel with
  | O => fun s => ([], s, Exhausted)
  | Datatypes.S fuel' =>
      bind body (fun broke => if broke then ret tt else while_True fuel' body)
  end.

(** [for x in items: body] *)
Fixpoint for_each {S R A} (items : list A) (body : A -> Block S R unit)
    : Block S R unit :=
  match items with
  | [] => ret tt
  | x :: rest => bind (body x) (fun _ => for_each rest body)
  end.

(** A call seen from the caller; [None] when the fuel ran out. *)
Definition run_function {S R} (body : Block S R R) (locals : S)
    : list action * option (answer R) :=
  match body locals with
  | (tr, _, Done r) => (tr, Some (Ans r))
  | (tr, _, Returned r) => (tr, Some (Ans r))
  | (tr, _, Raised e) => (tr, Some (Fail e))
  | (tr, _, Exhausted) => (tr, None)
  end.

End DataApi.

Declare Scope data_scope.
Delimit Scope data_scope with data.
Notation "x <- m ;; k" := (DataApi.bind m (fun x => k))
  (at level 100, m at next level, right associativity) : data_scope.
Notation "m ;;; k" := (DataApi.bind m (fun _ => k))
  (at level 100, right associativity) : data_scope.

(** The local variables of [get_channel_videos] that are assigned in its
    loop. *)
Record videos_locals := mkLocals {
  video_ids : list (DataApi.json * DataApi.json);
  next_page_token : DataApi.json
}.

Section Enumeration.

(** [googleapiclient.discovery.build] *)
Variable build : string -> string -> string -> DataApi.answer DataApi.Service.

Local Open Scope data_scope.

Import DataApi.

(** Lines 14-33.  The result is a Python object: [JNull] is [None]. *)
Definition get_channel_id_body (api_key channel_name : string)
    : Block unit json json :=
  youtube <- request (Build "youtube" "v3" api_key)
               (build "youtube" "v3" api_key) ;;
  try_except
    (search_response <-
       request (Search_list channel_name "channel" "id,snippet" 1)
         (search_list youtube channel_name "channel" "id,snippet" 1) ;;
     items <- eval (subscript search_response "items") ;;
     if truthy items then
       items <- eval (subscript search_response "items") ;;
       first <- eval (index0 items) ;;
       id <- eval (subscript first "id") ;;
       channelId <- eval (subscript id "channelId") ;;
       return_ channelId
     else
       print ("Channel '" +:+ channel_name +:+ "' not found") ;;;
       return_ JNull)
    is_HttpError
    (fun e =>
       print ("An HTTP error occurred: " +:+ str_error e) ;;;
       return_ JNull).

Definition get_channel_id (api_key channel_name : string)
    : list action * option (answer json) :=
  run_function (get_channel_id_body api_key channel_name) tt.

(** Lines 60-63: one item of a page. *)
Definition append_video (item : json) : Block videos_locals
                                          (list (json * json)) unit :=
  snippet <- eval (subscript item "snippet") ;;
  resourceId <- eval (subscript snippet "resourceId") ;;
  video_id <- eval (subscript resourceId "videoId") ;;
  snippet <- eval (subscript item "snippet") ;;
  video_title <- eval (subscript snippet "title") ;;
  assign (fun l =>
            mkLocals (video_ids l ++ [(video_id, video_title)])
              (next_page_token l)).

(** Lines 43-67: one round of the [while True] loop; [true] is [break]. *)
Definition videos_round (youtube : Service) (channel_id : json)
    (max_results : nat) : Block videos_locals (list (json * json)) bool :=
  channel_response <-
    request (Channels_list "contentDetails" channel_id)
      (channels_list youtube "contentDetails" channel_id) ;;
  items <- eval (subscript channel_response "items") ;;
  first <- eval (index0 items) ;;
  contentDetails <- eval (subscript first "contentDetails") ;;
  relatedPlaylists <- eval (subscript contentDetails "relatedPlaylists") ;;
  uploads_playlist_id <- eval (subscript relatedPlaylists "uploads") ;;
  locals <- read ;;
  playlist_response <-
    request (PlaylistItems_list "snippet" uploads_playlist_id max_results
               (next_page_token locals))
      (playlistItems_list youtube "snippet" uploads_playlist_id max_results
         (next_page_token locals)) ;;
  items <- eval (subscript playlist_response "items") ;;
  items <- eval (iterate items) ;;
  for_each items append_video ;;;
  token <- eval (dict_get playlist_response "nextPageToken") ;;
  assign (fun l => mkLocals (video_ids l) token) ;;;
  ret (negb (truthy token)).

(** Lines 35-72. *)
Definition get_channel_videos_body (fuel : nat) (api_key : string)
    (channel_id : json) (max_results : nat)
    : Block videos_locals (list (json * json)) (list (json * json)) :=
  youtube <- request (Build "youtube" "v3" api_key)
               (build "youtube" "v3" api_key) ;;
  try_except
    (while_True fuel (videos_round youtube channel_id max_results))
    is_HttpError
    (fun e => print ("An HTTP error occurred: " +:+ str_error e)) ;;;
  locals <- read ;;
  return_ (video_ids locals).

Definition get_channel_videos (fuel : nat) (api_key : string)
    (channel_id : json) (max_results : nat)
    : list action * option (answer (list (json * json))) :=
  run_function (get_channel_videos_body fuel api_key channel_id max_results)
    (mkLocals [] JNull).

End Enumeration.

(** ** Vocabulary of the statements about the helpers *)

(** The uploads playlist of the first channel of a [channels.list]
    response (line 49). *)
Definition uploads_of (channel_response : DataApi.json)
    : DataApi.answer DataApi.json :=
  match DataApi.subscript channel_response "items" with
  | DataApi.Fail e => DataApi.Fail e
  | DataApi.Ans items =>
      match DataApi.index0 items with
      | DataApi.Fail e => DataApi.Fail e
      | DataApi.Ans first =>
          match DataApi.subscript first "contentDetails" with
          | DataApi.Fail e => DataApi.Fail e
          | DataApi.Ans contentDetails =>
              match DataApi.subscript contentDetails "relatedPlaylists" with
              | DataApi.Fail e => DataApi.Fail e
              | DataApi.Ans relatedPlaylists =>
                  DataApi.subscript relatedPlaylists "uploads"
              end
          end
      end
  end.

(** The id and the title an item of a [playlistItems.list] page carries,
    when it has both. *)
Definition video_of (item : DataApi.json)
    : option (DataApi.json * DataApi.json) :=
  match DataApi.subscript item "snippet" with
  | DataApi.Ans snippet =>
      match DataApi.subscript snippet "resourceId" with
      | DataApi.Ans resourceId =>
          match DataApi.subscript resourceId "videoId",
                DataApi.subscript snippet "title" with
          | DataApi.Ans video_id, DataApi.Ans video_title =>
              Some (video_id, video_title)
          | _, _ => None
          end
      | DataApi.Fail _ => None
      end
  | DataApi.Fail _ => None
  end.

Fixpoint videos_of (items : list DataApi.json)
    : option (list (DataApi.json * DataApi.json)) :=
  match items with
  | [] => Some []
  | item :: rest =>
      match video_of item, videos_of rest with
      | Some v, Some vs => Some (v :: vs)
      | _, _ => None
      end
  end.

(** A well-formed page of the uploads playlist asked for with the token
    [token]: its videos and the [nextPageToken] it carries ([JNull] when
    it carries none). *)
Definition page_at (youtube : DataApi.Service) (uploads : DataApi.json)
    (max_results : nat) (token : DataApi.json)
    (videos : list (DataApi.json * DataApi.json)) (next : DataApi.json)
    : Prop :=
  exists response items its,
    DataApi.playlistItems_list youtube "snippet" uploads max_results token
    = DataApi.Ans response
    /\ DataApi.subscript response "items" = DataApi.Ans items
    /\ DataApi.iterate items = DataApi.Ans its
    /\ videos_of its = Some videos
    /\ DataApi.dict_get response "nextPageToken" = DataApi.Ans next.

(** The pages the server hands out from [token] on, each with the token
    it was asked for with, up to the page that carries no further token. *)
Inductive pages (youtube : DataApi.Service) (uploads : DataApi.json)
    (max_results : nat)
    : DataApi.json ->
      list (DataApi.json * list (DataApi.json * DataApi.json)) -> Prop :=
  | pages_last token videos next :
      page_at youtube uploads max_results token videos next ->
      DataApi.truthy next = false ->
      pages youtube uploads max_results token [(token, videos)]
  | pages_more token videos next rest :
      page_at youtube uploads max_results token videos next ->
      DataApi.truthy next = true ->
      pages youtube uploads max_results next rest ->
      pages youtube uploads max_results token ((token, videos) :: rest).

(** The pages handed out from [token] on before a request fails with an
    [HttpError] of message [msg]. *)
Inductive pages_before_error (youtube : DataApi.Service)
    (uploads : DataApi.json) (max_results : nat) (msg : string)
    : DataApi.json ->
      list (DataApi.json * list (DataApi.json * DataApi.json)) ->
      DataApi.json -> Prop :=
  | error_here token :
      DataApi.playlistItems_list youtube "snippet" uploads max_results token
      = DataApi.Fail (DataApi.HttpError msg) ->
      pages_before_error youtube uploads max_results msg token [] token
  | error_later token videos next rest failing :
      page_at youtube uploads max_results token videos next ->
      DataApi.truthy next = true ->
      pages_before_error youtube uploads max_results msg next rest failing ->
      pages_before_error youtube uploads max_results msg token
        ((token, videos) :: rest) failing.

(** The requests of the rounds that fetched the given pages. *)
Definition round_requests (channel_id uploads : DataApi.json)
    (max_results : nat)
    (ps : list (DataApi.json * list (DataApi.json * DataApi.json)))
    : list DataApi.action :=
  flat_map
    (fun p =>
       [DataApi.Channels_list "contentDetails" channel_id;
        DataApi.PlaylistItems_list "snippet" uploads max_results (fst p)])
    ps.

(** All videos of some pages, in order. *)
Definition videos_on
    (ps : list (DataApi.json * list (DataApi.json * DataApi.json)))
    : list (DataApi.json * DataApi.json) :=
  concat (map snd ps).

Definition is_printed (a : DataApi.action) : bool :=
  match a with
  | DataApi.Printed _ => true
  | _ => false
  end.

(** Why [get_channel_id] returns [None], with what it prints: the search
    request failed with an [HttpError]; the response has no truthy
    [items]; or the first item carries a null [channelId]. *)
Definition none_cause
    (build : string -> string -> string -> DataApi.answer DataApi.Service)
    (api_key channel_name : string) (tr : list DataApi.action) : Prop :=
  exists youtube,
    build "youtube" "v3" api_key = DataApi.Ans youtube
    /\ ((exists msg,
           DataApi.search_list youtube channel_name "channel" "id,snippet" 1
           = DataApi.Fail (DataApi.HttpError msg)
           /\ tr = [DataApi.Build "youtube" "v3" api_key;
                    DataApi.Search_list channel_name "channel" "id,snippet" 1;
                    DataApi.Printed ("An HTTP error occurred: " +:+ msg)])
        \/ (exists response items,
              DataApi.search_list youtube channel_name "channel"
                "id,snippet" 1 = DataApi.Ans response
              /\ DataApi.subscript response "items" = DataApi.Ans items
              /\ DataApi.truthy items = false
              /\ tr = [DataApi.Build "youtube" "v3" api_key;
                       DataApi.Search_list channel_name "channel"
                         "id,snippet" 1;
                       DataApi.Printed
                         ("Channel '" +:+ channel_name +:+ "' not found")])
        \/ (exists response items first id,
              DataApi.search_list youtube channel_name "channel"
                "id,snippet" 1 = DataApi.Ans response
              /\ DataApi.subscript response "items" = DataApi.Ans items
              /\ DataApi.truthy items = true
              /\ DataApi.index0 items = DataApi.Ans first
              /\ DataApi.subscript first "id" = DataApi.Ans id
              /\ DataApi.subscript id "channelId"
                 = DataApi.Ans DataApi.JNull
              /\ tr = [DataApi.Build "youtube" "v3" api_key;
                       DataApi.Search_list channel_name "channel"
                         "id,snippet" 1])).

(** ** Vocabulary of the further statements about [get_transcript] and
    [main] *)

(** The language codes of the older-version branch, in the order tried. *)
Definition language_codes : list string := ["en"; "en-US"; "en-GB"].

(** The calls of the older-version branch for some language codes. *)
Definition code_calls (video_id : string) (codes : list string) : trace :=
  map (fun c => Call_get_transcript video_id (Some [c])) codes.

(** All calls of a run of the older-version branch that went on to the
    call without languages. *)
Definition older_calls (video_id : string) (tried : list string) : trace :=
  Call_list_transcripts video_id
  :: code_calls video_id tried ++ [Call_get_transcript video_id None].

(** The loop over the language codes ends without segments, having tried
    [tried]: every code raised, or the first code that answered gave zero
    segments. *)
Inductive codes_fruitless (api : Upstream.YouTubeTranscriptApi)
    (video_id : string) : list string -> Prop :=
  | every_code_raises :
      (forall c, In c language_codes ->
         exists e, Upstream.get_transcript api video_id (Some [c]) = Err e) ->
      codes_fruitless api video_id language_codes
  | first_answer_empty before code after :
      language_codes = before ++ code :: after ->
      (forall c, In c before ->
         exists e, Upstream.get_transcript api video_id (Some [c]) = Err e) ->
      Upstream.get_transcript api video_id (Some [code]) = Ok [] ->
      codes_fruitless api video_id (before ++ [code]).

(** The events that are calls into the transcript library. *)
Definition is_library_call (ev : event) : bool :=
  match ev with
  | Call_list_transcripts _
  | Call_find_manually_created_transcript _
  | Call_find_generated_transcript _
  | Call_iter
  | Call_translate _ _
  | Call_fetch _
  | Call_get_transcript _ _ => true
  | _ => false
  end.

(** The events that touch the output file. *)
Definition is_file_event (ev : event) : bool :=
  match ev with
  | File_open _ | File_write _ | File_close => true
  | _ => false
  end.

Definition is_sleep (ev : event) : bool :=
  match ev with
  | Sleep _ => true
  | _ => false
  end.

Definition is_file_write (ev : event) : bool :=
  match ev with
  | File_write _ => true
  | _ => false
  end.

(** The line [main] prints when it comes to a video. *)
Definition progress_line (i total : nat) (video_title : string) : event :=
  Print_line ("Processing video " +:+ pretty i +:+ "/" +:+ pretty total
              +:+ ": " +:+ video_title).

(** The rounds of the loop of [main] over some videos, the first of them
    numbered [i]: in each round the progress line, then what
    [get_transcript] does for the video, then the writes of its record,
    and last the pause of one second. *)
Inductive rounds_from (api : Upstream.YouTubeTranscriptApi) (total : nat)
    : nat -> list (string * string) -> list trace -> Prop :=
  | rounds_done i : rounds_from api total i [] []
  | rounds_next i video videos writes rounds :
      forallb is_file_write writes = true ->
      file_contents writes = video_record api video ->
      rounds_from api total (S i) videos rounds ->
      rounds_from api total i (video :: videos)
        ((progress_line i total (snd video)
          :: fst (get_transcript api (fst video)) ++ writes ++ [Sleep 1])
         :: rounds).

(** The records of some videos, one after the other. *)
Definition records_of (api : Upstream.YouTubeTranscriptApi)
    (videos : list (string * string)) : string :=
  str_concat (map (video_record api) videos).

(** A segment without the key 'text'. *)
Definition lacks_text (e : entry) : bool :=
  match e !! "text" with
  | None => true
  | Some _ => false
  end.

(** The line [get_transcript] prints for an exception. *)
Definition could_not_retrieve (video_id : string) (e : exn) : event :=
  Print_line ("Could not retrieve transcript for video " +:+ video_id
              +:+ ": " +:+ str e).

(** The placeholder the script ships with instead of a key. *)
Definition placeholder_key : string := "YOUR_YOUTUBE_API_KEY_HERE".

(** The two lines [main] prints at its end. *)
Definition completed_lines (api : Upstream.YouTubeTranscriptApi)
    (output_file : string) (videos : list (string * string)) : trace :=
  [Print_line
     (nl +:+ "Completed! Successfully processed "
      +:+ pretty (length (List.filter (is_success api) videos))
      +:+ " videos, "
      +:+ pretty (length (List.filter (fun v => negb (is_success api v))
                            videos))
      +:+ " failed.");
   Print_line ("Results saved to: " +:+ output_file)].

(** ** A Data API server with a handful of channels *)

Section Server.

Import DataApi.

Definition dict (fields : list (string * json)) : json :=
  JDict (list_to_map fields).

Definition is_str (j : json) (s : string) : bool :=
  match j with
  | JStr s' => String.eqb s' s
  | _ => false
  end.

(** Responses of [search.list]. *)
Definition search_hit (channel_id : string) : json :=
  dict [("kind", JStr "youtube#searchListResponse");
        ("items",
         JList [dict [("kind", JStr "youtube#searchResult");
                      ("id", dict [("kind", JStr "youtube#channel");
                                   ("channelId", JStr channel_id)])]])].

Definition search_miss : json :=
  dict [("kind", JStr "youtube#searchListResponse"); ("items", JList [])].

Definition search_bare : json :=
  dict [("kind", JStr "youtube#searchListResponse")].

(** Responses of [channels.list]. *)
Definition channel_details (uploads : string) : json :=
  dict [("kind", JStr "youtube#channelListResponse");
        ("items",
         JList [dict [("contentDetails",
                       dict [("relatedPlaylists",
                              dict [("uploads", JStr uploads)])])]])].

Definition channel_unknown : json :=
  dict [("kind", JStr "youtube#channelListResponse"); ("items", JList [])].

(** Pages of [playlistItems.list]. *)
Definition playlist_item (video_id title : string) : json :=
  dict [("snippet",
         dict [("title", JStr title);
               ("resourceId", dict [("kind", JStr "youtube#video");
                                    ("videoId", JStr video_id)])])].

Definition first_items : list json :=
  [playlist_item "v1" "One"; playlist_item "v2" "Two"].

Definition last_items : list json := [playlist_item "v3" "Three"].

Definition endless_items : list json := [playlist_item "v0" "Again"].

Definition first_page : json :=
  dict [("items", JList first_items); ("nextPageToken", JStr "p2")].

Definition last_page : json := dict [("items", JList last_items)].

Definition endless_page : json :=
  dict [("items", JList endless_items); ("nextPageToken", JStr "more")].

Definition first_videos : list (json * json) :=
  [(JStr "v1", JStr "One"); (JStr "v2", JStr "Two")].

Definition last_videos : list (json * json) := [(JStr "v3", JStr "Three")].

Definition quota_exceeded : string :=
  "<HttpError 403 when requesting playlistItems returned quotaExceeded>".

Definition backend_error : string :=
  "<HttpError 500 when requesting channels returned backendError>".

(** The server.  The channel UC_demo has three uploads on two pages; the
    second page of UC_flaky is refused; the pages of UC_loop never end;
    UC_bare is unknown to the server and UC_down cannot be asked for. *)
Definition demo_youtube : Service :=
  mkService
    (fun q type_ part maxResults =>
       if String.eqb q "3Blue1Brown" then Ans (search_hit "UC_demo")
       else if String.eqb q "nobody" then Ans search_miss
       else if String.eqb q "odd" then Ans search_bare
       else Fail (HttpError quota_exceeded))
    (fun part id =>
       if is_str id "UC_demo" then Ans (channel_details "UU_demo")
       else if is_str id "UC_flaky" then Ans (channel_details "UU_flaky")
       else if is_str id "UC_loop" then Ans (channel_details "UU_loop")
       else if is_str id "UC_bare" then Ans channel_unknown
       else Fail (HttpError backend_error))
    (fun part playlistId maxResults pageToken =>
       if is_str playlistId "UU_loop" then Ans endless_page
       else if is_str playlistId "UU_demo" then
         match pageToken with
         | JNull => Ans first_page
         | _ => Ans last_page
         end
       else if is_str playlistId "UU_flaky" then
         match pageToken with
         | JNull => Ans first_page
         | _ => Fail (HttpError quota_exceeded)
         end
       else Fail (HttpError quota_exceeded)).

Definition demo_build (serviceName version developerKey : string)
    : answer Service :=
  Ans demo_youtube.

End Server.

(** ** Further videos of the transcript library *)

(** An older library with one transcript per video, in Spanish. *)
Definition hola_segments : list entry :=
  [segment "hola" 0 800; segment "mundo" 800 900].

Definition older_spanish_api : Upstream.YouTubeTranscriptApi :=
  Upstream.mkApi
    (fun _ =>
       Err (mk_exn AttributeError
              "type object 'YouTubeTranscriptApi' has no attribute 'list_transcripts'"))
    (fun _ langs =>
       match langs with
       | None => Ok hola_segments
       | Some _ => Err NoTranscriptFound
       end).

(** An older library that answers the code en-US with no segment at all
    and the call without languages with the Spanish transcript. *)
Definition older_empty_api : Upstream.YouTubeTranscriptApi :=
  Upstream.mkApi
    (fun _ =>
       Err (mk_exn AttributeError
              "type object 'YouTubeTranscriptApi' has no attribute 'list_transcripts'"))
    (fun _ langs =>
       match langs with
       | None => Ok hola_segments
       | Some ["en-US"] => Ok []
       | Some _ => Err NoTranscriptFound
       end).

(** A manual transcript whose first segment has a number for its text and
    whose second segment has no text. *)
Definition mixed_segments : list entry :=
  [{[ "text" := PyFloat 7 ]}; {[ "start" := PyFloat 1000 ]}].

Definition mixed_transcript : Upstream.Transcript :=
  plain_transcript "en" false mixed_segments.

Definition mixed_list : Upstream.TranscriptList :=
  Upstream.mkTranscriptList (fun _ => Ok mixed_transcript) no_finder (Ok []).

(** A manual transcript of one segment without any text. *)
Definition blank_transcript : Upstream.Transcript :=
  plain_transcript "en" false [segment "" 0 1000].

Definition blank_list : Upstream.TranscriptList :=
  Upstream.mkTranscriptList (fun _ => Ok blank_transcript) no_finder
    (Ok [blank_transcript]).

(** A video on which every strategy is tried and fails: the fetches raise,
    the last of them an [AttributeError], and the older calls as well. *)
Definition unfetchable (generated : bool) (e : exn) : Upstream.Transcript :=
  Upstream.mkTranscript "en" generated (Err e)
    (fun _ => Err NotTranslatable).

Definition german : Upstream.Transcript :=
  Upstream.mkTranscript "de" false (Ok [segment "hallo" 0 500])
    (fun _ =>
       Ok (unfetchable false
             (mk_exn AttributeError
                "'NoneType' object has no attribute 'text'"))).

Definition stubborn_list : Upstream.TranscriptList :=
  Upstream.mkTranscriptList
    (fun _ => Ok (unfetchable false TranscriptsDisabled))
    (fun _ => Ok (unfetchable true TranscriptsDisabled))
    (Ok [german]).

(** The demo library with these videos added, and with a video at which
    the user interrupts the run. *)
Definition second_api : Upstream.YouTubeTranscriptApi :=
  Upstream.mkApi
    (fun video_id =>
       if String.eqb video_id "stop" then Err (mk_exn KeyboardInterrupt "")
       else if String.eqb video_id "mixed" then Ok mixed_list
       else if String.eqb video_id "blank" then Ok blank_list
       else if String.eqb video_id "stubborn" then Ok stubborn_list
       else Upstream.list_transcripts demo_api video_id)
    (fun _ _ => Err NoTranscriptFound).

Definition interrupted_videos : list (string * string) :=
  [("manual", "First"); ("stop", "Second"); ("auto", "Third")].

(** * Properties *)

(** ** Auxiliary facts *)

Ltac unfold_get_transcript :=
  unfold get_transcript, get_transcript_body, retrieve_transcript_data,
    english_calls, step_calls, step_fails in *.

(** Case analysis on the outcome of an English strategy known to fail. *)
Ltac failed_step found :=
  let t := fresh "t" in
  let e := fresh "e" in
  destruct found as [t|e]; cbn in *;
  [ let d := fresh "d" in
    destruct (Upstream.fetch t) as [d|e]; [discriminate |]; cbn in *
  | ].

(** Case analysis on every call into the library that the goal mentions. *)
Ltac destruct_calls :=
  repeat
    (match goal with
     | |- context [call _ ?r] => destruct r eqn:?
     | |- context [data_truthy (Some ?d)] => destruct d
     | |- context [if is_AttributeError ?e then _ else _] =>
         destruct (is_AttributeError e) eqn:?
     | |- context [match ?l with [] => _ | _ :: _ => _ end] =>
         is_var l; destruct l
     end; cbn).

Lemma texts_of_segment_texts (d : list entry) (ss : list string) :
  segment_texts d = Some ss -> texts_of d = Ok (map PyStr ss).
Proof.
  revert ss. induction d as [|e d IH]; intros ss H; simpl in *.
  - by injection H as <-.
  - unfold segment_text in H.
    destruct (e !! "text") as [[s| |]|]; try discriminate.
    destruct (segment_texts d) as [ss'|]; try discriminate.
    injection H as <-. by rewrite (IH ss').
Qed.

Lemma all_str_PyStr (i : nat) (ss : list string) :
  all_str i (map PyStr ss) = inr ss.
Proof.
  revert i. induction ss as [|s ss IH]; intros i; simpl; [done |].
  by rewrite IH.
Qed.

Lemma combine_text_segments (d : list entry) (ss : list string) :
  d <> [] -> segment_texts d = Some ss ->
  combine_text (Some d) = ([], Return (Some (join " " ss))).
Proof.
  intros Hne Hss. unfold combine_text.
  destruct d as [|e d]; [done |].
  change (default [] (Some (e :: d))) with (e :: d). cbn [data_truthy].
  rewrite (texts_of_segment_texts _ _ Hss). cbn.
  unfold py_join. by rewrite all_str_PyStr.
Qed.

(** ** The fallback chain *)

(** C1, as the code has it.  When the library lists the video's
    transcripts and the manually created English transcript is found and
    fetched, with at least one segment, [get_transcript] returns the text
    of exactly that transcript; the only calls made are the listing, the
    manual finder and the fetch, so neither the auto-generated nor the
    translate strategy is attempted. *)
Theorem get_transcript_manual
    (api : Upstream.YouTubeTranscriptApi) (video_id : string)
    (tl : Upstream.TranscriptList) (t : Upstream.Transcript)
    (d : list entry) (ss : list string) :
  Upstream.list_transcripts api video_id = Ok tl ->
  Upstream.find_manually_created_transcript tl ["en"] = Ok t ->
  Upstream.fetch t = Ok d ->
  d <> [] ->
  segment_texts d = Some ss ->
  get_transcript api video_id =
    ([Call_list_transcripts video_id;
      Call_find_manually_created_transcript ["en"];
      Call_fetch t],
     Ok (Some (join " " ss)))
  /\ forallb (fun ev => negb (is_generated_event ev || is_fallback_event ev))
       (fst (get_transcript api video_id)) = true.
Proof.
  intros Hl Hm Hf Hne Hss.
  assert (get_transcript api video_id =
    ([Call_list_transcripts video_id;
      Call_find_manually_created_transcript ["en"];
      Call_fetch t],
     Ok (Some (join " " ss)))) as ->.
  { unfold get_transcript, get_transcript_body, retrieve_transcript_data.
    rewrite Hl. cbn. rewrite Hm. cbn. rewrite Hf. cbn.
    by rewrite (combine_text_segments _ _ Hne Hss). }
  done.
Qed.

(** C2, as the code has it.  When no manually created English transcript
    can be had and the auto-generated English transcript is found and
    fetched, with at least one segment, [get_transcript] returns the
    auto-generated text, and no call of the translate fallback (listing,
    translate) is made. *)
Theorem get_transcript_generated
    (api : Upstream.YouTubeTranscriptApi) (video_id : string)
    (tl : Upstream.TranscriptList) (t : Upstream.Transcript)
    (d : list entry) (ss : list string) :
  Upstream.list_transcripts api video_id = Ok tl ->
  step_fails (Upstream.find_manually_created_transcript tl ["en"]) = true ->
  Upstream.find_generated_transcript tl ["en"] = Ok t ->
  Upstream.fetch t = Ok d ->
  d <> [] ->
  segment_texts d = Some ss ->
  get_transcript api video_id =
    (Call_list_transcripts video_id
     :: step_calls (Call_find_manually_created_transcript ["en"])
          (Upstream.find_manually_created_transcript tl ["en"])
     ++ [Call_find_generated_transcript ["en"]; Call_fetch t],
     Ok (Some (join " " ss)))
  /\ forallb (fun ev => negb (is_fallback_event ev))
       (fst (get_transcript api video_id)) = true.
Proof.
  intros Hl Hm Hg Hf Hne Hss.
  assert (get_transcript api video_id =
    (Call_list_transcripts video_id
     :: step_calls (Call_find_manually_created_transcript ["en"])
          (Upstream.find_manually_created_transcript tl ["en"])
     ++ [Call_find_generated_transcript ["en"]; Call_fetch t],
     Ok (Some (join " " ss)))) as ->.
  { unfold_get_transcript. rewrite Hl. cbn.
    failed_step (Upstream.find_manually_created_transcript tl ["en"]);
      rewrite Hg; cbn; rewrite Hf; cbn;
      by rewrite (combine_text_segments _ _ Hne Hss). }
  unfold step_calls.
  by destruct (Upstream.find_manually_created_transcript tl ["en"]).
Qed.

(** C3, as the code has it.  When neither English strategy succeeds and
    the first transcript of the listing has an English translation that is
    obtained and fetched, with at least one segment, [get_transcript]
    returns the text of that translation. *)
Theorem get_transcript_translated
    (api : Upstream.YouTubeTranscriptApi) (video_id : string)
    (tl : Upstream.TranscriptList) (first t : Upstream.Transcript)
    (others : list Upstream.Transcript)
    (d : list entry) (ss : list string) :
  Upstream.list_transcripts api video_id = Ok tl ->
  step_fails (Upstream.find_manually_created_transcript tl ["en"]) = true ->
  step_fails (Upstream.find_generated_transcript tl ["en"]) = true ->
  Upstream.iter tl = Ok (first :: others) ->
  Upstream.translate first "en" = Ok t ->
  Upstream.fetch t = Ok d ->
  d <> [] ->
  segment_texts d = Some ss ->
  get_transcript api video_id =
    (english_calls video_id tl
     ++ [Call_iter; Call_translate first "en"; Call_fetch t],
     Ok (Some (join " " ss))).
Proof.
  intros Hl Hm Hg Hi Ht Hf Hne Hss.
  unfold_get_transcript. rewrite Hl. cbn.
  failed_step (Upstream.find_manually_created_transcript tl ["en"]);
    failed_step (Upstream.find_generated_transcript tl ["en"]);
    rewrite Hi; cbn; rewrite Ht; cbn; rewrite Hf; cbn;
    by rewrite (combine_text_segments _ _ Hne Hss).
Qed.

(** C4.  For a video without any transcript [get_transcript] hands back
    [None], the one failure value it has: it neither raises nor returns a
    text. *)
Theorem get_transcript_none
    (api : Upstream.YouTubeTranscriptApi) (video_id : string) :
  no_transcripts api video_id ->
  snd (get_transcript api video_id) = Ok None.
Proof.
  intros [tl e1 e2 Hl Hm Hg Hi | e Hl He Ha | e Hl Ha Hall];
    unfold_get_transcript; rewrite Hl; cbn.
  - rewrite Hm. cbn. rewrite Hg. cbn. by rewrite Hi.
  - rewrite Ha. cbn. by rewrite He.
  - rewrite Ha. cbn.
    destruct (Hall (Some ["en"])) as [e1 ->]; [cbn; tauto |]. cbn.
    destruct (Hall (Some ["en-US"])) as [e2 ->]; [cbn; tauto |]. cbn.
    destruct (Hall (Some ["en-GB"])) as [e3 ->]; [cbn; tauto |]. cbn.
    by destruct (Hall None) as [e4 ->]; [cbn; tauto |].
Qed.

Create HintDb transcript.
#[local] Hint Constructors retrieved upstream_raises : transcript.

Lemma retrieve_transcript_data_outcome
    (api : Upstream.YouTubeTranscriptApi) (video_id : string) :
  retrieval_outcome api video_id
    (snd (retrieve_transcript_data api video_id)).
Proof.
  unfold retrieve_transcript_data, retrieval_outcome, fallback_result.
  destruct (Upstream.list_transcripts api video_id) as [tl|e] eqn:Hl; cbn.
  - destruct_calls; eauto with transcript.
    all: try (eapply raises_fallback; eauto; unfold fallback_result;
              by repeat match goal with H : _ = _ |- _ => rewrite H end).
    all: first [eapply retrieved_older | eapply raises_older];
      [|eassumption]; cbn; tauto.
  - destruct_calls; eauto with transcript.
    all: first [eapply retrieved_older | eapply raises_older];
      [|eassumption]; cbn; tauto.
Qed.

Lemma fails_softly_sound
    (api : Upstream.YouTubeTranscriptApi) (video_id : string) :
  fails_softly api video_id = true ->
  forall e, upstream_raises api video_id e -> is_Exception e = true.
Proof.
  unfold fails_softly, step_soft, soft. intros H e Hup.
  apply andb_prop in H as [Hnew Hold].
  destruct Hup as [Hl|tl Hl Hm|tl t Hl Hm Hf|tl Hl Hg|tl t Hl Hg Hf
                  |tl Hl Hi|tl first others Hl Hi Hfb|langs Hin Hg];
    try (rewrite Hl in Hnew; try done;
         apply andb_prop in Hnew as [Hnew Hiter];
         apply andb_prop in Hnew as [Hman Hgen]).
  - rewrite Hm in Hman. done.
  - rewrite Hm, Hf in Hman. done.
  - rewrite Hg in Hgen. done.
  - rewrite Hg, Hf in Hgen. done.
  - rewrite Hi in Hiter. done.
  - rewrite Hi, Hfb in Hiter. done.
  - rewrite forallb_forall in Hold. specialize (Hold langs Hin).
    by rewrite Hg in Hold.
Qed.

Lemma segment_texts_of_texts (i : nat) (d : list entry) (vs : list pyval)
    (ss : list string) :
  texts_of d = Ok vs -> all_str i vs = inr ss -> segment_texts d = Some ss.
Proof.
  revert i vs ss.
  induction d as [|e d IH]; intros i vs ss Hv Hs; simpl in *.
  - injection Hv as <-. simpl in Hs. by injection Hs as <-.
  - unfold segment_text. destruct (e !! "text") as [v|]; [|discriminate].
    destruct (texts_of d) as [vs'|]; [|discriminate].
    injection Hv as <-. simpl in Hs.
    destruct v as [s| |]; try discriminate.
    destruct (all_str (S i) vs') as [bad|ss'] eqn:Hs'; [discriminate |].
    injection Hs as <-. by rewrite (IH (S i) vs' ss').
Qed.

(** The combining step emits nothing and ends in one of three ways. *)
Lemma combine_text_outcome (o : option (list entry)) :
  (data_truthy o = false /\ combine_text o = ([], Return None))
  \/ (exists d ss, o = Some d /\ d <> [] /\ segment_texts d = Some ss
        /\ combine_text o = ([], Return (Some (join " " ss))))
  \/ (exists e, is_Exception e = true /\ combine_text o = ([], Raise e)).
Proof.
  unfold combine_text. destruct (data_truthy o) eqn:Ho; [|by left].
  right. destruct o as [[|e0 d]|]; try discriminate.
  change (default [] (Some (e0 :: d))) with (e0 :: d).
  destruct (texts_of (e0 :: d)) as [vs|e] eqn:Hv.
  - cbn [lift bind ret]. unfold py_join.
    destruct (all_str 0 vs) as [[i v]|ss] eqn:Hs; cbn.
    + right. eexists. split; [|reflexivity]. done.
    + left. exists (e0 :: d), ss.
      by rewrite (segment_texts_of_texts _ _ _ _ Hv Hs).
  - right. exists e. split; [|done].
    clear Ho. revert e Hv. generalize (e0 :: d). clear.
    induction l as [|x l IH]; intros e H; simpl in H; [discriminate |].
    destruct (x !! "text"); [|by injection H as <-].
    destruct (texts_of l); [discriminate |]. injection H as <-. by apply IH.
Qed.

(** The whole function in terms of its retrieval phase. *)
Lemma get_transcript_outcome
    (api : Upstream.YouTubeTranscriptApi) (video_id : string)
    (tr : trace) (r : result (option string)) :
  get_transcript api video_id = (tr, r) ->
  match r with
  | Ok (Some text) =>
      exists d ss,
        retrieve_transcript_data api video_id = (tr, Normal (Some d))
        /\ d <> [] /\ segment_texts d = Some ss /\ text = join " " ss
  | Ok None => True
  | Err e =>
      retrieve_transcript_data api video_id = (tr, Raise e)
      /\ is_Exception e = false
  end.
Proof.
  unfold get_transcript, get_transcript_body.
  pose proof (retrieve_transcript_data_outcome api video_id) as Hout.
  destruct (retrieve_transcript_data api video_id) as [tr0 [o|r0|e]];
    cbn in Hout |- *.
  - destruct (combine_text_outcome o)
      as [[_ ->]|[(d & ss & -> & Hne & Hss & ->)|(e & He & ->)]]; cbn.
    + by intros [= <- <-].
    + intros [= <- <-]. exists d, ss. by rewrite app_nil_r.
    + rewrite He. cbn. by intros [= <- <-].
  - subst r0. by intros [= <- <-].
  - destruct (is_Exception e) eqn:He; cbn; by intros [= <- <-].
Qed.

(** C5.  Whenever [get_transcript] returns a text, that text is the texts
    of the segments the library handed out, in the library's order, with
    one space between consecutive segments; so segments "a", "b", "c" give
    "a b c". *)
Theorem get_transcript_joins_segments
    (api : Upstream.YouTubeTranscriptApi) (video_id : string)
    (tr : trace) (text : string) :
  get_transcript api video_id = (tr, Ok (Some text)) ->
  exists d ss,
    retrieved api video_id d
    /\ segment_texts d = Some ss
    /\ text = join " " ss
    /\ (ss = ["a"; "b"; "c"] -> text = "a b c").
Proof.
  intros H. apply get_transcript_outcome in H as (d & ss & Hr & _ & Hss & ->).
  exists d, ss. repeat split; [|done|by intros ->].
  pose proof (retrieve_transcript_data_outcome api video_id) as Hout.
  by rewrite Hr in Hout.
Qed.

(** An exception that leaves [get_transcript] was raised by the library
    and is not an [Exception]. *)
Lemma get_transcript_escape
    (api : Upstream.YouTubeTranscriptApi) (video_id : string)
    (tr : trace) (e : exn) :
  get_transcript api video_id = (tr, Err e) ->
  upstream_raises api video_id e /\ is_Exception e = false.
Proof.
  intros H. apply get_transcript_outcome in H as [Hr He]. split; [|done].
  pose proof (retrieve_transcript_data_outcome api video_id) as Hout.
  by rewrite Hr in Hout.
Qed.

Lemma get_transcript_returns
    (api : Upstream.YouTubeTranscriptApi) (video_id : string) :
  (forall e, upstream_raises api video_id e -> is_Exception e = true) ->
  exists r, snd (get_transcript api video_id) = Ok r.
Proof.
  intros Hsoft.
  destruct (get_transcript api video_id) as [tr [r|e]] eqn:H; [by eauto |].
  apply get_transcript_escape in H as [Hup He].
  apply Hsoft in Hup. congruence.
Qed.

(** C6.  If every exception the library raises for a video is an
    [Exception] (a missing track, an unsupported language, a transport or
    library error, a missing method), whatever the combination and at
    whatever step, [get_transcript] returns a value to its caller: no
    exception leaves it. *)
Theorem get_transcript_never_raises
    (api : Upstream.YouTubeTranscriptApi) (video_id : string) :
  (forall e, upstream_raises api video_id e -> is_Exception e = true) ->
  exists tr r, get_transcript api video_id = (tr, Ok r).
Proof.
  intros Hsoft.
  destruct (get_transcript_returns api video_id Hsoft) as [r Hr].
  destruct (get_transcript api video_id) as [tr res]. cbn in Hr. subst res.
  by eauto.
Qed.

(** The translate fallback on every [Exception] but one.  Only the first
    listed transcript is asked: when translating it, or fetching the
    translation, fails with an [Exception] other than [AttributeError],
    [get_transcript] prints the error and returns [None]; after the
    listing the only calls are those on that first transcript, none on
    another listed transcript and none of the older-version branch. *)
Theorem get_transcript_first_listed_only
    (api : Upstream.YouTubeTranscriptApi) (video_id : string)
    (tl : Upstream.TranscriptList) (first : Upstream.Transcript)
    (others : list Upstream.Transcript) (e : exn) :
  Upstream.list_transcripts api video_id = Ok tl ->
  step_fails (Upstream.find_manually_created_transcript tl ["en"]) = true ->
  step_fails (Upstream.find_generated_transcript tl ["en"]) = true ->
  Upstream.iter tl = Ok (first :: others) ->
  fallback_result first = Err e ->
  is_Exception e = true ->
  is_AttributeError e = false ->
  get_transcript api video_id =
    (english_calls video_id tl
     ++ Call_iter :: fallback_calls first
     ++ [Print_line ("Could not retrieve transcript for video " +:+ video_id
                +:+ ": " +:+ str e)],
     Ok None)
  /\ (forall t lang,
        In (Call_translate t lang) (fst (get_transcript api video_id)) ->
        t = first)
  /\ forallb (fun ev => negb (is_older_event ev))
       (fst (get_transcript api video_id)) = true.
Proof.
  intros Hl Hm Hg Hi Hfb He Ha.
  assert (get_transcript api video_id =
    (english_calls video_id tl
     ++ Call_iter :: fallback_calls first
     ++ [Print_line ("Could not retrieve transcript for video " +:+ video_id
                +:+ ": " +:+ str e)],
     Ok None)) as ->.
  { unfold_get_transcript. unfold fallback_result, fallback_calls in *.
    rewrite Hl. cbn.
    failed_step (Upstream.find_manually_created_transcript tl ["en"]);
      failed_step (Upstream.find_generated_transcript tl ["en"]);
      rewrite Hi; cbn;
      (destruct (Upstream.translate first "en") as [t'|e']; cbn in *;
       [rewrite Hfb | injection Hfb as ->]); cbn;
      rewrite Ha; cbn; by rewrite He. }
  split; [done |].
  unfold english_calls, step_calls, fallback_calls. cbn.
  split.
  - intros t lang.
    destruct (Upstream.find_manually_created_transcript tl ["en"]);
      destruct (Upstream.find_generated_transcript tl ["en"]);
      destruct (Upstream.translate first "en"); cbn;
      intros H; repeat (destruct H as [H|H]; try discriminate);
      try done; by injection H.
  - destruct (Upstream.find_manually_created_transcript tl ["en"]);
      destruct (Upstream.find_generated_transcript tl ["en"]);
      by destruct (Upstream.translate first "en").
Qed.

(** The trace of the function starts with the trace of its retrieval
    phase. *)
Lemma get_transcript_trace
    (api : Upstream.YouTubeTranscriptApi) (video_id : string) :
  exists tail,
    fst (get_transcript api video_id)
    = fst (retrieve_transcript_data api video_id) ++ tail.
Proof.
  unfold get_transcript, get_transcript_body.
  destruct (retrieve_transcript_data api video_id) as [tr0 [o|r0|e]]; cbn.
  - destruct (combine_text_outcome o)
      as [[_ ->]|[(d & ss & -> & Hne & Hss & ->)|(e & He & ->)]]; cbn.
    + by exists [].
    + by exists [].
    + rewrite He. cbn. eexists. by rewrite <- app_assoc.
  - exists []. by rewrite app_nil_r.
  - destruct (is_Exception e); cbn; [by eexists |].
    exists []. by rewrite app_nil_r.
Qed.

(** An [AttributeError] out of the translate fallback is taken for the
    sign of an older library: the older-version branch runs next. *)
Lemma fallback_AttributeError_runs_older_branch
    (api : Upstream.YouTubeTranscriptApi) (video_id : string)
    (tl : Upstream.TranscriptList) (first : Upstream.Transcript)
    (others : list Upstream.Transcript) (e : exn) :
  Upstream.list_transcripts api video_id = Ok tl ->
  step_fails (Upstream.find_manually_created_transcript tl ["en"]) = true ->
  step_fails (Upstream.find_generated_transcript tl ["en"]) = true ->
  Upstream.iter tl = Ok (first :: others) ->
  fallback_result first = Err e ->
  is_AttributeError e = true ->
  In (Call_get_transcript video_id (Some ["en"]))
    (fst (get_transcript api video_id)).
Proof.
  intros Hl Hm Hg Hi Hfb Ha.
  destruct (get_transcript_trace api video_id) as [tail ->].
  apply in_or_app. left.
  unfold retrieve_transcript_data, step_fails, fallback_result in *.
  rewrite Hl. cbn.
  failed_step (Upstream.find_manually_created_transcript tl ["en"]);
    failed_step (Upstream.find_generated_transcript tl ["en"]);
    rewrite Hi; cbn;
    (destruct (Upstream.translate first "en") as [t'|e']; cbn in *;
     [rewrite Hfb | injection Hfb as ->]); cbn;
    rewrite Ha; cbn;
    destruct_calls; rewrite ?in_app_iff; cbn; tauto.
Qed.

(** The three strategies of the current library, each with a transcript
    of zero segments: the answer is [None] and no later strategy runs. *)
Lemma empty_transcript_is_failure
    (api : Upstream.YouTubeTranscriptApi) (video_id : string)
    (tl : Upstream.TranscriptList) (t : Upstream.Transcript) :
  Upstream.list_transcripts api video_id = Ok tl ->
  Upstream.fetch t = Ok [] ->
  (Upstream.find_manually_created_transcript tl ["en"] = Ok t ->
   get_transcript api video_id =
     ([Call_list_transcripts video_id;
       Call_find_manually_created_transcript ["en"]; Call_fetch t],
      Ok None))
  /\ (step_fails (Upstream.find_manually_created_transcript tl ["en"]) = true ->
      Upstream.find_generated_transcript tl ["en"] = Ok t ->
      snd (get_transcript api video_id) = Ok None)
  /\ (forall first others,
        step_fails (Upstream.find_manually_created_transcript tl ["en"])
          = true ->
        step_fails (Upstream.find_generated_transcript tl ["en"]) = true ->
        Upstream.iter tl = Ok (first :: others) ->
        Upstream.translate first "en" = Ok t ->
        snd (get_transcript api video_id) = Ok None).
Proof.
  intros Hl Hf. repeat split.
  - intros Hm. unfold_get_transcript. rewrite Hl. cbn. rewrite Hm. cbn.
    by rewrite Hf.
  - intros Hm Hg. unfold_get_transcript. rewrite Hl. cbn.
    failed_step (Upstream.find_manually_created_transcript tl ["en"]);
      rewrite Hg; cbn; by rewrite Hf.
  - intros first others Hm Hg Hi Ht. unfold_get_transcript. rewrite Hl. cbn.
    failed_step (Upstream.find_manually_created_transcript tl ["en"]);
      failed_step (Upstream.find_generated_transcript tl ["en"]);
      rewrite Hi; cbn; rewrite Ht; cbn; by rewrite Hf.
Qed.

(** The function from the end of its retrieval phase. *)
Lemma get_transcript_of_segments
    (api : Upstream.YouTubeTranscriptApi) (video_id : string) (tr : trace)
    (d : list entry) (ss : list string) :
  retrieve_transcript_data api video_id = (tr, Normal (Some d)) ->
  d <> [] -> segment_texts d = Some ss ->
  get_transcript api video_id = (tr, Ok (Some (join " " ss))).
Proof.
  intros Hr Hne Hss. unfold get_transcript, get_transcript_body.
  rewrite Hr. cbn [bind]. rewrite (combine_text_segments _ _ Hne Hss).
  cbn. by rewrite app_nil_r.
Qed.

Lemma get_transcript_of_return
    (api : Upstream.YouTubeTranscriptApi) (video_id : string) (tr : trace)
    (r : option string) :
  retrieve_transcript_data api video_id = (tr, Return r) ->
  get_transcript api video_id = (tr, Ok r).
Proof.
  intros Hr. unfold get_transcript, get_transcript_body. by rewrite Hr.
Qed.

Lemma get_transcript_of_nothing
    (api : Upstream.YouTubeTranscriptApi) (video_id : string) (tr : trace) :
  retrieve_transcript_data api video_id = (tr, Normal (Some [])) ->
  get_transcript api video_id = (tr, Ok None).
Proof.
  intros Hr. unfold get_transcript, get_transcript_body.
  rewrite Hr. cbn. by rewrite app_nil_r.
Qed.

(** The loop over the language codes. *)
Lemma legacy_loop_first_answer
    (api : Upstream.YouTubeTranscriptApi) (video_id : string)
    (before : list string) (code : string) (after : list string)
    (d : list entry) (init : option (list entry)) :
  (forall c, In c before ->
     exists e, Upstream.get_transcript api video_id (Some [c]) = Err e) ->
  Upstream.get_transcript api video_id (Some [code]) = Ok d ->
  legacy_loop api video_id (before ++ code :: after) init
  = (code_calls video_id (before ++ [code]), Normal (Some d)).
Proof.
  intros Hraise Hcode.
  induction before as [|b before IH]; cbn [app legacy_loop].
  - by rewrite Hcode.
  - destruct (Hraise b) as [e He]; [by left |]. rewrite He. cbn.
    rewrite IH; [done |]. intros c Hin. apply Hraise. by right.
Qed.

Lemma legacy_loop_all_raise
    (api : Upstream.YouTubeTranscriptApi) (video_id : string)
    (codes : list string) (init : option (list entry)) :
  (forall c, In c codes ->
     exists e, Upstream.get_transcript api video_id (Some [c]) = Err e) ->
  legacy_loop api video_id codes init = (code_calls video_id codes, Normal init).
Proof.
  intros Hraise. induction codes as [|b codes IH]; cbn [legacy_loop]; [done |].
  destruct (Hraise b) as [e He]; [by left |]. rewrite He. cbn.
  rewrite IH; [done |]. intros c Hin. apply Hraise. by right.
Qed.

(** The retrieval phase on a library without [list_transcripts]. *)
Lemma retrieve_older_branch
    (api : Upstream.YouTubeTranscriptApi) (video_id : string) (e : exn)
    (tr : trace) (o : option (list entry)) :
  Upstream.list_transcripts api video_id = Err e ->
  is_AttributeError e = true ->
  legacy_loop api video_id language_codes None = (tr, Normal o) ->
  retrieve_transcript_data api video_id
  = if data_truthy o then (Call_list_transcripts video_id :: tr, Normal o)
    else match Upstream.get_transcript api video_id None with
         | Ok d =>
             (Call_list_transcripts video_id
              :: tr ++ [Call_get_transcript video_id None],
              Normal (Some d))
         | Err _ =>
             (Call_list_transcripts video_id
              :: tr ++ [Call_get_transcript video_id None],
              Return None)
         end.
Proof.
  intros Hl Ha Hloop. unfold retrieve_transcript_data.
  rewrite Hl. cbn [call bind try_except]. rewrite Ha.
  change ["en"; "en-US"; "en-GB"] with language_codes. rewrite Hloop.
  cbn [bind]. destruct (data_truthy o); cbn.
  - by rewrite app_nil_r.
  - by destruct (Upstream.get_transcript api video_id None).
Qed.

Lemma legacy_loop_fruitless
    (api : Upstream.YouTubeTranscriptApi) (video_id : string)
    (tried : list string) :
  codes_fruitless api video_id tried ->
  exists o,
    legacy_loop api video_id language_codes None
    = (code_calls video_id tried, Normal o)
    /\ data_truthy o = false.
Proof.
  intros [Hraise|before code after Hcodes Hraise Hcode].
  - exists None. split; [|done]. by apply legacy_loop_all_raise.
  - exists (Some []). split; [|done].
    rewrite Hcodes. by apply legacy_loop_first_answer.
Qed.

(** C10, as the code has it.  A transcript of zero segments that reaches
    the combining step gives [None], not the empty text: so it is for each
    of the three strategies of the current library (no later strategy
    runs), for the call without languages of the older-version branch, and
    whenever the retrieval phase ends with an empty list.  In the
    older-version branch an empty answer to a language-code call does not
    end the search: it counts as not found, the call without languages
    follows and its answer decides the result.  Every text returned was
    combined from at least one segment the library handed out. *)
Theorem get_transcript_needs_a_segment
    (api : Upstream.YouTubeTranscriptApi) (video_id : string) :
  (forall tl t,
     Upstream.list_transcripts api video_id = Ok tl ->
     Upstream.fetch t = Ok [] ->
     (Upstream.find_manually_created_transcript tl ["en"] = Ok t ->
      snd (get_transcript api video_id) = Ok None)
     /\ (step_fails (Upstream.find_manually_created_transcript tl ["en"])
           = true ->
         Upstream.find_generated_transcript tl ["en"] = Ok t ->
         snd (get_transcript api video_id) = Ok None)
     /\ (forall first others,
           step_fails (Upstream.find_manually_created_transcript tl ["en"])
             = true ->
           step_fails (Upstream.find_generated_transcript tl ["en"])
             = true ->
           Upstream.iter tl = Ok (first :: others) ->
           Upstream.translate first "en" = Ok t ->
           snd (get_transcript api video_id) = Ok None))
  /\ (forall e tried,
        Upstream.list_transcripts api video_id = Err e ->
        is_AttributeError e = true ->
        codes_fruitless api video_id tried ->
        Upstream.get_transcript api video_id None = Ok [] ->
        get_transcript api video_id = (older_calls video_id tried, Ok None))
  /\ (forall e before code after d ss,
        Upstream.list_transcripts api video_id = Err e ->
        is_AttributeError e = true ->
        language_codes = before ++ code :: after ->
        (forall c, In c before ->
           exists e',
             Upstream.get_transcript api video_id (Some [c]) = Err e') ->
        Upstream.get_transcript api video_id (Some [code]) = Ok [] ->
        Upstream.get_transcript api video_id None = Ok d ->
        d <> [] ->
        segment_texts d = Some ss ->
        get_transcript api video_id
        = (older_calls video_id (before ++ [code]),
           Ok (Some (join " " ss))))
  /\ (forall tr,
        retrieve_transcript_data api video_id = (tr, Normal (Some [])) ->
        get_transcript api video_id = (tr, Ok None))
  /\ (forall tr text,
        get_transcript api video_id = (tr, Ok (Some text)) ->
        exists d,
          retrieve_transcript_data api video_id = (tr, Normal (Some d))
          /\ retrieved api video_id d
          /\ d <> []).
Proof.
  split; [|split; [|split; [|split]]].
  - intros tl t Hl Hf.
    destruct (empty_transcript_is_failure api video_id tl t Hl Hf)
      as (Hm & Hg & Ht).
    repeat split; [|done..]. intros H. by rewrite (Hm H).
  - intros e tried Hl Ha Hfruit Hd.
    destruct (legacy_loop_fruitless api video_id tried Hfruit)
      as (o & Hloop & Ho).
    pose proof (retrieve_older_branch api video_id e _ o Hl Ha Hloop) as Hr.
    rewrite Ho, Hd in Hr. by apply get_transcript_of_nothing.
  - intros e before code after d ss Hl Ha Hcodes Hraise Hcode Hd Hne Hss.
    apply (get_transcript_of_segments _ _ _ d); [|done..].
    rewrite (retrieve_older_branch api video_id e
               (code_calls video_id (before ++ [code])) (Some []) Hl Ha).
    + cbn [data_truthy]. by rewrite Hd.
    + rewrite Hcodes. by apply legacy_loop_first_answer.
  - intros tr H. by apply get_transcript_of_nothing.
  - intros tr text H.
    apply get_transcript_outcome in H as (d & ss & Hr & Hne & _ & _).
    exists d. repeat split; [done | | done].
    pose proof (retrieve_transcript_data_outcome api video_id) as Hout.
    by rewrite Hr in Hout.
Qed.


(** ** The report *)

Lemma append_assoc (a b c : string) : (a +:+ b) +:+ c = a +:+ b +:+ c.
Proof.
  induction a as [|x a IH]; [done |].
  change (String x ((a +:+ b) +:+ c) = String x (a +:+ b +:+ c)).
  by rewrite IH.
Qed.

Lemma append_empty_r (a : string) : a +:+ "" = a.
Proof.
  induction a as [|x a IH]; [done |].
  change (String x (a +:+ "") = String x a). by rewrite IH.
Qed.

Lemma file_contents_app (tr1 tr2 : trace) :
  file_contents (tr1 ++ tr2) = file_contents tr1 +:+ file_contents tr2.
Proof.
  induction tr1 as [|ev tr1 IH]; [done |].
  destruct ev; simpl; rewrite IH; try done. by rewrite append_assoc.
Qed.

Lemma retrieve_transcript_data_writes_nothing
    (api : Upstream.YouTubeTranscriptApi) (video_id : string) :
  file_contents (fst (retrieve_transcript_data api video_id)) = "".
Proof.
  unfold retrieve_transcript_data.
  destruct (Upstream.list_transcripts api video_id) as [tl|e] eqn:Hl; cbn;
    destruct_calls; reflexivity.
Qed.

(** [get_transcript] calls the library and prints; it writes nothing to
    the report. *)
Lemma get_transcript_writes_nothing
    (api : Upstream.YouTubeTranscriptApi) (video_id : string) :
  file_contents (fst (get_transcript api video_id)) = "".
Proof.
  pose proof (retrieve_transcript_data_writes_nothing api video_id) as Hw.
  unfold get_transcript, get_transcript_body.
  destruct (retrieve_transcript_data api video_id) as [tr0 [o|r0|e]];
    cbn in Hw |- *.
  - destruct (combine_text_outcome o)
      as [[_ ->]|[(d & ss & -> & Hne & Hss & ->)|(e & He & ->)]]; cbn;
      rewrite ?He; cbn; rewrite ?file_contents_app, Hw; done.
  - done.
  - destruct (is_Exception e); cbn; rewrite ?file_contents_app, Hw; done.
Qed.

Lemma video_record_returned
    (api : Upstream.YouTubeTranscriptApi) (video_id video_title : string)
    (r : option string) :
  snd (get_transcript api video_id) = Ok r ->
  is_success api (video_id, video_title) = transcript_truthy r
  /\ video_record api (video_id, video_title)
     = if transcript_truthy r
       then success_record video_id video_title (default "" r)
       else failure_record video_id video_title.
Proof.
  intros Hr. unfold is_success, video_record. cbn [fst snd]. rewrite Hr.
  by destruct r as [text|].
Qed.

(** The loop, for videos on which [get_transcript] returns. *)
Lemma main_loop_report
    (api : Upstream.YouTubeTranscriptApi) (total : nat)
    (video_data : list (string * string)) :
  (forall video, In video video_data ->
     exists r, snd (get_transcript api (fst video)) = Ok r) ->
  forall i successful failed,
  exists tr successful' failed',
    main_loop api total i video_data successful failed =
      (tr, Normal (successful', failed'))
    /\ successful'
       = successful + length (List.filter (is_success api) video_data)
    /\ failed'
       = failed
         + length (List.filter (fun v => negb (is_success api v)) video_data)
    /\ file_contents tr = str_concat (map (video_record api) video_data).
Proof.
  induction video_data as [|[video_id video_title] rest IH];
    intros Hret i successful failed.
  - exists [], successful, failed. cbn. repeat split; lia.
  - destruct (Hret (video_id, video_title)) as [r Hr]; [by left |].
    cbn [fst] in Hr.
    destruct (video_record_returned api video_id video_title r Hr)
      as [Hs Hrec].
    pose proof (get_transcript_writes_nothing api video_id) as Hw.
    assert (forall video, In video rest ->
              exists r, snd (get_transcript api (fst video)) = Ok r) as Hrest
      by (intros video Hin; apply Hret; by right).
    cbn [main_loop map List.filter str_concat]. rewrite Hs, Hrec.
    destruct (get_transcript api video_id) as [trg res].
    cbn [fst snd] in Hr, Hw. subst res. cbn [call_fn emit bind].
    destruct (transcript_truthy r) eqn:Ht;
      cbn [negb emit bind fst snd app ret].
    + destruct (IH Hrest (S i) (successful + 1) failed)
        as (tr & s' & f' & -> & -> & -> & Hfile).
      do 3 eexists. split; [reflexivity |]. repeat split.
      * cbn [length]. lia.
      * cbn [file_contents]. rewrite !file_contents_app, Hw.
        cbn [file_contents]. rewrite Hfile.
        unfold success_record, url_line, canonical_url, separator_line,
          closing_line.
        by rewrite !append_assoc.
    + destruct (IH Hrest (S i) successful (failed + 1))
        as (tr & s' & f' & -> & -> & -> & Hfile).
      do 3 eexists. split; [reflexivity |]. repeat split.
      * cbn [length]. lia.
      * cbn [file_contents]. rewrite !file_contents_app, Hw.
        cbn [file_contents]. rewrite Hfile.
        unfold failure_record, url_line, canonical_url, separator_line.
        by rewrite !append_assoc.
Qed.

(** C7.  When the library fails only with [Exception]s, the loop goes
    through every video whatever [get_transcript] returns for each: the
    report is the header followed by exactly one record per video, in the
    order of the input, a success record where a non-empty text was
    returned and a failure record otherwise, and the two counters add up
    to the number of videos. *)
Theorem main_report_every_video
    (api : Upstream.YouTubeTranscriptApi)
    (CHANNEL_NAME OUTPUT_FILE : string)
    (video_data : list (string * string)) :
  (forall video e,
     In video video_data ->
     upstream_raises api (fst video) e -> is_Exception e = true) ->
  exists tr successful failed,
    main_report api CHANNEL_NAME OUTPUT_FILE video_data
    = (tr, Normal (successful, failed))
    /\ file_contents tr
       = report_header CHANNEL_NAME
         +:+ str_concat (map (video_record api) video_data)
    /\ length (map (video_record api) video_data) = length video_data
    /\ successful = length (List.filter (is_success api) video_data)
    /\ failed
       = length (List.filter (fun v => negb (is_success api v)) video_data)
    /\ successful + failed = length video_data.
Proof.
  intros Hsoft.
  assert (forall video, In video video_data ->
            exists r, snd (get_transcript api (fst video)) = Ok r) as Hret.
  { intros video Hin.
    apply get_transcript_returns. intros e. by apply Hsoft. }
  destruct (main_loop_report api (length video_data) video_data Hret 1 0 0)
    as (tr & s & f & Hloop & -> & -> & Hfile).
  unfold main_report, with_open. cbn [emit bind]. rewrite Hloop.
  do 3 eexists. split; [reflexivity |]. repeat split.
  - cbn [app file_contents]. rewrite file_contents_app, Hfile.
    cbn [file_contents]. unfold report_header.
    by rewrite !append_assoc, append_empty_r.
  - by rewrite length_map.
  - cbn. apply List.filter_length.
Qed.

Lemma append_cons (c : Ascii.ascii) (a b : string) :
  String c a +:+ b = String c (a +:+ b).
Proof. reflexivity. Qed.

Lemma strip_prefix_app (p s : string) : strip_prefix p (p +:+ s) = Some s.
Proof.
  induction p as [|c p IH]; [done |].
  rewrite append_cons. cbn [strip_prefix]. by rewrite Ascii.eqb_refl.
Qed.

Lemma occursb_app (b x y : string) : occursb b (x +:+ b +:+ y) = true.
Proof.
  induction x as [|c x IH].
  - change ("" +:+ b +:+ y) with (b +:+ y).
    destruct (b +:+ y) eqn:E; cbn [occursb]; rewrite <- E;
      by rewrite strip_prefix_app.
  - rewrite append_cons. cbn [occursb]. rewrite IH.
    by destruct (strip_prefix b _).
Qed.

Lemma followsb_app (a b pre mid post : string) :
  followsb a b (pre +:+ a +:+ mid +:+ b +:+ post) = true.
Proof.
  induction pre as [|c pre IH].
  - change ("" +:+ a +:+ mid +:+ b +:+ post) with (a +:+ mid +:+ b +:+ post).
    destruct (a +:+ mid +:+ b +:+ post) eqn:E; cbn [followsb]; rewrite <- E;
      by rewrite strip_prefix_app, occursb_app.
  - rewrite append_cons. cbn [followsb]. rewrite IH. apply orb_true_r.
Qed.

Lemma url_follows_followsb (line record video_id : string) :
  url_follows line record video_id ->
  followsb line (canonical_url video_id) record = true.
Proof. intros (pre & mid & post & ->). apply followsb_app. Qed.

Lemma video_record_layout
    (api : Upstream.YouTubeTranscriptApi) (video : string * string) :
  record_layout api video (video_record api video).
Proof.
  unfold record_layout, video_record.
  destruct (snd (get_transcript api (fst video))) as [[text|]|e] eqn:Hr.
  - destruct (str_truthy text) eqn:Ht.
    + exists "VIDEO: ", (text +:+ nl +:+ nl +:+ closing_line +:+ nl).
      split; [done |]. left. split; [done |]. exists text.
      repeat split. intros ->. discriminate.
    + exists "FAILED TO GET TRANSCRIPT: ", nl. split; [done | by right].
  - exists "FAILED TO GET TRANSCRIPT: ", nl. split; [done | by right].
  - exists "FAILED TO GET TRANSCRIPT: ", nl. split; [done | by right].
Qed.

(** C8, as the code has it.  Every record of the report starts with a
    header line holding the title after "VIDEO: " or after the failure
    marker "FAILED TO GET TRANSCRIPT: ", goes on with the line of the
    video's canonical URL and then the fixed separator line of thirty
    dashes; a success record then holds the returned transcript and the
    closing rule, a failure record an empty line. *)
Theorem main_report_record_layout
    (api : Upstream.YouTubeTranscriptApi)
    (CHANNEL_NAME OUTPUT_FILE : string)
    (video_data : list (string * string)) :
  (forall video e,
     In video video_data ->
     upstream_raises api (fst video) e -> is_Exception e = true) ->
  exists records,
    file_contents (fst (main_report api CHANNEL_NAME OUTPUT_FILE video_data))
    = report_header CHANNEL_NAME +:+ str_concat records
    /\ Forall2 (record_layout api) video_data records.
Proof.
  intros Hsoft. exists (map (video_record api) video_data). split.
  - assert (forall video, In video video_data ->
              exists r, snd (get_transcript api (fst video)) = Ok r) as Hret.
    { intros video Hin. apply get_transcript_returns.
      intros e. by apply Hsoft. }
    destruct (main_loop_report api (length video_data) video_data Hret 1 0 0)
      as (tr & s & f & Hloop & _ & _ & Hfile).
    unfold main_report, with_open. cbn [emit bind]. rewrite Hloop.
    cbn [fst app file_contents]. rewrite file_contents_app, Hfile.
    cbn [file_contents]. unfold report_header.
    by rewrite !append_assoc, append_empty_r.
  - clear Hsoft. induction video_data as [|video rest IH]; cbn.
    + constructor.
    + constructor; [apply video_record_layout | apply IH].
Qed.

Example get_transcript_manual_abc :
  snd (get_transcript demo_api "manual") = Ok (Some "a b c").
Proof. vm_compute. reflexivity. Qed.

Example get_transcript_auto_text :
  snd (get_transcript demo_api "auto") = Ok (Some "hello world").
Proof. vm_compute. reflexivity. Qed.

Example get_transcript_spanish_text :
  snd (get_transcript demo_api "spanish") = Ok (Some "good morning").
Proof. vm_compute. reflexivity. Qed.

Example get_transcript_french_first :
  snd (get_transcript demo_api "french") = Ok None.
Proof. vm_compute. reflexivity. Qed.

Example get_transcript_silent :
  snd (get_transcript demo_api "silent") = Ok None.
Proof. vm_compute. reflexivity. Qed.

Example get_transcript_disabled :
  get_transcript demo_api "gone"
  = ([Call_list_transcripts "gone";
      Print_line "Could not retrieve transcript for video gone: TranscriptsDisabled"],
     Ok None).
Proof. vm_compute. reflexivity. Qed.

(** Three videos, the second without any transcript: two success records
    and one failure record, in the order of the input. *)
Example report_three_videos :
  exists tr,
    main_report demo_api "Chan" "out.txt" three_videos = (tr, Normal (2, 1))
    /\ file_contents tr
       = report_header "Chan"
         +:+ success_record "manual" "First" "a b c"
         +:+ failure_record "none" "Second"
         +:+ success_record "auto" "Third" "hello world".
Proof. eexists. split; vm_compute; reflexivity. Qed.

Example report_three_videos_text :
  file_contents (fst (main_report demo_api "Chan" "out.txt" three_videos))
  = "Transcripts from Chan" +:+ nl
    +:+ "==================================================" +:+ nl +:+ nl
    +:+ "VIDEO: First" +:+ nl
    +:+ "URL: https://youtube.com/watch?v=manual" +:+ nl
    +:+ "------------------------------" +:+ nl
    +:+ "a b c" +:+ nl +:+ nl
    +:+ "==================================================" +:+ nl +:+ nl
    +:+ "FAILED TO GET TRANSCRIPT: Second" +:+ nl
    +:+ "URL: https://youtube.com/watch?v=none" +:+ nl
    +:+ "------------------------------" +:+ nl +:+ nl
    +:+ "VIDEO: Third" +:+ nl
    +:+ "URL: https://youtube.com/watch?v=auto" +:+ nl
    +:+ "------------------------------" +:+ nl
    +:+ "hello world" +:+ nl +:+ nl
    +:+ "==================================================" +:+ nl +:+ nl.
Proof. vm_compute. reflexivity. Qed.

Example get_transcript_untexted :
  get_transcript untexted_api "video"
  = ([Call_list_transcripts "video";
      Call_find_manually_created_transcript ["en"];
      Call_fetch
        (plain_transcript "en" false
           [segment "a" 0 1000; {[ "start" := PyFloat 1000 ]}]);
      Print_line "Could not retrieve transcript for video video: 'text'"],
     Ok None).
Proof. vm_compute. reflexivity. Qed.

Example get_transcript_untyped :
  snd (get_transcript untyped_api "video") = Ok None
  /\ last (fst (get_transcript untyped_api "video"))
     = Some (Print_line
               ("Could not retrieve transcript for video video: "
                +:+ "sequence item 1: expected str instance, float found")).
Proof. split; vm_compute; reflexivity. Qed.

(** An exception that is not an [Exception] leaves [get_transcript] and
    ends the loop of [main]: nothing is written for the video. *)
Example get_transcript_interrupted :
  get_transcript interrupted_api "video"
  = ([Call_list_transcripts "video"], Err (mk_exn KeyboardInterrupt ""))
  /\ main_report interrupted_api "Chan" "out.txt" [("video", "Title")]
     = ([File_open "out.txt";
         File_write ("Transcripts from Chan" +:+ nl);
         File_write (str_mul "=" 50 +:+ nl +:+ nl);
         Print_line "Processing video 1/1: Title";
         Call_list_transcripts "video";
         File_close],
        Raise (mk_exn KeyboardInterrupt "")).
Proof. split; vm_compute; reflexivity. Qed.

Example main_prints :
  List.filter (fun ev => match ev with Print_line _ => true | _ => false end)
    (fst (main demo_api "Chan" "key" "out.txt" 50
            (fun _ _ => ([], Ok (Some "UC1")))
            (fun _ _ _ => ([], Ok three_videos))))
  = [Print_line "Starting transcript scraping for channel: Chan";
     Print_line "Getting channel ID...";
     Print_line "Channel ID: UC1";
     Print_line "Getting video list...";
     Print_line "Found 3 videos";
     Print_line "Processing video 1/3: First";
     Print_line "Processing video 2/3: Second";
     Print_line "Processing video 3/3: Third";
     Print_line (nl +:+ "Completed! Successfully processed 2 videos, "
                 +:+ "1 failed.");
     Print_line "Results saved to: out.txt"].
Proof. vm_compute. reflexivity. Qed.

(** ** The statements at the videos of the demo library *)

Lemma get_transcript_manual_demo :
  get_transcript demo_api "manual" =
    ([Call_list_transcripts "manual";
      Call_find_manually_created_transcript ["en"];
      Call_fetch english_manual],
     Ok (Some (join " " ["a"; "b"; "c"])))
  /\ forallb (fun ev => negb (is_generated_event ev || is_fallback_event ev))
       (fst (get_transcript demo_api "manual")) = true.
Proof.
  apply (get_transcript_manual demo_api "manual" manual_list english_manual
           abc_segments ["a"; "b"; "c"]);
    [reflexivity | reflexivity | reflexivity | discriminate | reflexivity].
Defined.

Lemma get_transcript_generated_demo :
  get_transcript demo_api "auto" =
    (Call_list_transcripts "auto"
     :: step_calls (Call_find_manually_created_transcript ["en"])
          (Upstream.find_manually_created_transcript generated_list ["en"])
     ++ [Call_find_generated_transcript ["en"]; Call_fetch english_generated],
     Ok (Some (join " " ["hello"; "world"])))
  /\ forallb (fun ev => negb (is_fallback_event ev))
       (fst (get_transcript demo_api "auto")) = true.
Proof.
  apply (get_transcript_generated demo_api "auto" generated_list
           english_generated
           [segment "hello" 0 900; segment "world" 900 900]
           ["hello"; "world"]);
    [reflexivity | reflexivity | reflexivity | reflexivity | discriminate
    | reflexivity].
Defined.

Lemma get_transcript_translated_demo :
  get_transcript demo_api "spanish" =
    (english_calls "spanish" spanish_list
     ++ [Call_iter; Call_translate spanish "en";
         Call_fetch spanish_in_english],
     Ok (Some (join " " ["good"; "morning"]))).
Proof.
  apply (get_transcript_translated demo_api "spanish" spanish_list spanish
           spanish_in_english []
           [segment "good" 0 700; segment "morning" 700 800]
           ["good"; "morning"]);
    [reflexivity | reflexivity | reflexivity | reflexivity | reflexivity
    | reflexivity | discriminate | reflexivity].
Defined.

Lemma get_transcript_none_demo :
  snd (get_transcript demo_api "none") = Ok None.
Proof.
  apply get_transcript_none.
  apply (listing_empty demo_api "none" empty_list
           NoTranscriptFound NoTranscriptFound); reflexivity.
Defined.

Lemma get_transcript_joins_segments_demo :
  exists d ss,
    retrieved demo_api "manual" d
    /\ segment_texts d = Some ss
    /\ "a b c" = join " " ss
    /\ (ss = ["a"; "b"; "c"] -> "a b c" = "a b c").
Proof.
  apply (get_transcript_joins_segments demo_api "manual"
           [Call_list_transcripts "manual";
            Call_find_manually_created_transcript ["en"];
            Call_fetch english_manual]
           "a b c").
  reflexivity.
Defined.

Lemma get_transcript_never_raises_demo :
  exists tr r, get_transcript demo_api "french" = (tr, Ok r).
Proof.
  apply (get_transcript_never_raises demo_api "french").
  apply fails_softly_sound. vm_compute. reflexivity.
Defined.

Lemma three_videos_raise_Exceptions :
  forall video e,
    In video three_videos ->
    upstream_raises demo_api (fst video) e -> is_Exception e = true.
Proof.
  intros video e [<-|[<-|[<-|[]]]]; revert e; cbn [fst];
    apply fails_softly_sound; vm_compute; reflexivity.
Defined.

Lemma main_report_every_video_demo :
  exists tr successful failed,
    main_report demo_api "Chan" "out.txt" three_videos
    = (tr, Normal (successful, failed))
    /\ file_contents tr
       = report_header "Chan"
         +:+ str_concat (map (video_record demo_api) three_videos)
    /\ length (map (video_record demo_api) three_videos)
       = length three_videos
    /\ successful = length (List.filter (is_success demo_api) three_videos)
    /\ failed
       = length (List.filter (fun v => negb (is_success demo_api v))
                   three_videos)
    /\ successful + failed = length three_videos.
Proof.
  apply (main_report_every_video demo_api "Chan" "out.txt" three_videos).
  exact three_videos_raise_Exceptions.
Defined.

Lemma main_report_record_layout_demo :
  exists records,
    file_contents (fst (main_report demo_api "Chan" "out.txt" three_videos))
    = report_header "Chan" +:+ str_concat records
    /\ Forall2 (record_layout demo_api) three_videos records.
Proof.
  apply (main_report_record_layout demo_api "Chan" "out.txt" three_videos).
  exact three_videos_raise_Exceptions.
Defined.

Lemma get_transcript_first_listed_only_demo :
  get_transcript demo_api "french" =
    (english_calls "french" french_first_list
     ++ Call_iter :: fallback_calls french_untranslatable
     ++ [Print_line ("Could not retrieve transcript for video " +:+ "french"
                +:+ ": " +:+ str NotTranslatable)],
     Ok None)
  /\ (forall t lang,
        In (Call_translate t lang) (fst (get_transcript demo_api "french")) ->
        t = french_untranslatable)
  /\ forallb (fun ev => negb (is_older_event ev))
       (fst (get_transcript demo_api "french")) = true.
Proof.
  apply (get_transcript_first_listed_only demo_api "french"
           french_first_list french_untranslatable [spanish]
           NotTranslatable); reflexivity.
Defined.

Lemma get_transcript_needs_a_segment_demo :
  get_transcript older_empty_api "video"
  = (older_calls "video" (["en"] ++ ["en-US"]),
     Ok (Some (join " " ["hola"; "mundo"]))).
Proof.
  apply (proj1 (proj2 (proj2 (get_transcript_needs_a_segment
                                older_empty_api "video")))
           (mk_exn AttributeError
              "type object 'YouTubeTranscriptApi' has no attribute 'list_transcripts'")
           ["en"] "en-US" ["en-GB"] hola_segments ["hola"; "mundo"]);
    [reflexivity | reflexivity | reflexivity
    | intros c [<-|[]]; exists NoTranscriptFound; reflexivity
    | reflexivity | reflexivity | discriminate | vm_compute; reflexivity].
Defined.

(** ** Where the wording and the code part *)

(** C1 as worded, refuted.  The video "silent" has a manually created
    English transcript that is found and fetched and has zero segments:
    [get_transcript] returns [None], not the (empty) text of that
    transcript. *)
Lemma manual_transcript_without_segments :
  ~ (forall api video_id tl t d ss,
       Upstream.list_transcripts api video_id = Ok tl ->
       Upstream.find_manually_created_transcript tl ["en"] = Ok t ->
       Upstream.fetch t = Ok d ->
       segment_texts d = Some ss ->
       snd (get_transcript api video_id) = Ok (Some (join " " ss))).
Proof.
  intros H.
  specialize (H demo_api "silent" silent_list english_silent [] []
                eq_refl eq_refl eq_refl eq_refl).
  vm_compute in H. discriminate.
Qed.

(** C2 as worded, refuted.  The only English transcript of the video
    "mute" is auto-generated, found and fetched, with zero segments:
    [get_transcript] returns [None], not the text of that transcript. *)
Lemma generated_transcript_without_segments :
  ~ (forall api video_id tl t d ss,
       Upstream.list_transcripts api video_id = Ok tl ->
       step_fails (Upstream.find_manually_created_transcript tl ["en"])
         = true ->
       Upstream.find_generated_transcript tl ["en"] = Ok t ->
       Upstream.fetch t = Ok d ->
       segment_texts d = Some ss ->
       snd (get_transcript api video_id) = Ok (Some (join " " ss))).
Proof.
  intros H.
  specialize (H demo_api "mute" mute_list english_generated_silent [] []
                eq_refl eq_refl eq_refl eq_refl eq_refl).
  vm_compute in H. discriminate.
Qed.

(** C3 as worded, refuted twice.  The video "french" has no English
    transcript and lists a Spanish transcript whose English translation
    can be fetched and has segments, but after a French one that cannot be
    translated: [get_transcript] returns no text at all.  The video
    "portuguese" has one transcript, whose translation has zero segments:
    [get_transcript] returns [None], not the text of the translation. *)
Lemma other_language_transcript_not_returned :
  ~ (forall api video_id tl listed x t d ss,
       Upstream.list_transcripts api video_id = Ok tl ->
       step_fails (Upstream.find_manually_created_transcript tl ["en"])
         = true ->
       step_fails (Upstream.find_generated_transcript tl ["en"]) = true ->
       Upstream.iter tl = Ok listed ->
       In x listed ->
       Upstream.translate x "en" = Ok t ->
       Upstream.fetch t = Ok d ->
       d <> [] ->
       segment_texts d = Some ss ->
       exists text, snd (get_transcript api video_id) = Ok (Some text))
  /\ ~ (forall api video_id tl first others t d ss,
          Upstream.list_transcripts api video_id = Ok tl ->
          step_fails (Upstream.find_manually_created_transcript tl ["en"])
            = true ->
          step_fails (Upstream.find_generated_transcript tl ["en"]) = true ->
          Upstream.iter tl = Ok (first :: others) ->
          Upstream.translate first "en" = Ok t ->
          Upstream.fetch t = Ok d ->
          segment_texts d = Some ss ->
          snd (get_transcript api video_id) = Ok (Some (join " " ss))).
Proof.
  split; intros H.
  - destruct (H demo_api "french" french_first_list
                [french_untranslatable; spanish] spanish spanish_in_english
                [segment "good" 0 700; segment "morning" 700 800]
                ["good"; "morning"]) as [text Htext];
      try reflexivity; [by right; left | discriminate |].
    vm_compute in Htext. discriminate.
  - specialize (H demo_api "portuguese" portuguese_list portuguese []
                  english_silent [] []
                  eq_refl eq_refl eq_refl eq_refl eq_refl eq_refl eq_refl).
    vm_compute in H. discriminate.
Qed.

(** The one [Exception] that the translate fallback does not report.  In
    the library [glitch_api] translating the first (and only) listed
    transcript raises an [AttributeError]: not every failure of the first
    listed transcript ends in [None] without a further attempt. *)
Lemma fallback_failure_not_final :
  ~ (forall api video_id tl first others e,
       Upstream.list_transcripts api video_id = Ok tl ->
       step_fails (Upstream.find_manually_created_transcript tl ["en"])
         = true ->
       step_fails (Upstream.find_generated_transcript tl ["en"]) = true ->
       Upstream.iter tl = Ok (first :: others) ->
       fallback_result first = Err e ->
       is_Exception e = true ->
       snd (get_transcript api video_id) = Ok None
       /\ forallb (fun ev => negb (is_older_event ev))
            (fst (get_transcript api video_id)) = true).
Proof.
  intros H.
  destruct (H glitch_api "video" glitch_list spanish_glitch []
              (mk_exn AttributeError
                 "'NoneType' object has no attribute 'get'")
              eq_refl eq_refl eq_refl eq_refl eq_refl eq_refl)
    as [Hnone _].
  vm_compute in Hnone. discriminate.
Qed.

(** C9, at the failing input.  In the library [glitch_api] both English
    finders raise and translating the first (and only) listed transcript
    raises an [AttributeError].  The failure is not reported as one: the
    handler written for a library without [list_transcripts] takes it,
    four calls of [get_transcript] follow and the text of the untranslated
    Spanish transcript is returned, where every other [Exception] on this
    path is printed and gives [None]. *)
Example get_transcript_glitch :
  get_transcript glitch_api "video"
  = ([Call_list_transcripts "video";
      Call_find_manually_created_transcript ["en"];
      Call_find_generated_transcript ["en"];
      Call_iter;
      Call_translate spanish_glitch "en";
      Call_get_transcript "video" (Some ["en"]);
      Call_get_transcript "video" (Some ["en-US"]);
      Call_get_transcript "video" (Some ["en-GB"]);
      Call_get_transcript "video" None],
     Ok (Some "buenos dias")).
Proof. vm_compute. reflexivity. Qed.

(** C10 as worded, refuted.  On the older library [older_empty_api] the
    call for the code en-US succeeds with zero segments, and
    [get_transcript] does not return [None]: it goes on to the call
    without languages and returns the Spanish text. *)
Lemma empty_answer_not_final :
  ~ (forall api video_id langs,
       In langs older_languages ->
       In (Call_get_transcript video_id langs)
         (fst (get_transcript api video_id)) ->
       Upstream.get_transcript api video_id langs = Ok [] ->
       snd (get_transcript api video_id) = Ok None).
Proof.
  intros H.
  specialize (H older_empty_api "video" (Some ["en-US"])).
  assert (snd (get_transcript older_empty_api "video") = Ok None) as Hnone.
  { apply H; [right; left; reflexivity | | reflexivity].
    vm_compute. right. right. left. reflexivity. }
  vm_compute in Hnone. discriminate.
Qed.

Example get_transcript_older_empty :
  get_transcript older_empty_api "video"
  = ([Call_list_transcripts "video";
      Call_get_transcript "video" (Some ["en"]);
      Call_get_transcript "video" (Some ["en-US"]);
      Call_get_transcript "video" None],
     Ok (Some "hola mundo")).
Proof. vm_compute. reflexivity. Qed.

(** C8 as worded, refuted.  In what the loop writes for a video, be it
    a failure or a success record, the video's URL comes after neither the
    separator line of dashes nor the closing rule: it stands before
    them. *)
Lemma url_does_not_follow_separator :
  written_record demo_api ("none", "Second")
  = failure_record "none" "Second"
  /\ written_record demo_api ("manual", "First")
     = success_record "manual" "First" "a b c"
  /\ ~ url_follows separator_line
        (written_record demo_api ("none", "Second")) "none"
  /\ ~ url_follows closing_line
        (written_record demo_api ("none", "Second")) "none"
  /\ ~ url_follows separator_line
        (written_record demo_api ("manual", "First")) "manual"
  /\ ~ url_follows closing_line
        (written_record demo_api ("manual", "First")) "manual".
Proof.
  repeat split; try (vm_compute; reflexivity);
    intros H; apply url_follows_followsb in H;
    vm_compute in H; discriminate.
Qed.

Example get_transcript_older_library :
  get_transcript older_api "video"
  = ([Call_list_transcripts "video";
      Call_get_transcript "video" (Some ["en"]);
      Call_get_transcript "video" (Some ["en-US"]);
      Call_get_transcript "video" (Some ["en-GB"])],
     Ok (Some "a b c")).
Proof. vm_compute. reflexivity. Qed.

(** * The enumeration helpers *)

Ltac unfold_blocks :=
  unfold DataApi.run_function, DataApi.bind, DataApi.try_except,
    DataApi.request, DataApi.eval, DataApi.print, DataApi.return_,
    DataApi.ret, DataApi.read, DataApi.assign in *.

(** Case analysis on every request and lookup the goal is stuck on. *)
Ltac destruct_answers :=
  repeat
    (match goal with
     | |- context [match ?r with DataApi.Ans _ => _ | DataApi.Fail _ => _ end] =>
         destruct r eqn:?
     | |- context [if DataApi.truthy ?j then _ else _] =>
         destruct (DataApi.truthy j) eqn:?
     | |- context [if DataApi.is_HttpError ?e then _ else _] =>
         destruct (DataApi.is_HttpError e) eqn:?
     end; cbn).

(** A failed step inside the [try] of [get_channel_id], in a run known to
    have returned something other than [None]. *)
Ltac caught_or_raised H e :=
  destruct (DataApi.is_HttpError e); cbn in H;
  [injection H as _ <-; done | discriminate].

(** X1.  Whatever [get_channel_id] returns other than [None] is the
    [id.channelId] of the first item of the response to its one search
    request (for the channel name, type channel, at most one result); the
    further items are not looked at and nothing is printed. *)
Theorem get_channel_id_is_first_hit
    (build : string -> string -> string -> DataApi.answer DataApi.Service)
    (api_key channel_name : string) (tr : list DataApi.action)
    (channel_id : DataApi.json) :
  get_channel_id build api_key channel_name
  = (tr, Some (DataApi.Ans channel_id)) ->
  channel_id <> DataApi.JNull ->
  exists youtube response items first id,
    build "youtube" "v3" api_key = DataApi.Ans youtube
    /\ DataApi.search_list youtube channel_name "channel" "id,snippet" 1
       = DataApi.Ans response
    /\ DataApi.subscript response "items" = DataApi.Ans items
    /\ DataApi.index0 items = DataApi.Ans first
    /\ DataApi.subscript first "id" = DataApi.Ans id
    /\ DataApi.subscript id "channelId" = DataApi.Ans channel_id
    /\ tr = [DataApi.Build "youtube" "v3" api_key;
             DataApi.Search_list channel_name "channel" "id,snippet" 1].
Proof.
  unfold get_channel_id, get_channel_id_body. unfold_blocks.
  intros H Hnot.
  destruct (build "youtube" "v3" api_key) as [youtube|e] eqn:Hb;
    cbn in H; [|discriminate].
  destruct (DataApi.search_list youtube channel_name "channel" "id,snippet" 1)
    as [response|e] eqn:Hs; cbn in H; [|caught_or_raised H e].
  destruct (DataApi.subscript response "items") as [items|e] eqn:Hi;
    cbn in H; [|caught_or_raised H e].
  destruct (DataApi.truthy items) eqn:Ht; cbn in H;
    [|injection H as _ <-; done].
  destruct (DataApi.index0 items) as [first|e] eqn:H0;
    cbn in H; [|caught_or_raised H e].
  destruct (DataApi.subscript first "id") as [id|e] eqn:Hid;
    cbn in H; [|caught_or_raised H e].
  destruct (DataApi.subscript id "channelId") as [c|e] eqn:Hc;
    cbn in H; [|caught_or_raised H e].
  injection H as <- <-. by exists youtube, response, items, first, id.
Qed.

(** X2.  [get_channel_id] returns [None] in exactly three situations: the
    search request raised an [HttpError], which is printed; the response
    has an empty (falsy) [items], and "Channel '...' not found" is
    printed; or the first item carries a null [channelId], and nothing is
    printed. *)
Theorem get_channel_id_none
    (build : string -> string -> string -> DataApi.answer DataApi.Service)
    (api_key channel_name : string) (tr : list DataApi.action) :
  get_channel_id build api_key channel_name
  = (tr, Some (DataApi.Ans DataApi.JNull))
  <-> none_cause build api_key channel_name tr.
Proof.
  unfold none_cause, get_channel_id, get_channel_id_body. unfold_blocks.
  split.
  - intros H.
    destruct (build "youtube" "v3" api_key) as [youtube|e] eqn:Hb;
      cbn in H; [|discriminate].
    exists youtube. split; [done |].
    destruct (DataApi.search_list youtube channel_name "channel"
                "id,snippet" 1) as [response|e] eqn:Hs; cbn in H.
    + right.
      destruct (DataApi.subscript response "items") as [items|e] eqn:Hi;
        cbn in H.
      2: { destruct e; cbn in H; discriminate || idtac.
           unfold DataApi.subscript, DataApi.type_error in Hi.
           destruct response; try discriminate.
           by destruct (d !! "items"). }
      destruct (DataApi.truthy items) eqn:Ht; cbn in H.
      * right.
        destruct (DataApi.index0 items) as [first|e] eqn:H0; cbn in H.
        2: { destruct e; cbn in H; try discriminate.
             unfold DataApi.index0, DataApi.type_error in H0.
             destruct items as [| | |[|]|[|]|]; discriminate. }
        destruct (DataApi.subscript first "id") as [id|e] eqn:Hid; cbn in H.
        2: { destruct e; cbn in H; try discriminate.
             unfold DataApi.subscript, DataApi.type_error in Hid.
             destruct first; try discriminate.
             by destruct (d !! "id"). }
        destruct (DataApi.subscript id "channelId") as [c|e] eqn:Hc;
          cbn in H.
        2: { destruct e; cbn in H; try discriminate.
             unfold DataApi.subscript, DataApi.type_error in Hc.
             destruct id; try discriminate.
             by destruct (d !! "channelId"). }
        injection H as <- <-. by exists response, items, first, id.
      * left. injection H as <-. by exists response, items.
    + left. destruct e as [msg| |]; cbn in H; try discriminate.
      injection H as <-. by exists msg.
  - intros (youtube & -> & [(msg & -> & ->)
                           |[(response & items & -> & Hi & Ht & ->)
                            |(response & items & first & id
                              & -> & Hi & Ht & H0 & Hid & Hc & ->)]]); cbn.
    + done.
    + rewrite Hi. cbn. by rewrite Ht.
    + rewrite Hi. cbn. rewrite Ht. cbn. rewrite H0. cbn. rewrite Hid. cbn.
      by rewrite Hc.
Qed.

(** The lookups of this part raise [KeyError], [TypeError] or
    [IndexError], never an [HttpError]. *)
Lemma subscript_not_HttpError (j : DataApi.json) (key : string)
    (e : DataApi.error) :
  DataApi.subscript j key = DataApi.Fail e -> DataApi.is_HttpError e = false.
Proof.
  unfold DataApi.subscript, DataApi.type_error.
  destruct j; try (by intros [= <-]).
  destruct (d !! key); [discriminate | by intros [= <-]].
Qed.

Lemma index0_not_HttpError (j : DataApi.json) (e : DataApi.error) :
  DataApi.index0 j = DataApi.Fail e -> DataApi.is_HttpError e = false.
Proof.
  unfold DataApi.index0, DataApi.type_error.
  destruct j as [| | |[|]|[|]|]; try discriminate; by intros [= <-].
Qed.

(** X3.  An exception leaves [get_channel_id] only if [build] raised it,
    or if it is not an [HttpError] (a transport error of the request, a
    missing key of the response); in the second case nothing was
    printed. *)
Theorem get_channel_id_escape
    (build : string -> string -> string -> DataApi.answer DataApi.Service)
    (api_key channel_name : string) (tr : list DataApi.action)
    (e : DataApi.error) :
  get_channel_id build api_key channel_name = (tr, Some (DataApi.Fail e)) ->
  (build "youtube" "v3" api_key = DataApi.Fail e
   /\ tr = [DataApi.Build "youtube" "v3" api_key])
  \/ (DataApi.is_HttpError e = false
      /\ tr = [DataApi.Build "youtube" "v3" api_key;
               DataApi.Search_list channel_name "channel" "id,snippet" 1]).
Proof.
  unfold get_channel_id, get_channel_id_body. unfold_blocks. intros H.
  destruct (build "youtube" "v3" api_key) as [youtube|e0] eqn:Hb; cbn in H.
  2: { injection H as <- <-. by left. }
  right.
  repeat
    (match type of H with
     | context [match ?r with DataApi.Ans _ => _ | DataApi.Fail _ => _ end] =>
         let e1 := fresh "e" in
         destruct r as [?|e1] eqn:?; cbn in H;
         [|destruct (DataApi.is_HttpError e1) eqn:?; cbn in H;
           [discriminate | injection H as <- <-; done]]
     | context [if DataApi.truthy ?j then _ else _] =>
         destruct (DataApi.truthy j) eqn:?; cbn in H
     end);
    discriminate.
Qed.

Lemma append_video_of (item : DataApi.json)
    (v : DataApi.json * DataApi.json)
    (acc : list (DataApi.json * DataApi.json)) (token : DataApi.json) :
  video_of item = Some v ->
  append_video item (mkLocals acc token)
  = ([], mkLocals (acc ++ [v]) token, DataApi.Done tt).
Proof.
  unfold video_of, append_video. unfold_blocks. intros H.
  destruct (DataApi.subscript item "snippet") as [snippet|]; [|discriminate].
  cbn.
  destruct (DataApi.subscript snippet "resourceId") as [resourceId|];
    [|discriminate].
  cbn.
  destruct (DataApi.subscript resourceId "videoId") as [video_id|];
    [|discriminate].
  cbn.
  destruct (DataApi.subscript snippet "title") as [video_title|];
    [|discriminate].
  cbn. by injection H as <-.
Qed.

Lemma for_each_videos_of (its : list DataApi.json)
    (vids acc : list (DataApi.json * DataApi.json)) (token : DataApi.json) :
  videos_of its = Some vids ->
  DataApi.for_each its append_video (mkLocals acc token)
  = ([], mkLocals (acc ++ vids) token, DataApi.Done tt).
Proof.
  revert vids acc. induction its as [|item its IH]; intros vids acc H.
  - injection H as <-. cbn. by rewrite app_nil_r.
  - cbn in H.
    destruct (video_of item) as [v|] eqn:Hv; [|discriminate].
    destruct (videos_of its) as [vs|] eqn:Hvs; [|discriminate].
    injection H as <-.
    cbn [DataApi.for_each]. unfold DataApi.bind.
    rewrite (append_video_of _ _ _ _ Hv).
    rewrite (IH vs (acc ++ [v]) eq_refl). cbn.
    by rewrite <- app_assoc.
Qed.

(** One round of the loop on a well-formed page. *)
Lemma videos_round_page (youtube : DataApi.Service)
    (channel_id channel_response uploads token next : DataApi.json)
    (max_results : nat) (vids acc : list (DataApi.json * DataApi.json)) :
  DataApi.channels_list youtube "contentDetails" channel_id
  = DataApi.Ans channel_response ->
  uploads_of channel_response = DataApi.Ans uploads ->
  page_at youtube uploads max_results token vids next ->
  videos_round youtube channel_id max_results (mkLocals acc token)
  = ([DataApi.Channels_list "contentDetails" channel_id;
      DataApi.PlaylistItems_list "snippet" uploads max_results token],
     mkLocals (acc ++ vids) next,
     DataApi.Done (negb (DataApi.truthy next))).
Proof.
  intros Hc Hu (response & items & its & Hp & Hi & Hit & Hv & Hn).
  unfold uploads_of in Hu. unfold videos_round. unfold_blocks.
  rewrite Hc. cbn.
  destruct (DataApi.subscript channel_response "items") as [citems|];
    [|discriminate].
  cbn.
  destruct (DataApi.index0 citems) as [first|]; [|discriminate].
  cbn.
  destruct (DataApi.subscript first "contentDetails") as [cd|];
    [|discriminate].
  cbn.
  destruct (DataApi.subscript cd "relatedPlaylists") as [rp|];
    [|discriminate].
  cbn. rewrite Hu. cbn. rewrite Hp. cbn. rewrite Hi. cbn.
  rewrite Hit. cbn. rewrite (for_each_videos_of _ _ _ _ Hv). cbn.
  by rewrite Hn.
Qed.

(** The loop on a playlist whose pages come to an end. *)
Lemma while_True_pages (youtube : DataApi.Service)
    (channel_id channel_response uploads : DataApi.json) (max_results : nat)
    (ps : list (DataApi.json * list (DataApi.json * DataApi.json))) :
  DataApi.channels_list youtube "contentDetails" channel_id
  = DataApi.Ans channel_response ->
  uploads_of channel_response = DataApi.Ans uploads ->
  forall token,
  pages youtube uploads max_results token ps ->
  forall fuel acc,
  length ps <= fuel ->
  exists last,
    DataApi.while_True fuel (videos_round youtube channel_id max_results)
      (mkLocals acc token)
    = (round_requests channel_id uploads max_results ps,
       mkLocals (acc ++ videos_on ps) last,
       DataApi.Done tt).
Proof.
  intros Hc Hu token Hps.
  induction Hps as [token vids next Hpage Hnext
                   |token vids next rest Hpage Hnext Hrest IH];
    intros fuel acc Hfuel; (destruct fuel as [|fuel]; [cbn in Hfuel; lia |]).
  - exists next. cbn [DataApi.while_True]. unfold DataApi.bind.
    rewrite (videos_round_page _ _ _ _ _ _ _ _ _ Hc Hu Hpage).
    rewrite Hnext. cbn. unfold videos_on. cbn. by rewrite !app_nil_r.
  - destruct (IH fuel (acc ++ vids)) as [last Hlast];
      [cbn in Hfuel; lia |].
    exists last. cbn [DataApi.while_True]. unfold DataApi.bind.
    rewrite (videos_round_page _ _ _ _ _ _ _ _ _ Hc Hu Hpage).
    rewrite Hnext. cbn [negb]. rewrite Hlast.
    unfold videos_on. cbn. by rewrite <- app_assoc.
Qed.

(** X4.  On a playlist whose pages come to an end, [get_channel_videos]
    returns the (id, title) pairs of all pages in the order the server
    hands them out; every round asks anew for the channel's uploads
    playlist and then for one page, with the token the page before
    carried. *)
Theorem get_channel_videos_all_pages
    (build : string -> string -> string -> DataApi.answer DataApi.Service)
    (youtube : DataApi.Service)
    (api_key : string) (channel_id channel_response uploads : DataApi.json)
    (max_results fuel : nat)
    (ps : list (DataApi.json * list (DataApi.json * DataApi.json))) :
  build "youtube" "v3" api_key = DataApi.Ans youtube ->
  DataApi.channels_list youtube "contentDetails" channel_id
  = DataApi.Ans channel_response ->
  uploads_of channel_response = DataApi.Ans uploads ->
  pages youtube uploads max_results DataApi.JNull ps ->
  length ps <= fuel ->
  get_channel_videos build fuel api_key channel_id max_results
  = (DataApi.Build "youtube" "v3" api_key
     :: round_requests channel_id uploads max_results ps,
     Some (DataApi.Ans (videos_on ps))).
Proof.
  intros Hb Hc Hu Hps Hfuel.
  destruct (while_True_pages _ _ _ _ _ _ Hc Hu _ Hps fuel [] Hfuel)
    as [last Hloop].
  unfold get_channel_videos, get_channel_videos_body. unfold_blocks.
  rewrite Hb. cbn. rewrite Hloop. cbn. by rewrite !app_nil_r.
Qed.

(** The loop on a playlist of which a page request fails. *)
Lemma while_True_error (youtube : DataApi.Service)
    (channel_id channel_response uploads : DataApi.json) (max_results : nat)
    (msg : string)
    (ps : list (DataApi.json * list (DataApi.json * DataApi.json)))
    (failing : DataApi.json) :
  DataApi.channels_list youtube "contentDetails" channel_id
  = DataApi.Ans channel_response ->
  uploads_of channel_response = DataApi.Ans uploads ->
  forall token,
  pages_before_error youtube uploads max_results msg token ps failing ->
  forall fuel acc,
  length ps < fuel ->
  DataApi.while_True fuel (videos_round youtube channel_id max_results)
    (mkLocals acc token)
  = (round_requests channel_id uploads max_results ps
     ++ [DataApi.Channels_list "contentDetails" channel_id;
         DataApi.PlaylistItems_list "snippet" uploads max_results failing],
     mkLocals (acc ++ videos_on ps) failing,
     DataApi.Raised (DataApi.HttpError msg)).
Proof.
  intros Hc Hu token Hps.
  induction Hps as [token Hfail
                   |token vids next rest failing Hpage Hnext Hrest IH];
    intros fuel acc Hfuel; (destruct fuel as [|fuel]; [cbn in Hfuel; lia |]).
  - cbn [DataApi.while_True]. unfold videos_round. unfold_blocks.
    rewrite Hc. cbn. unfold uploads_of in Hu.
    destruct (DataApi.subscript channel_response "items") as [citems|];
      [|discriminate].
    cbn.
    destruct (DataApi.index0 citems) as [first|]; [|discriminate].
    cbn.
    destruct (DataApi.subscript first "contentDetails") as [cd|];
      [|discriminate].
    cbn.
    destruct (DataApi.subscript cd "relatedPlaylists") as [rp|];
      [|discriminate].
    cbn. rewrite Hu. cbn. rewrite Hfail. cbn.
    unfold videos_on. cbn. by rewrite app_nil_r.
  - cbn [DataApi.while_True]. unfold DataApi.bind.
    rewrite (videos_round_page _ _ _ _ _ _ _ _ _ Hc Hu Hpage).
    rewrite Hnext. cbn [negb].
    rewrite (IH fuel (acc ++ vids)); [|cbn in Hfuel; lia].
    unfold videos_on. cbn. by rewrite <- app_assoc.
Qed.

(** X5.  When the request for a page fails with an [HttpError],
    [get_channel_videos] prints the error and returns the videos of the
    pages fetched before it, in order: the error does not reach the
    caller and what was collected is kept. *)
Theorem get_channel_videos_http_error
    (build : string -> string -> string -> DataApi.answer DataApi.Service)
    (youtube : DataApi.Service)
    (api_key : string) (channel_id channel_response uploads : DataApi.json)
    (max_results fuel : nat) (msg : string)
    (ps : list (DataApi.json * list (DataApi.json * DataApi.json)))
    (failing : DataApi.json) :
  build "youtube" "v3" api_key = DataApi.Ans youtube ->
  DataApi.channels_list youtube "contentDetails" channel_id
  = DataApi.Ans channel_response ->
  uploads_of channel_response = DataApi.Ans uploads ->
  pages_before_error youtube uploads max_results msg DataApi.JNull ps
    failing ->
  length ps < fuel ->
  get_channel_videos build fuel api_key channel_id max_results
  = (DataApi.Build "youtube" "v3" api_key
     :: round_requests channel_id uploads max_results ps
     ++ [DataApi.Channels_list "contentDetails" channel_id;
         DataApi.PlaylistItems_list "snippet" uploads max_results failing;
         DataApi.Printed ("An HTTP error occurred: " +:+ msg)],
     Some (DataApi.Ans (videos_on ps))).
Proof.
  intros Hb Hc Hu Hps Hfuel.
  unfold get_channel_videos, get_channel_videos_body. unfold_blocks.
  rewrite Hb. cbn.
  rewrite (while_True_error _ _ _ _ _ _ _ _ Hc Hu _ Hps fuel [] Hfuel).
  cbn. rewrite !app_nil_r. by rewrite <- !app_assoc.
Qed.

(** X6.  When the request for the channel itself fails with an
    [HttpError], [get_channel_videos] prints it and returns the empty
    list, as it does for a channel without videos. *)
Theorem get_channel_videos_channel_http_error
    (build : string -> string -> string -> DataApi.answer DataApi.Service)
    (youtube : DataApi.Service)
    (api_key : string) (channel_id : DataApi.json)
    (max_results fuel : nat) (msg : string) :
  build "youtube" "v3" api_key = DataApi.Ans youtube ->
  DataApi.channels_list youtube "contentDetails" channel_id
  = DataApi.Fail (DataApi.HttpError msg) ->
  0 < fuel ->
  get_channel_videos build fuel api_key channel_id max_results
  = ([DataApi.Build "youtube" "v3" api_key;
      DataApi.Channels_list "contentDetails" channel_id;
      DataApi.Printed ("An HTTP error occurred: " +:+ msg)],
     Some (DataApi.Ans [])).
Proof.
  intros Hb Hc Hfuel. destruct fuel as [|fuel]; [lia |].
  unfold get_channel_videos, get_channel_videos_body.
  cbn [DataApi.while_True]. unfold videos_round. unfold_blocks.
  rewrite Hb. cbn. by rewrite Hc.
Qed.

Lemma uploads_of_not_HttpError (channel_response : DataApi.json)
    (e : DataApi.error) :
  uploads_of channel_response = DataApi.Fail e ->
  DataApi.is_HttpError e = false.
Proof.
  unfold uploads_of. intros H.
  destruct (DataApi.subscript channel_response "items") as [items|e1] eqn:H1.
  2: { injection H as <-. by apply subscript_not_HttpError in H1. }
  destruct (DataApi.index0 items) as [first|e2] eqn:H2.
  2: { injection H as <-. by apply index0_not_HttpError in H2. }
  destruct (DataApi.subscript first "contentDetails") as [cd|e3] eqn:H3.
  2: { injection H as <-. by apply subscript_not_HttpError in H3. }
  destruct (DataApi.subscript cd "relatedPlaylists") as [rp|e4] eqn:H4.
  2: { injection H as <-. by apply subscript_not_HttpError in H4. }
  by apply subscript_not_HttpError in H.
Qed.

(** X7.  When the response for the channel does not lead to an uploads
    playlist (no [items] key, an empty [items], a missing field),
    [get_channel_videos] raises the [KeyError], [IndexError] or
    [TypeError] of the failed lookup: it is not caught, nothing is
    printed and no page is asked for. *)
Theorem get_channel_videos_unknown_channel
    (build : string -> string -> string -> DataApi.answer DataApi.Service)
    (youtube : DataApi.Service)
    (api_key : string) (channel_id channel_response : DataApi.json)
    (max_results fuel : nat) (e : DataApi.error) :
  build "youtube" "v3" api_key = DataApi.Ans youtube ->
  DataApi.channels_list youtube "contentDetails" channel_id
  = DataApi.Ans channel_response ->
  uploads_of channel_response = DataApi.Fail e ->
  0 < fuel ->
  get_channel_videos build fuel api_key channel_id max_results
  = ([DataApi.Build "youtube" "v3" api_key;
      DataApi.Channels_list "contentDetails" channel_id],
     Some (DataApi.Fail e))
  /\ DataApi.is_HttpError e = false.
Proof.
  intros Hb Hc Hu Hfuel. destruct fuel as [|fuel]; [lia |].
  pose proof (uploads_of_not_HttpError _ _ Hu) as Hnot.
  split; [|done].
  unfold get_channel_videos, get_channel_videos_body.
  cbn [DataApi.while_True]. unfold videos_round. unfold_blocks.
  rewrite Hb. cbn. rewrite Hc. cbn. unfold uploads_of in Hu.
  repeat
    (match type of Hu with
     | context [match ?r with DataApi.Ans _ => _ | DataApi.Fail _ => _ end] =>
         destruct r eqn:?; cbn;
         [|injection Hu as ->; rewrite Hnot; reflexivity]
     end).
  rewrite Hu. cbn. by rewrite Hnot.
Qed.

(** X8.  An [HttpError] leaves [get_channel_videos] only if [build] raised
    it: one raised by a request inside the loop is always caught. *)
Theorem get_channel_videos_escape
    (build : string -> string -> string -> DataApi.answer DataApi.Service)
    (api_key : string) (channel_id : DataApi.json)
    (max_results fuel : nat) (tr : list DataApi.action)
    (e : DataApi.error) :
  get_channel_videos build fuel api_key channel_id max_results
  = (tr, Some (DataApi.Fail e)) ->
  build "youtube" "v3" api_key = DataApi.Fail e
  \/ DataApi.is_HttpError e = false.
Proof.
  unfold get_channel_videos, get_channel_videos_body. unfold_blocks.
  intros H.
  destruct (build "youtube" "v3" api_key) as [youtube|e0] eqn:Hb; cbn in H.
  2: { injection H as _ <-. by left. }
  right.
  destruct (DataApi.while_True fuel
              (videos_round youtube channel_id max_results)
              (mkLocals [] DataApi.JNull)) as [[tr0 s0] [[]|r|e1|]];
    cbn in H; try discriminate.
  destruct (DataApi.is_HttpError e1) eqn:He; cbn in H; [discriminate |].
  by injection H as _ <-.
Qed.

(** X9.  When every page the server hands out carries a further page
    token, the loop of [get_channel_videos] does not end: whatever the
    number of rounds looked at, the function is still running. *)
Theorem get_channel_videos_endless
    (build : string -> string -> string -> DataApi.answer DataApi.Service)
    (youtube : DataApi.Service)
    (api_key : string) (channel_id channel_response uploads : DataApi.json)
    (max_results : nat) :
  build "youtube" "v3" api_key = DataApi.Ans youtube ->
  DataApi.channels_list youtube "contentDetails" channel_id
  = DataApi.Ans channel_response ->
  uploads_of channel_response = DataApi.Ans uploads ->
  (forall token, exists videos next,
     page_at youtube uploads max_results token videos next
     /\ DataApi.truthy next = true) ->
  forall fuel,
    snd (get_channel_videos build fuel api_key channel_id max_results)
    = None.
Proof.
  intros Hb Hc Hu Hall fuel.
  assert (forall fuel acc token, exists tr s,
    DataApi.while_True fuel (videos_round youtube channel_id max_results)
      (mkLocals acc token) = (tr, s, DataApi.Exhausted)) as Hloop.
  { clear fuel. induction fuel as [|fuel IH]; intros acc token.
    - by exists [], (mkLocals acc token).
    - destruct (Hall token) as (vids & next & Hpage & Hnext).
      destruct (IH (acc ++ vids) next) as (tr & s & Hrest).
      cbn [DataApi.while_True]. unfold DataApi.bind.
      rewrite (videos_round_page _ _ _ _ _ _ _ _ _ Hc Hu Hpage).
      rewrite Hnext. cbn [negb]. rewrite Hrest. by eexists _, _. }
  destruct (Hloop fuel [] DataApi.JNull) as (tr & s & Hrun).
  unfold get_channel_videos, get_channel_videos_body. unfold_blocks.
  rewrite Hb. cbn. by rewrite Hrun.
Qed.


(** * The older-version branch, ill-formed segments and the whole run *)

(** X10.  On a library without [list_transcripts], the language codes en,
    en-US, en-GB are asked for in this order, one call each, and the first
    call that answers with segments ends the search: its text is returned
    and no later code, nor the call without languages, is tried. *)
Theorem get_transcript_older_first_code
    (api : Upstream.YouTubeTranscriptApi) (video_id : string) (e : exn)
    (before : list string) (code : string) (after : list string)
    (d : list entry) (ss : list string) :
  Upstream.list_transcripts api video_id = Err e ->
  is_AttributeError e = true ->
  language_codes = before ++ code :: after ->
  (forall c, In c before ->
     exists e', Upstream.get_transcript api video_id (Some [c]) = Err e') ->
  Upstream.get_transcript api video_id (Some [code]) = Ok d ->
  d <> [] ->
  segment_texts d = Some ss ->
  get_transcript api video_id
  = (Call_list_transcripts video_id
     :: code_calls video_id (before ++ [code]),
     Ok (Some (join " " ss))).
Proof.
  intros Hl Ha Hcodes Hraise Hcode Hne Hss.
  apply (get_transcript_of_segments _ _ _ d); [|done..].
  rewrite (retrieve_older_branch api video_id e
             (code_calls video_id (before ++ [code])) (Some d) Hl Ha).
  - by destruct d.
  - rewrite Hcodes. by apply legacy_loop_first_answer.
Qed.

(** X11.  On a library without [list_transcripts], when no language code
    leads to segments (every code raises, or the first that answers gives
    none), the transcript is asked for once more without a language: what
    that call answers is returned as the text, whatever its language; if
    it answers no segment, or raises anything at all, the result is [None]
    and nothing is printed. *)
Theorem get_transcript_older_any_language
    (api : Upstream.YouTubeTranscriptApi) (video_id : string) (e : exn)
    (tried : list string) :
  Upstream.list_transcripts api video_id = Err e ->
  is_AttributeError e = true ->
  codes_fruitless api video_id tried ->
  (forall d ss,
     Upstream.get_transcript api video_id None = Ok d ->
     d <> [] ->
     segment_texts d = Some ss ->
     get_transcript api video_id = (older_calls video_id tried, Ok (Some (join " " ss))))
  /\ (Upstream.get_transcript api video_id None = Ok [] ->
      get_transcript api video_id = (older_calls video_id tried, Ok None))
  /\ (forall e',
        Upstream.get_transcript api video_id None = Err e' ->
        get_transcript api video_id = (older_calls video_id tried, Ok None)).
Proof.
  intros Hl Ha Hfruit. unfold older_calls.
  destruct (legacy_loop_fruitless api video_id tried Hfruit)
    as (o & Hloop & Ho).
  pose proof (retrieve_older_branch api video_id e _ o Hl Ha Hloop) as Hr.
  rewrite Ho in Hr.
  repeat split.
  - intros d ss Hd Hne Hss. rewrite Hd in Hr.
    by apply (get_transcript_of_segments _ _ _ d).
  - intros Hd. rewrite Hd in Hr. by apply get_transcript_of_nothing.
  - intros e' Hd. rewrite Hd in Hr. by apply get_transcript_of_return.
Qed.

(** X12.  On a library without [list_transcripts], no exception of the
    library's leaves [get_transcript], of whatever class: every call of
    the older-version branch sits in a bare [except]. *)
Theorem get_transcript_older_never_raises
    (api : Upstream.YouTubeTranscriptApi) (video_id : string) (e : exn) :
  Upstream.list_transcripts api video_id = Err e ->
  is_AttributeError e = true ->
  exists tr r, get_transcript api video_id = (tr, Ok r).
Proof.
  intros Hl Ha.
  destruct (get_transcript api video_id) as [tr [r|e']] eqn:H;
    [by eauto |].
  apply get_transcript_outcome in H as [Hr _]. exfalso.
  revert Hr. unfold retrieve_transcript_data.
  rewrite Hl. cbn. rewrite Ha. cbn. destruct_calls; discriminate.
Qed.

(** What the combining step raises on ill-formed segments. *)
Lemma texts_of_lacks_text (d : list entry) :
  match texts_of d with
  | Ok _ => existsb lacks_text d = false
  | Err e => existsb lacks_text d = true /\ e = mk_exn KeyError "'text'"
  end.
Proof.
  induction d as [|x d IH]; [done |].
  cbn [texts_of existsb].
  destruct (x !! "text") eqn:Hx.
  - assert (lacks_text x = false) as ->
      by (unfold lacks_text; by rewrite Hx).
    cbn [orb]. by destruct (texts_of d).
  - assert (lacks_text x = true) as ->
      by (unfold lacks_text; by rewrite Hx).
    done.
Qed.

Lemma combine_text_ill_formed (d : list entry) :
  segment_texts d = None ->
  exists e,
    combine_text (Some d) = ([], Raise e)
    /\ is_Exception e = true
    /\ if existsb lacks_text d then e = mk_exn KeyError "'text'"
       else exn_cls e = TypeError.
Proof.
  intros Hnone. unfold combine_text.
  destruct d as [|x d]; [discriminate |].
  change (default [] (Some (x :: d))) with (x :: d). cbn [data_truthy].
  pose proof (texts_of_lacks_text (x :: d)) as Hk.
  destruct (texts_of (x :: d)) as [vs|e] eqn:Hv.
  - rewrite Hk. cbn [lift bind ret]. unfold py_join.
    destruct (all_str 0 vs) as [[i v]|ss] eqn:Hs; cbn.
    + by eexists.
    + by rewrite (segment_texts_of_texts _ _ _ _ Hv Hs) in Hnone.
  - destruct Hk as [-> ->]. cbn. by eexists.
Qed.

(** X13.  A manually created English transcript that is fetched with an
    ill-formed segment (one without 'text', or with a 'text' that is not a
    [str]) is not replaced by a lower strategy: the error of the combining
    step is printed and [None] returned.  A segment without 'text'
    anywhere gives the [KeyError], even after a segment whose text is not
    a [str]. *)
Theorem get_transcript_ill_formed_segments
    (api : Upstream.YouTubeTranscriptApi) (video_id : string)
    (tl : Upstream.TranscriptList) (t : Upstream.Transcript)
    (d : list entry) :
  Upstream.list_transcripts api video_id = Ok tl ->
  Upstream.find_manually_created_transcript tl ["en"] = Ok t ->
  Upstream.fetch t = Ok d ->
  segment_texts d = None ->
  exists e,
    get_transcript api video_id
    = ([Call_list_transcripts video_id;
        Call_find_manually_created_transcript ["en"];
        Call_fetch t;
        could_not_retrieve video_id e],
       Ok None)
    /\ if existsb lacks_text d then e = mk_exn KeyError "'text'"
       else exn_cls e = TypeError.
Proof.
  intros Hl Hm Hf Hnone.
  destruct (combine_text_ill_formed d Hnone) as (e & Hc & He & Hcls).
  exists e. split; [|done].
  unfold get_transcript, get_transcript_body, retrieve_transcript_data.
  rewrite Hl. cbn [call bind]. rewrite Hm. cbn [call bind]. rewrite Hf.
  cbn [call bind ret try_except app]. rewrite Hc.
  cbn [try_except app]. by rewrite He.
Qed.

(** The retrieval phase only calls the library, at most twelve times. *)
Lemma retrieve_transcript_data_calls
    (api : Upstream.YouTubeTranscriptApi) (video_id : string) :
  forallb is_library_call (fst (retrieve_transcript_data api video_id)) = true
  /\ length (fst (retrieve_transcript_data api video_id)) <= 12.
Proof.
  unfold retrieve_transcript_data.
  destruct (Upstream.list_transcripts api video_id) as [tl|e] eqn:Hl; cbn;
    destruct_calls; (split; [reflexivity | lia]).
Qed.

(** The whole trace of [get_transcript]: calls, then at most one line. *)
Lemma get_transcript_calls_then_line
    (api : Upstream.YouTubeTranscriptApi) (video_id : string) :
  exists calls lines,
    fst (get_transcript api video_id) = calls ++ lines
    /\ forallb is_library_call calls = true
    /\ length calls <= 12
    /\ (lines = []
        \/ exists e,
             lines = [could_not_retrieve video_id e]
             /\ snd (get_transcript api video_id) = Ok None).
Proof.
  destruct (retrieve_transcript_data_calls api video_id) as [Hcalls Hlen].
  unfold get_transcript, get_transcript_body.
  destruct (retrieve_transcript_data api video_id) as [tr0 [o|r0|e]];
    cbn [fst] in Hcalls, Hlen; cbn; exists tr0.
  - destruct (combine_text_outcome o)
      as [[_ ->]|[(d & ss & -> & Hne & Hss & ->)|(e & He & ->)]]; cbn.
    + exists []. by rewrite app_nil_r; auto.
    + exists []. by rewrite app_nil_r; auto.
    + rewrite He. cbn. exists [could_not_retrieve video_id e].
      rewrite app_nil_r. repeat split; eauto.
  - exists []. cbn. rewrite app_nil_r. auto.
  - destruct (is_Exception e); cbn.
    + exists [could_not_retrieve video_id e]. repeat split; eauto.
    + exists []. rewrite app_nil_r. auto.
Qed.

(** X14.  For one video [get_transcript] calls the transcript library at
    most twelve times; it prints at most one line, after all the calls,
    and only when it returns [None]: a returned text comes with no
    output. *)
Theorem get_transcript_calls_and_output
    (api : Upstream.YouTubeTranscriptApi) (video_id : string) :
  exists calls lines,
    fst (get_transcript api video_id) = calls ++ lines
    /\ forallb is_library_call calls = true
    /\ length calls <= 12
    /\ (lines = []
        \/ exists e,
             lines = [could_not_retrieve video_id e]
             /\ snd (get_transcript api video_id) = Ok None).
Proof. apply get_transcript_calls_then_line. Qed.

(** ** The whole run *)

Lemma library_calls_no_sleep (tr : trace) :
  forallb is_library_call tr = true -> List.filter is_sleep tr = [].
Proof.
  induction tr as [|ev tr IH]; [done |].
  cbn [forallb List.filter]. intros H. apply andb_prop in H as [Hev Htr].
  destruct ev; try discriminate; cbn; by apply IH.
Qed.

Lemma get_transcript_no_sleep
    (api : Upstream.YouTubeTranscriptApi) (video_id : string) :
  List.filter is_sleep (fst (get_transcript api video_id)) = [].
Proof.
  destruct (get_transcript_calls_then_line api video_id)
    as (calls & lines & -> & Hcalls & _ & [->|(e & -> & _)]);
    rewrite List.filter_app, (library_calls_no_sleep _ Hcalls); done.
Qed.

(** One round of the loop of [main] on a video for which [get_transcript]
    returns. *)
Lemma main_loop_round
    (api : Upstream.YouTubeTranscriptApi) (total i : nat)
    (video_id video_title : string) (rest : list (string * string))
    (successful failed : nat) (trg : trace) (r : option string) :
  get_transcript api video_id = (trg, Ok r) ->
  exists head,
    main_loop api total i ((video_id, video_title) :: rest) successful failed
    = (let '(tr, c) :=
         main_loop api total (S i) rest
           (if transcript_truthy r then successful + 1 else successful)
           (if transcript_truthy r then failed else failed + 1) in
       (head ++ Sleep 1 :: tr, c))
    /\ file_contents head = video_record api (video_id, video_title)
    /\ List.filter is_sleep head = [].
Proof.
  intros Hg.
  pose proof (get_transcript_writes_nothing api video_id) as Hw.
  pose proof (get_transcript_no_sleep api video_id) as Hs.
  destruct (video_record_returned api video_id video_title r) as [_ Hrec];
    [by rewrite Hg |].
  rewrite Hrec. rewrite Hg in Hw, Hs. cbn [fst] in Hw, Hs.
  cbn [main_loop]. rewrite Hg. cbn [call_fn emit bind].
  destruct (transcript_truthy r) eqn:Ht; cbn [negb emit bind fst snd app ret];
    destruct (main_loop api total (S i) rest _ _) as [tr c].
  - exists (Print_line ("Processing video " +:+ pretty i +:+ "/"
                        +:+ pretty total +:+ ": " +:+ video_title)
            :: trg
            ++ [File_write ("VIDEO: " +:+ video_title +:+ nl);
                File_write ("URL: https://youtube.com/watch?v="
                            +:+ video_id +:+ nl);
                File_write (str_mul "-" 30 +:+ nl);
                File_write (default "" r);
                File_write (nl +:+ nl +:+ str_mul "=" 50 +:+ nl +:+ nl)]).
    repeat split.
    + cbn [app]. by rewrite <- !app_assoc.
    + cbn [file_contents]. rewrite file_contents_app, Hw.
      cbn [file_contents].
      unfold success_record, url_line, canonical_url, separator_line,
        closing_line.
      by rewrite !append_assoc, ?append_empty_r.
    + cbn [List.filter is_sleep]. rewrite List.filter_app, Hs. done.
  - exists (Print_line ("Processing video " +:+ pretty i +:+ "/"
                        +:+ pretty total +:+ ": " +:+ video_title)
            :: trg
            ++ [File_write ("FAILED TO GET TRANSCRIPT: "
                            +:+ video_title +:+ nl);
                File_write ("URL: https://youtube.com/watch?v="
                            +:+ video_id +:+ nl);
                File_write (str_mul "-" 30 +:+ nl +:+ nl)]).
    repeat split.
    + cbn [app]. by rewrite <- !app_assoc.
    + cbn [file_contents]. rewrite file_contents_app, Hw.
      cbn [file_contents].
      unfold failure_record, url_line, canonical_url, separator_line.
      by rewrite !append_assoc, ?append_empty_r.
    + cbn [List.filter is_sleep]. rewrite List.filter_app, Hs. done.
Qed.

(** The loop up to a video on which [get_transcript] raises. *)
Lemma main_loop_interrupted
    (api : Upstream.YouTubeTranscriptApi) (total : nat)
    (before : list (string * string)) (video_id video_title : string)
    (after : list (string * string)) (trg : trace) (e : exn) :
  (forall video, In video before ->
     exists r, snd (get_transcript api (fst video)) = Ok r) ->
  get_transcript api video_id = (trg, Err e) ->
  forall i successful failed,
  exists tr,
    main_loop api total i (before ++ (video_id, video_title) :: after)
      successful failed
    = (tr, Raise e)
    /\ file_contents tr = records_of api before
    /\ List.filter is_sleep tr = repeat (Sleep 1) (length before).
Proof.
  intros Hret Hg.
  induction before as [|[v t] before IH]; intros i successful failed.
  - cbn [app main_loop]. rewrite Hg. cbn [call_fn emit bind app].
    eexists. split; [reflexivity |].
    pose proof (get_transcript_writes_nothing api video_id) as Hw.
    pose proof (get_transcript_no_sleep api video_id) as Hs.
    rewrite Hg in Hw, Hs. cbn [fst] in Hw, Hs.
    cbn [file_contents List.filter is_sleep]. by rewrite Hw, Hs.
  - destruct (Hret (v, t)) as [r Hr]; [by left |]. cbn [fst] in Hr.
    destruct (get_transcript api v) as [trv res] eqn:Hv.
    cbn [snd] in Hr. subst res.
    destruct (main_loop_round api total i v t
                (before ++ (video_id, video_title) :: after)
                successful failed trv r Hv) as (head & Hround & Hfile & Hsl).
    destruct (IH (fun video Hin => Hret video (or_intror Hin)) (S i)
                (if transcript_truthy r then successful + 1 else successful)
                (if transcript_truthy r then failed else failed + 1))
      as (tr & Hrest & Hfile' & Hsl').
    rewrite Hrest in Hround.
    exists (head ++ Sleep 1 :: tr). split; [exact Hround |]. split.
    + rewrite file_contents_app. cbn [file_contents].
      rewrite Hfile, Hfile'. reflexivity.
    + rewrite List.filter_app, Hsl. cbn [List.filter is_sleep app].
      by rewrite Hsl'.
Qed.

(** The loop on videos for which [get_transcript] returns: its pauses. *)
Lemma main_loop_sleeps
    (api : Upstream.YouTubeTranscriptApi) (total : nat)
    (video_data : list (string * string)) :
  (forall video, In video video_data ->
     exists r, snd (get_transcript api (fst video)) = Ok r) ->
  forall i successful failed,
    List.filter is_sleep
      (fst (main_loop api total i video_data successful failed))
    = repeat (Sleep 1) (length video_data).
Proof.
  intros Hret.
  induction video_data as [|[v t] rest IH]; intros i successful failed;
    [done |].
  destruct (Hret (v, t)) as [r Hr]; [by left |]. cbn [fst] in Hr.
  destruct (get_transcript api v) as [trv res] eqn:Hv.
  cbn [snd] in Hr. subst res.
  destruct (main_loop_round api total i v t rest successful failed trv r Hv)
    as (head & -> & _ & Hsl).
  specialize (IH (fun video Hin => Hret video (or_intror Hin)) (S i)
                (if transcript_truthy r then successful + 1 else successful)
                (if transcript_truthy r then failed else failed + 1)).
  destruct (main_loop api total (S i) rest _ _) as [tr c].
  cbn [fst] in IH |- *.
  rewrite List.filter_app, Hsl. cbn [List.filter is_sleep app length repeat].
  by rewrite IH.
Qed.

(** The shape of one round of the loop. *)
Lemma main_loop_round_shape
    (api : Upstream.YouTubeTranscriptApi) (total i : nat)
    (video_id video_title : string) (rest : list (string * string))
    (successful failed : nat) (trg : trace) (r : option string) :
  get_transcript api video_id = (trg, Ok r) ->
  exists writes,
    main_loop api total i ((video_id, video_title) :: rest) successful failed
    = (let '(tr, c) :=
         main_loop api total (S i) rest
           (if transcript_truthy r then successful + 1 else successful)
           (if transcript_truthy r then failed else failed + 1) in
       ((progress_line i total video_title :: trg ++ writes ++ [Sleep 1])
        ++ tr, c))
    /\ forallb is_file_write writes = true
    /\ file_contents writes = video_record api (video_id, video_title).
Proof.
  intros Hg.
  destruct (video_record_returned api video_id video_title r) as [_ Hrec];
    [by rewrite Hg |].
  rewrite Hrec. cbn [main_loop]. rewrite Hg. cbn [call_fn emit bind].
  destruct (transcript_truthy r) eqn:Ht; cbn [negb emit bind fst snd app ret];
    destruct (main_loop api total (S i) rest _ _) as [tr c].
  - exists [File_write ("VIDEO: " +:+ video_title +:+ nl);
            File_write ("URL: https://youtube.com/watch?v="
                        +:+ video_id +:+ nl);
            File_write (str_mul "-" 30 +:+ nl);
            File_write (default "" r);
            File_write (nl +:+ nl +:+ str_mul "=" 50 +:+ nl +:+ nl)].
    repeat split.
    + unfold progress_line. cbn [app]. by rewrite <- !app_assoc.
    + cbn [file_contents].
      unfold success_record, url_line, canonical_url, separator_line,
        closing_line.
      by rewrite !append_assoc, ?append_empty_r.
  - exists [File_write ("FAILED TO GET TRANSCRIPT: " +:+ video_title +:+ nl);
            File_write ("URL: https://youtube.com/watch?v="
                        +:+ video_id +:+ nl);
            File_write (str_mul "-" 30 +:+ nl +:+ nl)].
    repeat split.
    + unfold progress_line. cbn [app]. by rewrite <- !app_assoc.
    + cbn [file_contents].
      unfold failure_record, url_line, canonical_url, separator_line.
      by rewrite !append_assoc, ?append_empty_r.
Qed.

(** The loop as a sequence of rounds. *)
Lemma main_loop_rounds
    (api : Upstream.YouTubeTranscriptApi) (total : nat)
    (video_data : list (string * string)) :
  (forall video, In video video_data ->
     exists r, snd (get_transcript api (fst video)) = Ok r) ->
  forall i successful failed,
  exists rounds,
    fst (main_loop api total i video_data successful failed) = concat rounds
    /\ rounds_from api total i video_data rounds.
Proof.
  intros Hret.
  induction video_data as [|[v t] rest IH]; intros i successful failed.
  - exists []. split; [done | constructor].
  - destruct (Hret (v, t)) as [r Hr]; [by left |]. cbn [fst] in Hr.
    destruct (get_transcript api v) as [trv res] eqn:Hv.
    cbn [snd] in Hr. subst res.
    destruct (main_loop_round_shape api total i v t rest successful failed
                trv r Hv) as (writes & -> & Hw & Hfile).
    destruct (IH (fun video Hin => Hret video (or_intror Hin)) (S i)
                (if transcript_truthy r then successful + 1 else successful)
                (if transcript_truthy r then failed else failed + 1))
      as (rounds & Hrest & Hrounds).
    destruct (main_loop api total (S i) rest _ _) as [tr c].
    cbn [fst] in Hrest |- *. subst tr.
    exists ((progress_line i total t :: trv ++ writes ++ [Sleep 1])
            :: rounds).
    split; [done |].
    pose proof (rounds_next api total i (v, t) rest writes rounds
                  Hw Hfile Hrounds) as Hnext.
    cbn [fst snd] in Hnext. by rewrite Hv in Hnext.
Qed.

(** X15.  The loop of [main] pauses for one second at the end of every
    video's round, with or without a transcript: between [open] and
    [close] the report is one round per video, in order, each made of the
    progress line, what [get_transcript] does for the video, the writes of
    its record and then the pause, so that a pause stands between the
    calls to the library for one video and those for the next.  There is
    no other pause: a report over n videos sleeps n times. *)
Theorem main_report_sleeps_once_per_video
    (api : Upstream.YouTubeTranscriptApi)
    (CHANNEL_NAME OUTPUT_FILE : string)
    (video_data : list (string * string)) :
  (forall video, In video video_data ->
     exists r, snd (get_transcript api (fst video)) = Ok r) ->
  exists rounds,
    fst (main_report api CHANNEL_NAME OUTPUT_FILE video_data)
    = File_open OUTPUT_FILE
      :: File_write ("Transcripts from " +:+ CHANNEL_NAME +:+ nl)
      :: File_write (str_mul "=" 50 +:+ nl +:+ nl)
      :: concat rounds ++ [File_close]
    /\ rounds_from api (length video_data) 1 video_data rounds
    /\ List.filter is_sleep
         (fst (main_report api CHANNEL_NAME OUTPUT_FILE video_data))
       = repeat (Sleep 1) (length video_data).
Proof.
  intros Hret.
  pose proof (main_loop_sleeps api (length video_data) video_data Hret 1 0 0)
    as Hs.
  destruct (main_loop_rounds api (length video_data) video_data Hret 1 0 0)
    as (rounds & Htr & Hrounds).
  exists rounds. unfold main_report, with_open. cbn [emit bind].
  destruct (main_loop api (length video_data) 1 video_data 0 0) as [tr c].
  cbn [fst app] in Hs, Htr |- *. subst tr. repeat split; [done |].
  cbn [List.filter is_sleep].
  rewrite List.filter_app, Hs. cbn. by rewrite app_nil_r.
Qed.

(** X16.  When [get_transcript] raises for a video (the library was
    interrupted), the report stops there: the file holds the header and
    the complete records of the videos before it, nothing of that video or
    of those after it, and it is closed before the exception goes on to
    the caller. *)
Theorem main_report_interrupted
    (api : Upstream.YouTubeTranscriptApi)
    (CHANNEL_NAME OUTPUT_FILE : string)
    (before : list (string * string)) (video_id video_title : string)
    (after : list (string * string)) (trg : trace) (e : exn) :
  (forall video, In video before ->
     exists r, snd (get_transcript api (fst video)) = Ok r) ->
  get_transcript api video_id = (trg, Err e) ->
  exists tr,
    main_report api CHANNEL_NAME OUTPUT_FILE
      (before ++ (video_id, video_title) :: after)
    = (tr, Raise e)
    /\ file_contents tr
       = report_header CHANNEL_NAME +:+ records_of api before
    /\ last tr = Some File_close
    /\ List.filter is_sleep tr = repeat (Sleep 1) (length before).
Proof.
  intros Hret Hg.
  destruct (main_loop_interrupted api
              (length (before ++ (video_id, video_title) :: after))
              before video_id video_title after trg e Hret Hg 1 0 0)
    as (tr & Hloop & Hfile & Hsl).
  unfold main_report, with_open. cbn [emit bind]. rewrite Hloop.
  eexists. split; [reflexivity |]. repeat split.
  - cbn [app file_contents]. rewrite file_contents_app, Hfile.
    cbn [file_contents]. unfold report_header.
    by rewrite !append_assoc, append_empty_r.
  - by rewrite last_cons, last_app.
  - cbn [app List.filter is_sleep]. rewrite List.filter_app, Hsl. cbn.
    by rewrite app_nil_r.
Qed.

(** X17.  A whole run of [main] with a key, a channel that is found and
    videos on which [get_transcript] returns: what it prints, in order,
    around the calls of the two helpers and the report; the closing line
    carries the numbers of videos with and without a transcript, and the
    file holds the header and one record per video. *)
Theorem main_full_run
    (api : Upstream.YouTubeTranscriptApi)
    (CHANNEL_NAME API_KEY OUTPUT_FILE : string) (MAX_RESULTS : nat)
    (get_channel_id : string -> string -> trace * result (option string))
    (get_channel_videos :
       string -> string -> nat -> trace * result (list (string * string)))
    (tr_id tr_videos : trace) (channel_id : string)
    (video_data : list (string * string)) :
  API_KEY <> placeholder_key ->
  get_channel_id API_KEY CHANNEL_NAME = (tr_id, Ok (Some channel_id)) ->
  channel_id <> "" ->
  get_channel_videos API_KEY channel_id MAX_RESULTS
  = (tr_videos, Ok video_data) ->
  (forall video, In video video_data ->
     exists r, snd (get_transcript api (fst video)) = Ok r) ->
  exists report,
    main api CHANNEL_NAME API_KEY OUTPUT_FILE MAX_RESULTS
      get_channel_id get_channel_videos
    = (Print_line ("Starting transcript scraping for channel: "
                   +:+ CHANNEL_NAME)
       :: Print_line "Getting channel ID..."
       :: tr_id
       ++ Print_line ("Channel ID: " +:+ channel_id)
       :: Print_line "Getting video list..."
       :: tr_videos
       ++ Print_line ("Found " +:+ pretty (length video_data) +:+ " videos")
       :: report
       ++ completed_lines api OUTPUT_FILE video_data,
       Ok tt)
    /\ fst (main_report api CHANNEL_NAME OUTPUT_FILE video_data) = report
    /\ file_contents report
       = report_header CHANNEL_NAME +:+ records_of api video_data.
Proof.
  intros Hkey Hid Hne Hvideos Hret.
  destruct (main_loop_report api (length video_data) video_data Hret 1 0 0)
    as (tr & s & f & Hloop & -> & -> & Hfile).
  assert (main_report api CHANNEL_NAME OUTPUT_FILE video_data
          = (File_open OUTPUT_FILE
             :: [File_write ("Transcripts from " +:+ CHANNEL_NAME +:+ nl);
                 File_write (str_mul "=" 50 +:+ nl +:+ nl)]
             ++ tr ++ [File_close],
             Normal
               (0 + length (List.filter (is_success api) video_data),
                0 + length (List.filter (fun v => negb (is_success api v))
                              video_data)))) as Hreport.
  { unfold main_report, with_open. cbn [emit bind]. by rewrite Hloop. }
  eexists. split; [|split; [by rewrite Hreport |]].
  - unfold main, main_body.
    destruct (String.eqb API_KEY "YOUR_YOUTUBE_API_KEY_HERE") eqn:Heq.
    { apply String.eqb_eq in Heq. by destruct Hkey. }
    cbn [emit bind]. rewrite Hid. cbn [call_fn bind channel_id_truthy].
    assert (str_truthy channel_id = true) as -> by by destruct channel_id.
    change (default "" (Some channel_id)) with channel_id.
    cbn [negb emit bind]. rewrite Hvideos.
    cbn [call_fn bind]. rewrite Hreport.
    cbn [bind emit ret run_function fst snd app]. unfold completed_lines.
    cbn [Nat.add]. reflexivity.
  - cbn [fst app file_contents]. rewrite file_contents_app, Hfile.
    cbn [file_contents]. unfold report_header, records_of.
    by rewrite !append_assoc, append_empty_r.
Qed.

(** X18.  [main] opens, writes or closes the output file only after it
    found a key other than the placeholder, a non-empty channel id and the
    list of videos: in every other run an existing report is left as it
    is.  The helpers themselves are taken not to touch the file. *)
Theorem main_touches_file_only_with_videos
    (api : Upstream.YouTubeTranscriptApi)
    (CHANNEL_NAME API_KEY OUTPUT_FILE : string) (MAX_RESULTS : nat)
    (get_channel_id : string -> string -> trace * result (option string))
    (get_channel_videos :
       string -> string -> nat -> trace * result (list (string * string))) :
  (forall key name,
     existsb is_file_event (fst (get_channel_id key name)) = false) ->
  (forall key channel_id n,
     existsb is_file_event (fst (get_channel_videos key channel_id n))
     = false) ->
  existsb is_file_event
    (fst (main api CHANNEL_NAME API_KEY OUTPUT_FILE MAX_RESULTS
            get_channel_id get_channel_videos)) = true ->
  API_KEY <> placeholder_key
  /\ exists channel_id video_data,
       snd (get_channel_id API_KEY CHANNEL_NAME) = Ok (Some channel_id)
       /\ channel_id <> ""
       /\ snd (get_channel_videos API_KEY channel_id MAX_RESULTS)
          = Ok video_data.
Proof.
  intros Hid Hvideos. unfold main, main_body.
  destruct (String.eqb API_KEY "YOUR_YOUTUBE_API_KEY_HERE") eqn:Heq;
    [cbn; discriminate |].
  intros H. split.
  { intros ->. by rewrite String.eqb_refl in Heq. }
  specialize (Hid API_KEY CHANNEL_NAME).
  destruct (get_channel_id API_KEY CHANNEL_NAME) as [tr1 [[cid|]|e]];
    cbn [fst] in Hid; cbn in H;
    try (rewrite ?existsb_app, Hid in H; cbn in H; discriminate).
  destruct cid as [|c cid]; cbn in H;
    [rewrite ?existsb_app, Hid in H; cbn in H; discriminate |].
  exists (String c cid).
  specialize (Hvideos API_KEY (String c cid) MAX_RESULTS).
  change (default "" (Some (String c cid))) with (String c cid) in H.
  destruct (get_channel_videos API_KEY (String c cid) MAX_RESULTS)
    as [tr2 [video_data|e]]; cbn [fst] in Hvideos; cbn in H.
  - by exists video_data.
  - rewrite existsb_app, Hid in H. cbn in H.
    rewrite Hvideos in H. discriminate.
Qed.

Lemma join_empty (ss : list string) :
  join " " ss = "" -> ss = [] \/ ss = [""].
Proof.
  destruct ss as [|s [|s' ss]]; cbn [join].
  - by left.
  - intros ->. by right.
  - destruct s; discriminate.
Qed.

(** X19.  [get_transcript] returns the empty text only for a transcript
    of exactly one segment whose text is empty; [main] takes that result
    for a failure and writes the record of a video without transcript. *)
Theorem get_transcript_empty_text
    (api : Upstream.YouTubeTranscriptApi) (video_id video_title : string)
    (tr : trace) :
  get_transcript api video_id = (tr, Ok (Some "")) ->
  written_record api (video_id, video_title)
  = failure_record video_id video_title
  /\ is_success api (video_id, video_title) = false
  /\ exists d, retrieved api video_id d /\ segment_texts d = Some [""].
Proof.
  intros H.
  destruct (video_record_returned api video_id video_title (Some ""))
    as [Hs Hrec]; [by rewrite H |].
  cbn in Hs, Hrec. repeat split; [|done|].
  - unfold written_record.
    destruct (main_loop_report api 1 [(video_id, video_title)]) with
      (i := 1) (successful := 0) (failed := 0)
      as (tr' & s & f & Hloop & _ & _ & Hfile).
    + intros video [<-|[]]. cbn [fst]. rewrite H. by eexists.
    + rewrite Hloop. cbn [fst]. rewrite Hfile. cbn [map str_concat].
      by rewrite Hrec, append_empty_r.
  - apply get_transcript_outcome in H as (d & ss & Hr & Hne & Hss & Hjoin).
    exists d. split.
    + pose proof (retrieve_transcript_data_outcome api video_id) as Hout.
      by rewrite Hr in Hout.
    + symmetry in Hjoin. apply join_empty in Hjoin as [->| ->]; [|done].
      destruct d as [|x d]; [done |]. cbn in Hss.
      destruct (segment_text x); [|discriminate].
      destruct (segment_texts d); discriminate.
Qed.


(** * The further statements at the demo server and library *)

Example get_channel_id_found :
  get_channel_id demo_build "key" "3Blue1Brown"
  = ([DataApi.Build "youtube" "v3" "key";
      DataApi.Search_list "3Blue1Brown" "channel" "id,snippet" 1],
     Some (DataApi.Ans (DataApi.JStr "UC_demo"))).
Proof. vm_compute. reflexivity. Qed.

Example get_channel_videos_two_pages :
  get_channel_videos demo_build 5 "key" (DataApi.JStr "UC_demo") 50
  = ([DataApi.Build "youtube" "v3" "key";
      DataApi.Channels_list "contentDetails" (DataApi.JStr "UC_demo");
      DataApi.PlaylistItems_list "snippet" (DataApi.JStr "UU_demo") 50
        DataApi.JNull;
      DataApi.Channels_list "contentDetails" (DataApi.JStr "UC_demo");
      DataApi.PlaylistItems_list "snippet" (DataApi.JStr "UU_demo") 50
        (DataApi.JStr "p2")],
     Some (DataApi.Ans
             [(DataApi.JStr "v1", DataApi.JStr "One");
              (DataApi.JStr "v2", DataApi.JStr "Two");
              (DataApi.JStr "v3", DataApi.JStr "Three")])).
Proof. vm_compute. reflexivity. Qed.

(** The second page of this channel is refused: the two videos of the
    first page are returned. *)
Example get_channel_videos_flaky :
  get_channel_videos demo_build 5 "key" (DataApi.JStr "UC_flaky") 50
  = ([DataApi.Build "youtube" "v3" "key";
      DataApi.Channels_list "contentDetails" (DataApi.JStr "UC_flaky");
      DataApi.PlaylistItems_list "snippet" (DataApi.JStr "UU_flaky") 50
        DataApi.JNull;
      DataApi.Channels_list "contentDetails" (DataApi.JStr "UC_flaky");
      DataApi.PlaylistItems_list "snippet" (DataApi.JStr "UU_flaky") 50
        (DataApi.JStr "p2");
      DataApi.Printed ("An HTTP error occurred: " +:+ quota_exceeded)],
     Some (DataApi.Ans
             [(DataApi.JStr "v1", DataApi.JStr "One");
              (DataApi.JStr "v2", DataApi.JStr "Two")])).
Proof. vm_compute. reflexivity. Qed.

(** A channel id the server does not know: the [IndexError] of
    [items[0]] reaches the caller. *)
Example get_channel_videos_bare :
  get_channel_videos demo_build 5 "key" (DataApi.JStr "UC_bare") 50
  = ([DataApi.Build "youtube" "v3" "key";
      DataApi.Channels_list "contentDetails" (DataApi.JStr "UC_bare")],
     Some (DataApi.Fail (DataApi.IndexError "list index out of range"))).
Proof. vm_compute. reflexivity. Qed.

(** Every strategy tried and failed: twelve calls. *)
Example get_transcript_twelve_calls :
  length (fst (get_transcript second_api "stubborn")) = 12
  /\ snd (get_transcript second_api "stubborn") = Ok None.
Proof. split; vm_compute; reflexivity. Qed.

Lemma get_channel_id_is_first_hit_demo :
  exists youtube response items first id,
    demo_build "youtube" "v3" "key" = DataApi.Ans youtube
    /\ DataApi.search_list youtube "3Blue1Brown" "channel" "id,snippet" 1
       = DataApi.Ans response
    /\ DataApi.subscript response "items" = DataApi.Ans items
    /\ DataApi.index0 items = DataApi.Ans first
    /\ DataApi.subscript first "id" = DataApi.Ans id
    /\ DataApi.subscript id "channelId"
       = DataApi.Ans (DataApi.JStr "UC_demo")
    /\ [DataApi.Build "youtube" "v3" "key";
        DataApi.Search_list "3Blue1Brown" "channel" "id,snippet" 1]
       = [DataApi.Build "youtube" "v3" "key";
          DataApi.Search_list "3Blue1Brown" "channel" "id,snippet" 1].
Proof.
  apply (get_channel_id_is_first_hit demo_build "key" "3Blue1Brown"
           [DataApi.Build "youtube" "v3" "key";
            DataApi.Search_list "3Blue1Brown" "channel" "id,snippet" 1]
           (DataApi.JStr "UC_demo"));
    [vm_compute; reflexivity | discriminate].
Defined.

Lemma get_channel_id_none_demo :
  none_cause demo_build "key" "nobody"
    [DataApi.Build "youtube" "v3" "key";
     DataApi.Search_list "nobody" "channel" "id,snippet" 1;
     DataApi.Printed "Channel 'nobody' not found"].
Proof.
  apply (proj1 (get_channel_id_none demo_build "key" "nobody" _)).
  vm_compute. reflexivity.
Defined.

Lemma get_channel_id_escape_demo :
  (demo_build "youtube" "v3" "key"
   = DataApi.Fail (DataApi.Other (mk_exn KeyError "'items'"))
   /\ [DataApi.Build "youtube" "v3" "key";
       DataApi.Search_list "odd" "channel" "id,snippet" 1]
      = [DataApi.Build "youtube" "v3" "key"])
  \/ (DataApi.is_HttpError (DataApi.Other (mk_exn KeyError "'items'")) = false
      /\ [DataApi.Build "youtube" "v3" "key";
          DataApi.Search_list "odd" "channel" "id,snippet" 1]
         = [DataApi.Build "youtube" "v3" "key";
            DataApi.Search_list "odd" "channel" "id,snippet" 1]).
Proof.
  apply (get_channel_id_escape demo_build "key" "odd").
  vm_compute. reflexivity.
Defined.

Lemma first_page_at (uploads : string) :
  DataApi.playlistItems_list demo_youtube "snippet" (DataApi.JStr uploads) 50
    DataApi.JNull = DataApi.Ans first_page ->
  page_at demo_youtube (DataApi.JStr uploads) 50 DataApi.JNull
    first_videos (DataApi.JStr "p2").
Proof.
  intros H. exists first_page, (DataApi.JList first_items), first_items.
  repeat split; [exact H | vm_compute; reflexivity..].
Defined.

Lemma demo_pages :
  pages demo_youtube (DataApi.JStr "UU_demo") 50 DataApi.JNull
    [(DataApi.JNull, first_videos); (DataApi.JStr "p2", last_videos)].
Proof.
  apply pages_more with (next := DataApi.JStr "p2");
    [apply first_page_at; reflexivity | reflexivity |].
  apply pages_last with (next := DataApi.JNull); [|reflexivity].
  exists last_page, (DataApi.JList last_items), last_items.
  repeat split; vm_compute; reflexivity.
Defined.

Lemma get_channel_videos_all_pages_demo :
  get_channel_videos demo_build 2 "key" (DataApi.JStr "UC_demo") 50
  = (DataApi.Build "youtube" "v3" "key"
     :: round_requests (DataApi.JStr "UC_demo") (DataApi.JStr "UU_demo") 50
          [(DataApi.JNull, first_videos); (DataApi.JStr "p2", last_videos)],
     Some (DataApi.Ans
             (videos_on
                [(DataApi.JNull, first_videos);
                 (DataApi.JStr "p2", last_videos)]))).
Proof.
  apply (get_channel_videos_all_pages demo_build demo_youtube "key"
           (DataApi.JStr "UC_demo") (channel_details "UU_demo")
           (DataApi.JStr "UU_demo") 50 2);
    [reflexivity | reflexivity | vm_compute; reflexivity
    | exact demo_pages | cbn; lia].
Defined.

Lemma flaky_pages :
  pages_before_error demo_youtube (DataApi.JStr "UU_flaky") 50 quota_exceeded
    DataApi.JNull [(DataApi.JNull, first_videos)] (DataApi.JStr "p2").
Proof.
  apply error_later with (next := DataApi.JStr "p2");
    [apply first_page_at; reflexivity | reflexivity |].
  apply error_here. reflexivity.
Defined.

Lemma get_channel_videos_http_error_demo :
  get_channel_videos demo_build 2 "key" (DataApi.JStr "UC_flaky") 50
  = (DataApi.Build "youtube" "v3" "key"
     :: round_requests (DataApi.JStr "UC_flaky") (DataApi.JStr "UU_flaky") 50
          [(DataApi.JNull, first_videos)]
     ++ [DataApi.Channels_list "contentDetails" (DataApi.JStr "UC_flaky");
         DataApi.PlaylistItems_list "snippet" (DataApi.JStr "UU_flaky") 50
           (DataApi.JStr "p2");
         DataApi.Printed ("An HTTP error occurred: " +:+ quota_exceeded)],
     Some (DataApi.Ans (videos_on [(DataApi.JNull, first_videos)]))).
Proof.
  apply (get_channel_videos_http_error demo_build demo_youtube "key"
           (DataApi.JStr "UC_flaky") (channel_details "UU_flaky")
           (DataApi.JStr "UU_flaky") 50 2 quota_exceeded
           [(DataApi.JNull, first_videos)] (DataApi.JStr "p2"));
    [reflexivity | reflexivity | vm_compute; reflexivity
    | exact flaky_pages | cbn; lia].
Defined.

Lemma get_channel_videos_channel_http_error_demo :
  get_channel_videos demo_build 1 "key" (DataApi.JStr "UC_down") 50
  = ([DataApi.Build "youtube" "v3" "key";
      DataApi.Channels_list "contentDetails" (DataApi.JStr "UC_down");
      DataApi.Printed ("An HTTP error occurred: " +:+ backend_error)],
     Some (DataApi.Ans [])).
Proof.
  apply (get_channel_videos_channel_http_error demo_build demo_youtube "key"
           (DataApi.JStr "UC_down") 50 1 backend_error);
    [reflexivity | reflexivity | lia].
Defined.

Lemma get_channel_videos_unknown_channel_demo :
  get_channel_videos demo_build 1 "key" (DataApi.JStr "UC_bare") 50
  = ([DataApi.Build "youtube" "v3" "key";
      DataApi.Channels_list "contentDetails" (DataApi.JStr "UC_bare")],
     Some (DataApi.Fail (DataApi.IndexError "list index out of range")))
  /\ DataApi.is_HttpError (DataApi.IndexError "list index out of range")
     = false.
Proof.
  apply (get_channel_videos_unknown_channel demo_build demo_youtube "key"
           (DataApi.JStr "UC_bare") channel_unknown 50 1);
    [reflexivity | reflexivity | vm_compute; reflexivity | lia].
Defined.

Lemma get_channel_videos_escape_demo :
  demo_build "youtube" "v3" "key"
  = DataApi.Fail (DataApi.IndexError "list index out of range")
  \/ DataApi.is_HttpError (DataApi.IndexError "list index out of range")
     = false.
Proof.
  apply (get_channel_videos_escape demo_build "key" (DataApi.JStr "UC_bare")
           50 3
           [DataApi.Build "youtube" "v3" "key";
            DataApi.Channels_list "contentDetails" (DataApi.JStr "UC_bare")]).
  vm_compute. reflexivity.
Defined.

Lemma endless_page_at (token : DataApi.json) :
  exists videos next,
    page_at demo_youtube (DataApi.JStr "UU_loop") 50 token videos next
    /\ DataApi.truthy next = true.
Proof.
  exists [(DataApi.JStr "v0", DataApi.JStr "Again")], (DataApi.JStr "more").
  split; [|reflexivity].
  exists endless_page, (DataApi.JList endless_items), endless_items.
  repeat split; vm_compute; reflexivity.
Defined.

Lemma get_channel_videos_endless_demo :
  snd (get_channel_videos demo_build 7 "key" (DataApi.JStr "UC_loop") 50)
  = None.
Proof.
  apply (get_channel_videos_endless demo_build demo_youtube "key"
           (DataApi.JStr "UC_loop") (channel_details "UU_loop")
           (DataApi.JStr "UU_loop") 50);
    [reflexivity | reflexivity | vm_compute; reflexivity
    | exact endless_page_at].
Defined.

Lemma get_transcript_older_first_code_demo :
  get_transcript older_api "video"
  = (Call_list_transcripts "video"
     :: code_calls "video" (["en"; "en-US"] ++ ["en-GB"]),
     Ok (Some (join " " ["a"; "b"; "c"]))).
Proof.
  apply (get_transcript_older_first_code older_api "video"
           (mk_exn AttributeError
              "type object 'YouTubeTranscriptApi' has no attribute 'list_transcripts'")
           ["en"; "en-US"] "en-GB" [] abc_segments ["a"; "b"; "c"]);
    [reflexivity | reflexivity | reflexivity
    | intros c [<-|[<-|[]]]; exists NoTranscriptFound; reflexivity
    | reflexivity | discriminate | vm_compute; reflexivity].
Defined.

Lemma older_spanish_codes_fruitless :
  codes_fruitless older_spanish_api "video" language_codes.
Proof.
  apply every_code_raises.
  intros c _. exists NoTranscriptFound. reflexivity.
Defined.

Lemma get_transcript_older_any_language_demo :
  get_transcript older_spanish_api "video"
  = (older_calls "video" language_codes,
     Ok (Some (join " " ["hola"; "mundo"]))).
Proof.
  apply (proj1 (get_transcript_older_any_language older_spanish_api "video"
                  (mk_exn AttributeError
                     "type object 'YouTubeTranscriptApi' has no attribute 'list_transcripts'")
                  language_codes eq_refl eq_refl
                  older_spanish_codes_fruitless)
           hola_segments ["hola"; "mundo"]);
    [reflexivity | discriminate | vm_compute; reflexivity].
Defined.

Lemma get_transcript_older_never_raises_demo :
  exists tr r, get_transcript older_api "video" = (tr, Ok r).
Proof.
  apply (get_transcript_older_never_raises older_api "video"
           (mk_exn AttributeError
              "type object 'YouTubeTranscriptApi' has no attribute 'list_transcripts'"));
    reflexivity.
Defined.

Lemma get_transcript_ill_formed_segments_demo :
  exists e,
    get_transcript second_api "mixed"
    = ([Call_list_transcripts "mixed";
        Call_find_manually_created_transcript ["en"];
        Call_fetch mixed_transcript;
        could_not_retrieve "mixed" e],
       Ok None)
    /\ if existsb lacks_text mixed_segments
       then e = mk_exn KeyError "'text'"
       else exn_cls e = TypeError.
Proof.
  apply (get_transcript_ill_formed_segments second_api "mixed" mixed_list
           mixed_transcript mixed_segments);
    [reflexivity | reflexivity | reflexivity | vm_compute; reflexivity].
Defined.

(** The videos of the demo library all get an answer. *)
Lemma three_videos_return :
  forall video,
    In video three_videos ->
    exists r, snd (get_transcript demo_api (fst video)) = Ok r.
Proof.
  intros video [<-|[<-|[<-|[]]]]; cbn [fst].
  - exists (Some "a b c"). vm_compute. reflexivity.
  - exists None. vm_compute. reflexivity.
  - exists (Some "hello world"). vm_compute. reflexivity.
Defined.

Lemma main_report_sleeps_once_per_video_demo :
  exists rounds,
    fst (main_report demo_api "Chan" "out.txt" three_videos)
    = File_open "out.txt"
      :: File_write ("Transcripts from " +:+ "Chan" +:+ nl)
      :: File_write (str_mul "=" 50 +:+ nl +:+ nl)
      :: concat rounds ++ [File_close]
    /\ rounds_from demo_api (length three_videos) 1 three_videos rounds
    /\ List.filter is_sleep
         (fst (main_report demo_api "Chan" "out.txt" three_videos))
       = repeat (Sleep 1) (length three_videos).
Proof.
  apply (main_report_sleeps_once_per_video demo_api "Chan" "out.txt"
           three_videos).
  exact three_videos_return.
Defined.

(** The calls that open the work on a video, and the pauses, in the order
    of the run: a pause stands after each video. *)
Example report_pauses_between_videos :
  List.filter
    (fun ev =>
       is_sleep ev
       || match ev with Call_list_transcripts _ => true | _ => false end)
    (fst (main_report demo_api "Chan" "out.txt" three_videos))
  = [Call_list_transcripts "manual"; Sleep 1;
     Call_list_transcripts "none"; Sleep 1;
     Call_list_transcripts "auto"; Sleep 1].
Proof. vm_compute. reflexivity. Qed.

Lemma main_report_interrupted_demo :
  exists tr,
    main_report second_api "Chan" "out.txt"
      ([("manual", "First")] ++ ("stop", "Second") :: [("auto", "Third")])
    = (tr, Raise (mk_exn KeyboardInterrupt ""))
    /\ file_contents tr
       = report_header "Chan" +:+ records_of second_api [("manual", "First")]
    /\ last tr = Some File_close
    /\ List.filter is_sleep tr = repeat (Sleep 1) (length [("manual", "First")]).
Proof.
  apply (main_report_interrupted second_api "Chan" "out.txt"
           [("manual", "First")] "stop" "Second" [("auto", "Third")]
           [Call_list_transcripts "stop"] (mk_exn KeyboardInterrupt "")).
  - intros video [<-|[]]. exists (Some "a b c"). vm_compute. reflexivity.
  - vm_compute. reflexivity.
Defined.

Lemma main_full_run_demo :
  exists report,
    main demo_api "Chan" "key" "out.txt" 50
      (fun _ _ => ([], Ok (Some "UC1"))) (fun _ _ _ => ([], Ok three_videos))
    = (Print_line ("Starting transcript scraping for channel: " +:+ "Chan")
       :: Print_line "Getting channel ID..."
       :: []
       ++ Print_line ("Channel ID: " +:+ "UC1")
       :: Print_line "Getting video list..."
       :: []
       ++ Print_line ("Found " +:+ pretty (length three_videos) +:+ " videos")
       :: report
       ++ completed_lines demo_api "out.txt" three_videos,
       Ok tt)
    /\ fst (main_report demo_api "Chan" "out.txt" three_videos) = report
    /\ file_contents report
       = report_header "Chan" +:+ records_of demo_api three_videos.
Proof.
  apply (main_full_run demo_api "Chan" "key" "out.txt" 50
           (fun _ _ => ([], Ok (Some "UC1")))
           (fun _ _ _ => ([], Ok three_videos))
           [] [] "UC1" three_videos);
    [discriminate | reflexivity | discriminate | reflexivity
    | exact three_videos_return].
Defined.

Lemma main_touches_file_only_with_videos_demo :
  "key" <> placeholder_key
  /\ exists channel_id video_data,
       snd ((fun _ _ : string => (@nil event, Ok (Some "UC1"))) "key" "Chan")
       = Ok (Some channel_id)
       /\ channel_id <> ""
       /\ snd ((fun (_ _ : string) (_ : nat) => (@nil event, Ok three_videos))
                 "key" channel_id 50)
          = Ok video_data.
Proof.
  apply (main_touches_file_only_with_videos demo_api "Chan" "key" "out.txt" 50
           (fun _ _ => ([], Ok (Some "UC1")))
           (fun _ _ _ => ([], Ok three_videos)));
    [reflexivity | reflexivity | vm_compute; reflexivity].
Defined.

Lemma get_transcript_empty_text_demo :
  written_record second_api ("blank", "Quiet")
  = failure_record "blank" "Quiet"
  /\ is_success second_api ("blank", "Quiet") = false
  /\ exists d, retrieved second_api "blank" d /\ segment_texts d = Some [""].
Proof.
  apply (get_transcript_empty_text second_api "blank" "Quiet"
           [Call_list_transcripts "blank";
            Call_find_manually_created_transcript ["en"];
            Call_fetch blank_transcript]).
  vm_compute. reflexivity.
Defined.
